(** * hystrix-py: command properties and command metrics

    A shallow embedding of [hystrix/command_properties.py] and
    [hystrix/command_metrics.py], and the properties of the health snapshot,
    the outcome markers and the property resolution proved on it. *)

From Stdlib Require Import ZArith List String Bool Lia.
From Stdlib Require Import Floats.SpecFloat.
Import ListNotations.

Local Open Scope Z_scope.

(** ** Python numbers, as the source uses them

    [health_counts] evaluates [int(error_count / total_count * 100)] on
    integers.  The package declares both Python 2 and Python 3 (setup.py)
    and the module does not import [division] from [__future__], so [/] is
    floor division on Python 2 and true division, into a binary64 float,
    on Python 3. *)
Module PyNum.

Inductive PyVersion := Py2 | Py3.

(** The exceptions in play: those of the arithmetic, the [ConfigError]
    of the spec (the sources define and raise no such exception), and
    whatever a notification listener raises. *)
Inductive PyExn :=
| ZeroDivisionError
| OverflowError
| ValueError
| ConfigError
| HookError (tag : Z).

(** binary64 *)
Definition prec : Z := 53.
Definition emax : Z := 1024.

Definition float := spec_float.

(** [float(n)] of an integer: the nearest binary64, ties to even. *)
Definition float_of_int (n : Z) : float :=
  binary_normalize prec emax n 0 false.

(** [a / b] on two integers under Python 3: the correctly rounded
    quotient (CPython's [long_true_divide]); the division core of
    [SFdiv] takes the two integers as mantissas with exponent 0.
    A zero divisor raises, and so does a quotient too large for a
    float. *)
Definition int_truediv (a b : Z) : PyExn + float :=
  match a, b with
  | _, Z0 => inl ZeroDivisionError
  | Z0, _ => inr (S754_zero (b <? 0))
  | _, _ =>
      match SFdiv prec emax
              (S754_finite (a <? 0) (Z.to_pos (Z.abs a)) 0)
              (S754_finite (b <? 0) (Z.to_pos (Z.abs b)) 0) with
      | S754_infinity _ => inl OverflowError
      | q => inr q
      end
  end.

(** [x * n] for a float [x] and an integer [n]: [n] is converted first. *)
Definition float_mul_int (x : float) (n : Z) : float :=
  SFmul prec emax x (float_of_int n).

(** [int(x)] of a float: truncation toward zero; infinities and NaN
    raise. *)
Definition int_of_float (x : float) : PyExn + Z :=
  match x with
  | S754_zero _ => inr 0
  | S754_infinity _ => inl OverflowError
  | S754_nan => inl ValueError
  | S754_finite s m e =>
      let t := match e with
               | Zneg k => Z.shiftr (Zpos m) (Zpos k)
               | _ => Z.shiftl (Zpos m) e
               end in
      inr (if s then - t else t)
  end.

(** [int(error_count / total_count * 100)], line 162. *)
Definition percentage (py : PyVersion) (error_count total_count : Z)
  : PyExn + Z :=
  match py with
  | Py2 =>
      if total_count =? 0 then inl ZeroDivisionError
      else inr (error_count / total_count * 100)
  | Py3 =>
      match int_truediv error_count total_count with
      | inl e => inl e
      | inr q => int_of_float (float_mul_int q 100)
      end
  end.

(** The percentage in exact arithmetic, as the spec words it:
    [floor(error / total * 100)], or 0 if [total == 0]. *)
Definition exact_percentage (error_count total_count : Z) : Z :=
  if total_count =? 0 then 0 else error_count * 100 / total_count.

End PyNum.

Import PyNum.

(** ** Command properties ([hystrix/command_properties.py]) *)
Module CommandProperties.

(** A property value.  The source stores whatever object the setter was
    given; the defaults are integers and booleans ([bool] is a subclass
    of [int] in Python). *)
Inductive PyValue := PyBool (b : bool) | PyInt (n : Z).

Definition as_int (v : PyValue) : Z :=
  match v with
  | PyBool b => if b then 1 else 0
  | PyInt n => n
  end.

(** A key is a string or [None]. *)
Definition Key := option string.

(** Default values, lines 11-79. *)
Definition default_metrics_rolling_statistical_window := PyInt 10000.
Definition default_metrics_rolling_statistical_window_buckets := PyInt 10.
Definition default_circuit_breaker_request_volume_threshold := PyInt 20.
Definition default_circuit_breaker_sleep_window_in_milliseconds :=
  PyInt 5000.
Definition default_circuit_breaker_error_threshold_percentage := PyInt 50.
Definition default_circuit_breaker_force_open := PyBool false.
Definition default_circuit_breaker_force_closed := PyBool false.
Definition default_execution_timeout_in_milliseconds := PyInt 1000.
Definition default_execution_isolation_strategy := PyInt 0.
Definition default_execution_isolation_thread_interrupt_on_timeout :=
  PyBool true.
Definition default_metrics_rolling_percentile_enabled := PyBool true.
Definition default_request_cache_enabled := PyBool true.
Definition default_fallback_isolation_semaphore_max_concurrent_requests :=
  PyInt 10.
Definition default_fallback_enabled := PyBool true.
Definition default_execution_isolation_semaphore_max_concurrent_requests :=
  PyInt 10.
Definition default_request_log_enabled := PyBool true.
Definition default_circuit_breaker_enabled := PyBool true.
Definition default_metrics_rolling_percentile_window := PyInt 60000.
Definition default_metrics_rolling_percentile_window_buckets := PyInt 6.
Definition default_metrics_rolling_percentile_bucket_size := PyInt 100.
Definition default_metrics_health_snapshot_interval_in_milliseconds :=
  PyInt 500.

(** [_property], lines 512-521: the setter override takes precedence
    over the default; the prefix, the key and the property name are not
    consulted. *)
Definition _property (property_prefix command_key : Key)
    (instance_property : string) (default_value : PyValue)
    (setter_override_value : option PyValue) : PyValue :=
  match setter_override_value with
  | Some v => v
  | None => default_value
  end.

(** The fluent [Setter], lines 528-709.  An unset override is [None];
    each [with_...] stores its argument and returns the setter (fields
    in the order of [Setter.__init__]). *)
Module Setter.

Record t := {
  _circuit_breaker_enabled : option PyValue;
  _circuit_breaker_error_threshold_percentage : option PyValue;
  _circuit_breaker_force_closed : option PyValue;
  _circuit_breaker_force_open : option PyValue;
  _circuit_breaker_request_volume_threshold : option PyValue;
  _circuit_breaker_sleep_window_in_milliseconds : option PyValue;
  _execution_isolation_semaphore_max_concurrent_requests : option PyValue;
  _execution_isolation_strategy : option PyValue;
  _execution_isolation_thread_interrupt_on_timeout : option PyValue;
  _execution_timeout_in_milliseconds : option PyValue;
  _fallback_isolation_semaphore_max_concurrent_requests : option PyValue;
  _fallback_enabled : option PyValue;
  _metrics_health_snapshot_interval_in_milliseconds : option PyValue;
  _metrics_rolling_percentile_bucket_size : option PyValue;
  _metrics_rolling_percentile_enabled : option PyValue;
  _metrics_rolling_percentile_window_in_milliseconds : option PyValue;
  _metrics_rolling_percentile_window_buckets : option PyValue;
  _metrics_rolling_statistical_window_in_milliseconds : option PyValue;
  _metrics_rolling_statistical_window_buckets : option PyValue;
  _request_cache_enabled : option PyValue;
  _request_log_enabled : option PyValue
}.

(** [Setter.__init__]: no override is set. *)
Definition __init__ : t :=
  {| _circuit_breaker_enabled := None;
     _circuit_breaker_error_threshold_percentage := None;
     _circuit_breaker_force_closed := None;
     _circuit_breaker_force_open := None;
     _circuit_breaker_request_volume_threshold := None;
     _circuit_breaker_sleep_window_in_milliseconds := None;
     _execution_isolation_semaphore_max_concurrent_requests := None;
     _execution_isolation_strategy := None;
     _execution_isolation_thread_interrupt_on_timeout := None;
     _execution_timeout_in_milliseconds := None;
     _fallback_isolation_semaphore_max_concurrent_requests := None;
     _fallback_enabled := None;
     _metrics_health_snapshot_interval_in_milliseconds := None;
     _metrics_rolling_percentile_bucket_size := None;
     _metrics_rolling_percentile_enabled := None;
     _metrics_rolling_percentile_window_in_milliseconds := None;
     _metrics_rolling_percentile_window_buckets := None;
     _metrics_rolling_statistical_window_in_milliseconds := None;
     _metrics_rolling_statistical_window_buckets := None;
     _request_cache_enabled := None;
     _request_log_enabled := None |}.

Definition circuit_breaker_enabled (self : t) :=
  _circuit_breaker_enabled self.
Definition circuit_breaker_error_threshold_percentage (self : t) :=
  _circuit_breaker_error_threshold_percentage self.
Definition circuit_breaker_force_closed (self : t) :=
  _circuit_breaker_force_closed self.
Definition circuit_breaker_force_open (self : t) :=
  _circuit_breaker_force_open self.
Definition circuit_breaker_request_volume_threshold (self : t) :=
  _circuit_breaker_request_volume_threshold self.
Definition circuit_breaker_sleep_window_in_milliseconds (self : t) :=
  _circuit_breaker_sleep_window_in_milliseconds self.
Definition execution_isolation_semaphore_max_concurrent_requests (self : t) :=
  _execution_isolation_semaphore_max_concurrent_requests self.
Definition execution_isolation_strategy (self : t) :=
  _execution_isolation_strategy self.
Definition execution_isolation_thread_interrupt_on_timeout (self : t) :=
  _execution_isolation_thread_interrupt_on_timeout self.
Definition execution_timeout_in_milliseconds (self : t) :=
  _execution_timeout_in_milliseconds self.
Definition fallback_isolation_semaphore_max_concurrent_requests (self : t) :=
  _fallback_isolation_semaphore_max_concurrent_requests self.
Definition fallback_enabled (self : t) :=
  _fallback_enabled self.
Definition metrics_health_snapshot_interval_in_milliseconds (self : t) :=
  _metrics_health_snapshot_interval_in_milliseconds self.
Definition metrics_rolling_percentile_bucket_size (self : t) :=
  _metrics_rolling_percentile_bucket_size self.
Definition metrics_rolling_percentile_enabled (self : t) :=
  _metrics_rolling_percentile_enabled self.
Definition metrics_rolling_percentile_window_in_milliseconds (self : t) :=
  _metrics_rolling_percentile_window_in_milliseconds self.
Definition metrics_rolling_percentile_window_buckets (self : t) :=
  _metrics_rolling_percentile_window_buckets self.
Definition metrics_rolling_statistical_window_in_milliseconds (self : t) :=
  _metrics_rolling_statistical_window_in_milliseconds self.
Definition metrics_rolling_statistical_window_buckets (self : t) :=
  _metrics_rolling_statistical_window_buckets self.
Definition request_cache_enabled (self : t) :=
  _request_cache_enabled self.
Definition request_log_enabled (self : t) :=
  _request_log_enabled self.

Definition with_circuit_breaker_enabled (self : t)
    (value : option PyValue) : t :=
  let 'Build_t f1 f2 f3 f4 f5 f6 f7 f8 f9 f10 f11 f12 f13 f14 f15 f16
    f17 f18 f19 f20 f21 := self in
  Build_t value f2 f3 f4 f5 f6 f7 f8 f9 f10 f11 f12 f13 f14 f15 f16
    f17 f18 f19 f20 f21.
Definition with_circuit_breaker_error_threshold_percentage (self : t)
    (value : option PyValue) : t :=
  let 'Build_t f1 f2 f3 f4 f5 f6 f7 f8 f9 f10 f11 f12 f13 f14 f15 f16
    f17 f18 f19 f20 f21 := self in
  Build_t f1 value f3 f4 f5 f6 f7 f8 f9 f10 f11 f12 f13 f14 f15 f16
    f17 f18 f19 f20 f21.
Definition with_circuit_breaker_force_closed (self : t)
    (value : option PyValue) : t :=
  let 'Build_t f1 f2 f3 f4 f5 f6 f7 f8 f9 f10 f11 f12 f13 f14 f15 f16
    f17 f18 f19 f20 f21 := self in
  Build_t f1 f2 value f4 f5 f6 f7 f8 f9 f10 f11 f12 f13 f14 f15 f16
    f17 f18 f19 f20 f21.
Definition with_circuit_breaker_force_open (self : t)
    (value : option PyValue) : t :=
  let 'Build_t f1 f2 f3 f4 f5 f6 f7 f8 f9 f10 f11 f12 f13 f14 f15 f16
    f17 f18 f19 f20 f21 := self in
  Build_t f1 f2 f3 value f5 f6 f7 f8 f9 f10 f11 f12 f13 f14 f15 f16
    f17 f18 f19 f20 f21.
Definition with_circuit_breaker_request_volume_threshold (self : t)
    (value : option PyValue) : t :=
  let 'Build_t f1 f2 f3 f4 f5 f6 f7 f8 f9 f10 f11 f12 f13 f14 f15 f16
    f17 f18 f19 f20 f21 := self in
  Build_t f1 f2 f3 f4 value f6 f7 f8 f9 f10 f11 f12 f13 f14 f15 f16
    f17 f18 f19 f20 f21.
Definition with_circuit_breaker_sleep_window_in_milliseconds (self : t)
    (value : option PyValue) : t :=
  let 'Build_t f1 f2 f3 f4 f5 f6 f7 f8 f9 f10 f11 f12 f13 f14 f15 f16
    f17 f18 f19 f20 f21 := self in
  Build_t f1 f2 f3 f4 f5 value f7 f8 f9 f10 f11 f12 f13 f14 f15 f16
    f17 f18 f19 f20 f21.
Definition with_execution_isolation_semaphore_max_concurrent_requests (self : t)
    (value : option PyValue) : t :=
  let 'Build_t f1 f2 f3 f4 f5 f6 f7 f8 f9 f10 f11 f12 f13 f14 f15 f16
    f17 f18 f19 f20 f21 := self in
  Build_t f1 f2 f3 f4 f5 f6 value f8 f9 f10 f11 f12 f13 f14 f15 f16
    f17 f18 f19 f20 f21.
Definition with_execution_isolation_strategy (self : t)
    (value : option PyValue) : t :=
  let 'Build_t f1 f2 f3 f4 f5 f6 f7 f8 f9 f10 f11 f12 f13 f14 f15 f16
    f17 f18 f19 f20 f21 := self in
  Build_t f1 f2 f3 f4 f5 f6 f7 value f9 f10 f11 f12 f13 f14 f15 f16
    f17 f18 f19 f20 f21.
Definition with_execution_isolation_thread_interrupt_on_timeout (self : t)
    (value : option PyValue) : t :=
  let 'Build_t f1 f2 f3 f4 f5 f6 f7 f8 f9 f10 f11 f12 f13 f14 f15 f16
    f17 f18 f19 f20 f21 := self in
  Build_t f1 f2 f3 f4 f5 f6 f7 f8 value f10 f11 f12 f13 f14 f15 f16
    f17 f18 f19 f20 f21.
Definition with_execution_timeout_in_milliseconds (self : t)
    (value : option PyValue) : t :=
  let 'Build_t f1 f2 f3 f4 f5 f6 f7 f8 f9 f10 f11 f12 f13 f14 f15 f16
    f17 f18 f19 f20 f21 := self in
  Build_t f1 f2 f3 f4 f5 f6 f7 f8 f9 value f11 f12 f13 f14 f15 f16 f17
    f18 f19 f20 f21.
Definition with_fallback_isolation_semaphore_max_concurrent_requests (self : t)
    (value : option PyValue) : t :=
  let 'Build_t f1 f2 f3 f4 f5 f6 f7 f8 f9 f10 f11 f12 f13 f14 f15 f16
    f17 f18 f19 f20 f21 := self in
  Build_t f1 f2 f3 f4 f5 f6 f7 f8 f9 f10 value f12 f13 f14 f15 f16 f17
    f18 f19 f20 f21.
Definition with_fallback_enabled (self : t)
    (value : option PyValue) : t :=
  let 'Build_t f1 f2 f3 f4 f5 f6 f7 f8 f9 f10 f11 f12 f13 f14 f15 f16
    f17 f18 f19 f20 f21 := self in
  Build_t f1 f2 f3 f4 f5 f6 f7 f8 f9 f10 f11 value f13 f14 f15 f16 f17
    f18 f19 f20 f21.
Definition with_metrics_health_snapshot_interval_in_milliseconds (self : t)
    (value : option PyValue) : t :=
  let 'Build_t f1 f2 f3 f4 f5 f6 f7 f8 f9 f10 f11 f12 f13 f14 f15 f16
    f17 f18 f19 f20 f21 := self in
  Build_t f1 f2 f3 f4 f5 f6 f7 f8 f9 f10 f11 f12 value f14 f15 f16 f17
    f18 f19 f20 f21.
Definition with_metrics_rolling_percentile_bucket_size (self : t)
    (value : option PyValue) : t :=
  let 'Build_t f1 f2 f3 f4 f5 f6 f7 f8 f9 f10 f11 f12 f13 f14 f15 f16
    f17 f18 f19 f20 f21 := self in
  Build_t f1 f2 f3 f4 f5 f6 f7 f8 f9 f10 f11 f12 f13 value f15 f16 f17
    f18 f19 f20 f21.
Definition with_metrics_rolling_percentile_enabled (self : t)
    (value : option PyValue) : t :=
  let 'Build_t f1 f2 f3 f4 f5 f6 f7 f8 f9 f10 f11 f12 f13 f14 f15 f16
    f17 f18 f19 f20 f21 := self in
  Build_t f1 f2 f3 f4 f5 f6 f7 f8 f9 f10 f11 f12 f13 f14 value f16 f17
    f18 f19 f20 f21.
Definition with_metrics_rolling_percentile_window_in_milliseconds (self : t)
    (value : option PyValue) : t :=
  let 'Build_t f1 f2 f3 f4 f5 f6 f7 f8 f9 f10 f11 f12 f13 f14 f15 f16
    f17 f18 f19 f20 f21 := self in
  Build_t f1 f2 f3 f4 f5 f6 f7 f8 f9 f10 f11 f12 f13 f14 f15 value f17
    f18 f19 f20 f21.
Definition with_metrics_rolling_percentile_window_buckets (self : t)
    (value : option PyValue) : t :=
  let 'Build_t f1 f2 f3 f4 f5 f6 f7 f8 f9 f10 f11 f12 f13 f14 f15 f16
    f17 f18 f19 f20 f21 := self in
  Build_t f1 f2 f3 f4 f5 f6 f7 f8 f9 f10 f11 f12 f13 f14 f15 f16 value
    f18 f19 f20 f21.
Definition with_metrics_rolling_statistical_window_in_milliseconds (self : t)
    (value : option PyValue) : t :=
  let 'Build_t f1 f2 f3 f4 f5 f6 f7 f8 f9 f10 f11 f12 f13 f14 f15 f16
    f17 f18 f19 f20 f21 := self in
  Build_t f1 f2 f3 f4 f5 f6 f7 f8 f9 f10 f11 f12 f13 f14 f15 f16 f17
    value f19 f20 f21.
Definition with_metrics_rolling_statistical_window_buckets (self : t)
    (value : option PyValue) : t :=
  let 'Build_t f1 f2 f3 f4 f5 f6 f7 f8 f9 f10 f11 f12 f13 f14 f15 f16
    f17 f18 f19 f20 f21 := self in
  Build_t f1 f2 f3 f4 f5 f6 f7 f8 f9 f10 f11 f12 f13 f14 f15 f16 f17
    f18 value f20 f21.
Definition with_request_cache_enabled (self : t)
    (value : option PyValue) : t :=
  let 'Build_t f1 f2 f3 f4 f5 f6 f7 f8 f9 f10 f11 f12 f13 f14 f15 f16
    f17 f18 f19 f20 f21 := self in
  Build_t f1 f2 f3 f4 f5 f6 f7 f8 f9 f10 f11 f12 f13 f14 f15 f16 f17
    f18 f19 value f21.
Definition with_request_log_enabled (self : t)
    (value : option PyValue) : t :=
  let 'Build_t f1 f2 f3 f4 f5 f6 f7 f8 f9 f10 f11 f12 f13 f14 f15 f16
    f17 f18 f19 f20 f21 := self in
  Build_t f1 f2 f3 f4 f5 f6 f7 f8 f9 f10 f11 f12 f13 f14 f15 f16 f17
    f18 f19 f20 value.

End Setter.

Record t := {
    command_key : Key;
    property_prefix : Key;
    _circuit_breaker_enabled : PyValue;
    _circuit_breaker_request_volume_threshold : PyValue;
    _circuit_breaker_sleep_window_in_milliseconds : PyValue;
    _circuit_breaker_error_threshold_percentage : PyValue;
    _circuit_breaker_force_open : PyValue;
    _circuit_breaker_force_closed : PyValue;
    _execution_isolation_strategy : PyValue;
    _execution_timeout_in_milliseconds : PyValue;
    _execution_isolation_semaphore_max_concurrent_requests : PyValue;
    _fallback_isolation_semaphore_max_concurrent_requests : PyValue;
    _fallback_enabled : PyValue;
    _execution_isolation_thread_interrupt_on_timeout : PyValue;
    _metrics_rolling_statistical_window_in_milliseconds : PyValue;
    _metrics_rolling_statistical_window_buckets : PyValue;
    _metrics_rolling_percentile_enabled : PyValue;
    _metrics_rolling_percentile_window_in_milliseconds : PyValue;
    _metrics_rolling_percentile_window_buckets : PyValue;
    _metrics_rolling_percentile_bucket_size : PyValue;
    _metrics_health_snapshot_interval_in_milliseconds : PyValue;
    _request_log_enabled : PyValue;
    _request_cache_enabled : PyValue
  }.

Definition __init__ (command_key : Key) (setter : Setter.t)
    (property_prefix : Key) : t :=
  {| command_key := command_key;
     property_prefix := property_prefix;
     _circuit_breaker_enabled :=
       _property property_prefix command_key "circuit_breaker.enabled"
         default_circuit_breaker_enabled
         (Setter.circuit_breaker_enabled setter);
     _circuit_breaker_request_volume_threshold :=
       _property property_prefix command_key "circuit_breaker.request_volume_threshold"
         default_circuit_breaker_request_volume_threshold
         (Setter.circuit_breaker_request_volume_threshold setter);
     _circuit_breaker_sleep_window_in_milliseconds :=
       _property property_prefix command_key "circuit_breaker.sleep_window_in_milliseconds"
         default_circuit_breaker_sleep_window_in_milliseconds
         (Setter.circuit_breaker_sleep_window_in_milliseconds setter);
     _circuit_breaker_error_threshold_percentage :=
       _property property_prefix command_key "circuit_breaker.error_threshold_percentage"
         default_circuit_breaker_error_threshold_percentage
         (Setter.circuit_breaker_error_threshold_percentage setter);
     _circuit_breaker_force_open :=
       _property property_prefix command_key "circuit_breaker.force_open"
         default_circuit_breaker_force_open
         (Setter.circuit_breaker_force_open setter);
     _circuit_breaker_force_closed :=
       _property property_prefix command_key "circuit_breaker.force_closed"
         default_circuit_breaker_force_closed
         (Setter.circuit_breaker_force_closed setter);
     _execution_isolation_strategy :=
       _property property_prefix command_key "execution.isolation.strategy"
         default_execution_isolation_strategy
         (Setter.execution_isolation_strategy setter);
     _execution_timeout_in_milliseconds :=
       _property property_prefix command_key "execution.isolation.thread.timeout_in_milliseconds"
         default_execution_timeout_in_milliseconds
         (Setter.execution_timeout_in_milliseconds setter);
     _execution_isolation_semaphore_max_concurrent_requests :=
       _property property_prefix command_key "execution.isolation.semaphore.max_concurrent_requests"
         default_execution_isolation_semaphore_max_concurrent_requests
         (Setter.execution_isolation_semaphore_max_concurrent_requests setter);
     _fallback_isolation_semaphore_max_concurrent_requests :=
       _property property_prefix command_key "fallback.isolation.semaphore.max_concurrent_requests"
         default_fallback_isolation_semaphore_max_concurrent_requests
         (Setter.fallback_isolation_semaphore_max_concurrent_requests setter);
     _fallback_enabled :=
       _property property_prefix command_key "fallback.enabled"
         default_fallback_enabled
         (Setter.fallback_enabled setter);
     _execution_isolation_thread_interrupt_on_timeout :=
       _property property_prefix command_key "execution.isolation.thread.interrupt_on_timeout"
         default_execution_isolation_thread_interrupt_on_timeout
         (Setter.execution_isolation_thread_interrupt_on_timeout setter);
     _metrics_rolling_statistical_window_in_milliseconds :=
       _property property_prefix command_key "metrics.rolling_stats.time_in_milliseconds"
         default_metrics_rolling_statistical_window
         (Setter.metrics_rolling_statistical_window_in_milliseconds setter);
     _metrics_rolling_statistical_window_buckets :=
       _property property_prefix command_key "metrics.rolling_stats.num_buckets"
         default_metrics_rolling_statistical_window_buckets
         (Setter.metrics_rolling_statistical_window_buckets setter);
     _metrics_rolling_percentile_enabled :=
       _property property_prefix command_key "metrics.rolling_percentile.enabled"
         default_metrics_rolling_percentile_enabled
         (Setter.metrics_rolling_percentile_enabled setter);
     _metrics_rolling_percentile_window_in_milliseconds :=
       _property property_prefix command_key "metrics.rolling_percentile.time_in_milliseconds"
         default_metrics_rolling_percentile_window
         (Setter.metrics_rolling_percentile_window_in_milliseconds setter);
     _metrics_rolling_percentile_window_buckets :=
       _property property_prefix command_key "metrics.rolling_percentile.num_buckets"
         default_metrics_rolling_percentile_window_buckets
         (Setter.metrics_rolling_percentile_window_buckets setter);
     _metrics_rolling_percentile_bucket_size :=
       _property property_prefix command_key "metrics.rolling_percentile.bucket_size"
         default_metrics_rolling_percentile_bucket_size
         (Setter.metrics_rolling_percentile_bucket_size setter);
     _metrics_health_snapshot_interval_in_milliseconds :=
       _property property_prefix command_key "metrics.health_snapshot.interval_in_milliseconds"
         default_metrics_health_snapshot_interval_in_milliseconds
         (Setter.metrics_health_snapshot_interval_in_milliseconds setter);
     _request_log_enabled :=
       _property property_prefix command_key "request_log.enabled"
         default_request_log_enabled
         (Setter.request_log_enabled setter);
     _request_cache_enabled :=
       _property property_prefix command_key "request_cache.enabled"
         default_request_cache_enabled
         (Setter.request_cache_enabled setter) |}.

Definition circuit_breaker_enabled (self : t) :=
  _circuit_breaker_enabled self.
Definition circuit_breaker_error_threshold_percentage (self : t) :=
  _circuit_breaker_error_threshold_percentage self.
Definition circuit_breaker_force_closed (self : t) :=
  _circuit_breaker_force_closed self.
Definition circuit_breaker_force_open (self : t) :=
  _circuit_breaker_force_open self.
Definition circuit_breaker_request_volume_threshold (self : t) :=
  _circuit_breaker_request_volume_threshold self.
Definition circuit_breaker_sleep_window_in_milliseconds (self : t) :=
  _circuit_breaker_sleep_window_in_milliseconds self.
Definition execution_isolation_semaphore_max_concurrent_requests (self : t) :=
  _execution_isolation_semaphore_max_concurrent_requests self.
Definition execution_isolation_strategy (self : t) :=
  _execution_isolation_strategy self.
Definition execution_isolation_thread_interrupt_on_timeout (self : t) :=
  _execution_isolation_thread_interrupt_on_timeout self.
Definition execution_timeout_in_milliseconds (self : t) :=
  _execution_timeout_in_milliseconds self.
Definition fallback_enabled (self : t) :=
  _fallback_enabled self.
Definition fallback_isolation_semaphore_max_concurrent_requests (self : t) :=
  _fallback_isolation_semaphore_max_concurrent_requests self.
Definition metrics_health_snapshot_interval_in_milliseconds (self : t) :=
  _metrics_health_snapshot_interval_in_milliseconds self.
Definition metrics_rolling_percentile_bucket_size (self : t) :=
  _metrics_rolling_percentile_bucket_size self.
Definition metrics_rolling_percentile_enabled (self : t) :=
  _metrics_rolling_percentile_enabled self.
Definition metrics_rolling_percentile_window_buckets (self : t) :=
  _metrics_rolling_percentile_window_buckets self.
Definition metrics_rolling_percentile_window_in_milliseconds (self : t) :=
  _metrics_rolling_percentile_window_in_milliseconds self.
Definition metrics_rolling_statistical_window_buckets (self : t) :=
  _metrics_rolling_statistical_window_buckets self.
Definition metrics_rolling_statistical_window_in_milliseconds (self : t) :=
  _metrics_rolling_statistical_window_in_milliseconds self.
Definition request_cache_enabled (self : t) :=
  _request_cache_enabled self.
Definition request_log_enabled (self : t) :=
  _request_log_enabled self.

Inductive Property :=
| P_circuit_breaker_enabled
| P_circuit_breaker_request_volume_threshold
| P_circuit_breaker_sleep_window_in_milliseconds
| P_circuit_breaker_error_threshold_percentage
| P_circuit_breaker_force_open
| P_circuit_breaker_force_closed
| P_execution_isolation_strategy
| P_execution_timeout_in_milliseconds
| P_execution_isolation_semaphore_max_concurrent_requests
| P_fallback_isolation_semaphore_max_concurrent_requests
| P_fallback_enabled
| P_execution_isolation_thread_interrupt_on_timeout
| P_metrics_rolling_statistical_window_in_milliseconds
| P_metrics_rolling_statistical_window_buckets
| P_metrics_rolling_percentile_enabled
| P_metrics_rolling_percentile_window_in_milliseconds
| P_metrics_rolling_percentile_window_buckets
| P_metrics_rolling_percentile_bucket_size
| P_metrics_health_snapshot_interval_in_milliseconds
| P_request_log_enabled
| P_request_cache_enabled.

Definition instance_property (p : Property) : string :=
  match p with
  | P_circuit_breaker_enabled => "circuit_breaker.enabled"%string
  | P_circuit_breaker_request_volume_threshold => "circuit_breaker.request_volume_threshold"%string
  | P_circuit_breaker_sleep_window_in_milliseconds => "circuit_breaker.sleep_window_in_milliseconds"%string
  | P_circuit_breaker_error_threshold_percentage => "circuit_breaker.error_threshold_percentage"%string
  | P_circuit_breaker_force_open => "circuit_breaker.force_open"%string
  | P_circuit_breaker_force_closed => "circuit_breaker.force_closed"%string
  | P_execution_isolation_strategy => "execution.isolation.strategy"%string
  | P_execution_timeout_in_milliseconds => "execution.isolation.thread.timeout_in_milliseconds"%string
  | P_execution_isolation_semaphore_max_concurrent_requests => "execution.isolation.semaphore.max_concurrent_requests"%string
  | P_fallback_isolation_semaphore_max_concurrent_requests => "fallback.isolation.semaphore.max_concurrent_requests"%string
  | P_fallback_enabled => "fallback.enabled"%string
  | P_execution_isolation_thread_interrupt_on_timeout => "execution.isolation.thread.interrupt_on_timeout"%string
  | P_metrics_rolling_statistical_window_in_milliseconds => "metrics.rolling_stats.time_in_milliseconds"%string
  | P_metrics_rolling_statistical_window_buckets => "metrics.rolling_stats.num_buckets"%string
  | P_metrics_rolling_percentile_enabled => "metrics.rolling_percentile.enabled"%string
  | P_metrics_rolling_percentile_window_in_milliseconds => "metrics.rolling_percentile.time_in_milliseconds"%string
  | P_metrics_rolling_percentile_window_buckets => "metrics.rolling_percentile.num_buckets"%string
  | P_metrics_rolling_percentile_bucket_size => "metrics.rolling_percentile.bucket_size"%string
  | P_metrics_health_snapshot_interval_in_milliseconds => "metrics.health_snapshot.interval_in_milliseconds"%string
  | P_request_log_enabled => "request_log.enabled"%string
  | P_request_cache_enabled => "request_cache.enabled"%string
  end.

Definition default_value (p : Property) : PyValue :=
  match p with
  | P_circuit_breaker_enabled => default_circuit_breaker_enabled
  | P_circuit_breaker_request_volume_threshold => default_circuit_breaker_request_volume_threshold
  | P_circuit_breaker_sleep_window_in_milliseconds => default_circuit_breaker_sleep_window_in_milliseconds
  | P_circuit_breaker_error_threshold_percentage => default_circuit_breaker_error_threshold_percentage
  | P_circuit_breaker_force_open => default_circuit_breaker_force_open
  | P_circuit_breaker_force_closed => default_circuit_breaker_force_closed
  | P_execution_isolation_strategy => default_execution_isolation_strategy
  | P_execution_timeout_in_milliseconds => default_execution_timeout_in_milliseconds
  | P_execution_isolation_semaphore_max_concurrent_requests => default_execution_isolation_semaphore_max_concurrent_requests
  | P_fallback_isolation_semaphore_max_concurrent_requests => default_fallback_isolation_semaphore_max_concurrent_requests
  | P_fallback_enabled => default_fallback_enabled
  | P_execution_isolation_thread_interrupt_on_timeout => default_execution_isolation_thread_interrupt_on_timeout
  | P_metrics_rolling_statistical_window_in_milliseconds => default_metrics_rolling_statistical_window
  | P_metrics_rolling_statistical_window_buckets => default_metrics_rolling_statistical_window_buckets
  | P_metrics_rolling_percentile_enabled => default_metrics_rolling_percentile_enabled
  | P_metrics_rolling_percentile_window_in_milliseconds => default_metrics_rolling_percentile_window
  | P_metrics_rolling_percentile_window_buckets => default_metrics_rolling_percentile_window_buckets
  | P_metrics_rolling_percentile_bucket_size => default_metrics_rolling_percentile_bucket_size
  | P_metrics_health_snapshot_interval_in_milliseconds => default_metrics_health_snapshot_interval_in_milliseconds
  | P_request_log_enabled => default_request_log_enabled
  | P_request_cache_enabled => default_request_cache_enabled
  end.

Definition setter_override_value (p : Property) (setter : Setter.t)
  : option PyValue :=
  match p with
  | P_circuit_breaker_enabled => Setter.circuit_breaker_enabled setter
  | P_circuit_breaker_request_volume_threshold => Setter.circuit_breaker_request_volume_threshold setter
  | P_circuit_breaker_sleep_window_in_milliseconds => Setter.circuit_breaker_sleep_window_in_milliseconds setter
  | P_circuit_breaker_error_threshold_percentage => Setter.circuit_breaker_error_threshold_percentage setter
  | P_circuit_breaker_force_open => Setter.circuit_breaker_force_open setter
  | P_circuit_breaker_force_closed => Setter.circuit_breaker_force_closed setter
  | P_execution_isolation_strategy => Setter.execution_isolation_strategy setter
  | P_execution_timeout_in_milliseconds => Setter.execution_timeout_in_milliseconds setter
  | P_execution_isolation_semaphore_max_concurrent_requests => Setter.execution_isolation_semaphore_max_concurrent_requests setter
  | P_fallback_isolation_semaphore_max_concurrent_requests => Setter.fallback_isolation_semaphore_max_concurrent_requests setter
  | P_fallback_enabled => Setter.fallback_enabled setter
  | P_execution_isolation_thread_interrupt_on_timeout => Setter.execution_isolation_thread_interrupt_on_timeout setter
  | P_metrics_rolling_statistical_window_in_milliseconds => Setter.metrics_rolling_statistical_window_in_milliseconds setter
  | P_metrics_rolling_statistical_window_buckets => Setter.metrics_rolling_statistical_window_buckets setter
  | P_metrics_rolling_percentile_enabled => Setter.metrics_rolling_percentile_enabled setter
  | P_metrics_rolling_percentile_window_in_milliseconds => Setter.metrics_rolling_percentile_window_in_milliseconds setter
  | P_metrics_rolling_percentile_window_buckets => Setter.metrics_rolling_percentile_window_buckets setter
  | P_metrics_rolling_percentile_bucket_size => Setter.metrics_rolling_percentile_bucket_size setter
  | P_metrics_health_snapshot_interval_in_milliseconds => Setter.metrics_health_snapshot_interval_in_milliseconds setter
  | P_request_log_enabled => Setter.request_log_enabled setter
  | P_request_cache_enabled => Setter.request_cache_enabled setter
  end.

Definition resolved (p : Property) (self : t) : PyValue :=
  match p with
  | P_circuit_breaker_enabled => circuit_breaker_enabled self
  | P_circuit_breaker_request_volume_threshold => circuit_breaker_request_volume_threshold self
  | P_circuit_breaker_sleep_window_in_milliseconds => circuit_breaker_sleep_window_in_milliseconds self
  | P_circuit_breaker_error_threshold_percentage => circuit_breaker_error_threshold_percentage self
  | P_circuit_breaker_force_open => circuit_breaker_force_open self
  | P_circuit_breaker_force_closed => circuit_breaker_force_closed self
  | P_execution_isolation_strategy => execution_isolation_strategy self
  | P_execution_timeout_in_milliseconds => execution_timeout_in_milliseconds self
  | P_execution_isolation_semaphore_max_concurrent_requests => execution_isolation_semaphore_max_concurrent_requests self
  | P_fallback_isolation_semaphore_max_concurrent_requests => fallback_isolation_semaphore_max_concurrent_requests self
  | P_fallback_enabled => fallback_enabled self
  | P_execution_isolation_thread_interrupt_on_timeout => execution_isolation_thread_interrupt_on_timeout self
  | P_metrics_rolling_statistical_window_in_milliseconds => metrics_rolling_statistical_window_in_milliseconds self
  | P_metrics_rolling_statistical_window_buckets => metrics_rolling_statistical_window_buckets self
  | P_metrics_rolling_percentile_enabled => metrics_rolling_percentile_enabled self
  | P_metrics_rolling_percentile_window_in_milliseconds => metrics_rolling_percentile_window_in_milliseconds self
  | P_metrics_rolling_percentile_window_buckets => metrics_rolling_percentile_window_buckets self
  | P_metrics_rolling_percentile_bucket_size => metrics_rolling_percentile_bucket_size self
  | P_metrics_health_snapshot_interval_in_milliseconds => metrics_health_snapshot_interval_in_milliseconds self
  | P_request_log_enabled => request_log_enabled self
  | P_request_cache_enabled => request_cache_enabled self
  end.

Definition with_override (p : Property) (setter : Setter.t)
    (v : option PyValue) : Setter.t :=
  match p with
  | P_circuit_breaker_enabled => Setter.with_circuit_breaker_enabled setter v
  | P_circuit_breaker_request_volume_threshold => Setter.with_circuit_breaker_request_volume_threshold setter v
  | P_circuit_breaker_sleep_window_in_milliseconds => Setter.with_circuit_breaker_sleep_window_in_milliseconds setter v
  | P_circuit_breaker_error_threshold_percentage => Setter.with_circuit_breaker_error_threshold_percentage setter v
  | P_circuit_breaker_force_open => Setter.with_circuit_breaker_force_open setter v
  | P_circuit_breaker_force_closed => Setter.with_circuit_breaker_force_closed setter v
  | P_execution_isolation_strategy => Setter.with_execution_isolation_strategy setter v
  | P_execution_timeout_in_milliseconds => Setter.with_execution_timeout_in_milliseconds setter v
  | P_execution_isolation_semaphore_max_concurrent_requests => Setter.with_execution_isolation_semaphore_max_concurrent_requests setter v
  | P_fallback_isolation_semaphore_max_concurrent_requests => Setter.with_fallback_isolation_semaphore_max_concurrent_requests setter v
  | P_fallback_enabled => Setter.with_fallback_enabled setter v
  | P_execution_isolation_thread_interrupt_on_timeout => Setter.with_execution_isolation_thread_interrupt_on_timeout setter v
  | P_metrics_rolling_statistical_window_in_milliseconds => Setter.with_metrics_rolling_statistical_window_in_milliseconds setter v
  | P_metrics_rolling_statistical_window_buckets => Setter.with_metrics_rolling_statistical_window_buckets setter v
  | P_metrics_rolling_percentile_enabled => Setter.with_metrics_rolling_percentile_enabled setter v
  | P_metrics_rolling_percentile_window_in_milliseconds => Setter.with_metrics_rolling_percentile_window_in_milliseconds setter v
  | P_metrics_rolling_percentile_window_buckets => Setter.with_metrics_rolling_percentile_window_buckets setter v
  | P_metrics_rolling_percentile_bucket_size => Setter.with_metrics_rolling_percentile_bucket_size setter v
  | P_metrics_health_snapshot_interval_in_milliseconds => Setter.with_metrics_health_snapshot_interval_in_milliseconds setter v
  | P_request_log_enabled => Setter.with_request_log_enabled setter v
  | P_request_cache_enabled => Setter.with_request_cache_enabled setter v
  end.
(** The call [CommandProperties(command_key, setter, property_prefix)]:
    [__init__] has no [raise] and calls only [_property] and the
    setter's getters, which have none either. *)
Definition construct (command_key : Key) (setter : Setter.t)
    (property_prefix : Key) : PyExn + t :=
  inr (__init__ command_key setter property_prefix).

(** The configurations the spec calls invalid: an error-threshold
    percentage outside 0..100, a non-positive window duration or bucket
    count. *)
Definition out_of_range (setter : Setter.t) : bool :=
  let self := __init__ None setter None in
  negb ((0 <=? as_int (circuit_breaker_error_threshold_percentage self))
        && (as_int (circuit_breaker_error_threshold_percentage self)
            <=? 100))
  || (as_int (metrics_rolling_statistical_window_in_milliseconds self)
      <=? 0)
  || (as_int (metrics_rolling_statistical_window_buckets self) <=? 0)
  || (as_int (metrics_rolling_percentile_window_in_milliseconds self)
      <=? 0)
  || (as_int (metrics_rolling_percentile_window_buckets self) <=? 0).

End CommandProperties.

(** ** Command metrics ([hystrix/command_metrics.py]) *)
Module CommandMetrics.

Import CommandProperties.

(** Modelled from the spec: the event kinds.  [hystrix/event_type.py] and
    the [RollingNumberEvent] enumeration of [hystrix/rolling_number.py]
    are not among the sources; both take the members of the spec's
    [EventKind]. *)
Module EventType.
Inductive t :=
| SUCCESS | FAILURE | TIMEOUT | SHORT_CIRCUITED | THREAD_POOL_REJECTED
| SEMAPHORE_REJECTED | BAD_REQUEST | FALLBACK_SUCCESS | FALLBACK_FAILURE
| FALLBACK_REJECTION | EXCEPTION_THROWN | RESPONSE_FROM_CACHE | COLLAPSED.
End EventType.

Module RollingNumberEvent.
Inductive t :=
| SUCCESS | FAILURE | TIMEOUT | SHORT_CIRCUITED | THREAD_POOL_REJECTED
| SEMAPHORE_REJECTED | BAD_REQUEST | FALLBACK_SUCCESS | FALLBACK_FAILURE
| FALLBACK_REJECTION | EXCEPTION_THROWN | RESPONSE_FROM_CACHE | COLLAPSED.

Definition eqb (a b : t) : bool :=
  match a, b with
  | SUCCESS, SUCCESS | FAILURE, FAILURE | TIMEOUT, TIMEOUT
  | SHORT_CIRCUITED, SHORT_CIRCUITED
  | THREAD_POOL_REJECTED, THREAD_POOL_REJECTED
  | SEMAPHORE_REJECTED, SEMAPHORE_REJECTED | BAD_REQUEST, BAD_REQUEST
  | FALLBACK_SUCCESS, FALLBACK_SUCCESS
  | FALLBACK_FAILURE, FALLBACK_FAILURE
  | FALLBACK_REJECTION, FALLBACK_REJECTION
  | EXCEPTION_THROWN, EXCEPTION_THROWN
  | RESPONSE_FROM_CACHE, RESPONSE_FROM_CACHE | COLLAPSED, COLLAPSED =>
      true
  | _, _ => false
  end.
End RollingNumberEvent.

(** The interface of [RollingNumber] that [CommandMetrics] calls: the
    constructor on the window and the bucket count, [increment] and
    [rolling_sum].  The class itself is not among the sources; a rolling
    sum is an integer, and reading it may roll the window, so the call
    returns the counter as well. *)
Class RollingNumber (Counter : Type) := {
  create : PyValue -> PyValue -> Counter;
  increment : RollingNumberEvent.t -> Counter -> Counter;
  rolling_sum : RollingNumberEvent.t -> Counter -> Z * Counter
}.

(** The event-notification hook.  What a call of [mark_event] does is up
    to the listener: given the calls it has received so far, it returns
    ([None]) or raises (an exception of its own, [HookError]). *)
Definition Notification : Type := EventType.t * Key.

Record EventNotifier := {
  mark_event : list Notification -> EventType.t -> Key -> option Z
}.

(** [HealthCounts], lines 169-204. *)
Module HealthCounts.
Record t := {
  _total_count : Z;
  _error_count : Z;
  _error_percentage : Z
}.

Definition __init__ (total error error_percentage : Z) : t :=
  {| _total_count := total;
     _error_count := error;
     _error_percentage := error_percentage |}.

Definition total_requests (self : t) : Z := _total_count self.
Definition error_count (self : t) : Z := _error_count self.
Definition error_percentage (self : t) : Z := _error_percentage self.
End HealthCounts.

(** A reference to a [HealthCounts] object in the store. *)
Definition ref := nat.

(** The state of one [CommandMetrics] instance, with the part of the
    world its methods act on: the [HealthCounts] objects allocated so
    far ([heap], a reference is an index) and the calls the notification
    hook has received ([notified]). *)
Record t (Counter : Type) := {
  command_metrics_key : Key;
  group_key : Key;
  properties : CommandProperties.t;
  event_notifier : EventNotifier;
  counter : Counter;
  health_counts_snapshot : option ref;
  last_health_counts_snapshot : Z;
  heap : list HealthCounts.t;
  notified : list Notification
}.

Arguments command_metrics_key {Counter}.
Arguments group_key {Counter}.
Arguments properties {Counter}.
Arguments event_notifier {Counter}.
Arguments counter {Counter}.
Arguments health_counts_snapshot {Counter}.
Arguments last_health_counts_snapshot {Counter}.
Arguments heap {Counter}.
Arguments notified {Counter}.

(** A method either returns a value or raises; both leave a state. *)
Inductive outcome (S A : Type) :=
| Returned (a : A) (s : S)
| Raised (e : PyExn) (s : S).

Arguments Returned {S A}.
Arguments Raised {S A}.

Definition final {S A} (o : outcome S A) : S :=
  match o with
  | Returned _ s => s
  | Raised _ s => s
  end.

Definition M (S A : Type) : Type := S -> outcome S A.

Definition ret {S A} (a : A) : M S A := fun s => Returned a s.

Definition bind {S A B} (m : M S A) (k : A -> M S B) : M S B :=
  fun s =>
    match m s with
    | Returned a s' => k a s'
    | Raised e s' => Raised e s'
    end.

Notation "x <- m ;; k" := (bind m (fun x => k))
  (at level 61, m at next level, right associativity).
Notation "m ;;; k" := (bind m (fun _ => k))
  (at level 61, right associativity).

Section Methods.

Context {Counter : Type} `{RollingNumber Counter}.

Local Abbreviation state := (t Counter).

Definition set_counter (c : Counter) (s : state) : state :=
  {| command_metrics_key := command_metrics_key s;
     group_key := group_key s;
     properties := properties s;
     event_notifier := event_notifier s;
     counter := c;
     health_counts_snapshot := health_counts_snapshot s;
     last_health_counts_snapshot := last_health_counts_snapshot s;
     heap := heap s;
     notified := notified s |}.

Definition set_last_health_counts_snapshot (v : Z) (s : state) : state :=
  {| command_metrics_key := command_metrics_key s;
     group_key := group_key s;
     properties := properties s;
     event_notifier := event_notifier s;
     counter := counter s;
     health_counts_snapshot := health_counts_snapshot s;
     last_health_counts_snapshot := v;
     heap := heap s;
     notified := notified s |}.

Definition set_notified (l : list Notification) (s : state) : state :=
  {| command_metrics_key := command_metrics_key s;
     group_key := group_key s;
     properties := properties s;
     event_notifier := event_notifier s;
     counter := counter s;
     health_counts_snapshot := health_counts_snapshot s;
     last_health_counts_snapshot := last_health_counts_snapshot s;
     heap := heap s;
     notified := l |}.

(** Allocating a [HealthCounts] and storing its reference in
    [self.health_counts_snapshot], line 164: the object is new, the
    objects already in the store are not touched. *)
Definition publish (h : HealthCounts.t) (s : state) : state :=
  {| command_metrics_key := command_metrics_key s;
     group_key := group_key s;
     properties := properties s;
     event_notifier := event_notifier s;
     counter := counter s;
     health_counts_snapshot := Some (List.length (heap s));
     last_health_counts_snapshot := last_health_counts_snapshot s;
     heap := heap s ++ [h];
     notified := notified s |}.

Definition deref (s : state) (r : ref) : option HealthCounts.t :=
  nth_error (heap s) r.

(** [CommandMetrics.__init__], lines 58-69; [now] is what
    [self.actual_time.current_time_in_millis()] returns.  The arguments
    [command_metrics_key] and [pool_key] are accepted and dropped:
    [self.command_metrics_key] is the attribute of the class, which the
    metaclass sets (line 46), here [class_command_metrics_key].
    [properties] and [event_notifier] are objects; with their default,
    [None], the constructor or the first marker fails on the attribute
    access. *)
Definition __init__ (class_command_metrics_key : Key)
    (command_metrics_key group_key pool_key : Key)
    (properties : CommandProperties.t) (event_notifier : EventNotifier)
    (now : Z) : state :=
  {| command_metrics_key := class_command_metrics_key;
     group_key := group_key;
     properties := properties;
     event_notifier := event_notifier;
     counter :=
       create
         (metrics_rolling_statistical_window_in_milliseconds properties)
         (metrics_rolling_statistical_window_buckets properties);
     health_counts_snapshot := None;
     last_health_counts_snapshot := now;
     heap := [];
     notified := [] |}.

(** [self.event_notifier.mark_event(event, self.command_metrics_key)]:
    the hook receives the call, then returns or raises. *)
Definition notify (event : EventType.t) : M state unit :=
  fun s =>
    let s' :=
      set_notified (notified s ++ [(event, command_metrics_key s)]) s in
    match mark_event (event_notifier s) (notified s) event
            (command_metrics_key s) with
    | None => Returned tt s'
    | Some tag => Raised (HookError tag) s'
    end.

(** [self.counter.increment(event)] *)
Definition counter_increment (event : RollingNumberEvent.t)
  : M state unit :=
  fun s => Returned tt (set_counter (increment event (counter s)) s).

(** [self.counter.rolling_sum(event)] *)
Definition counter_rolling_sum (event : RollingNumberEvent.t)
  : M state Z :=
  fun s =>
    let (n, c) := rolling_sum event (counter s) in
    Returned n (set_counter c s).

(** The four markers, lines 71-132.  [duration] is received and not
    used. *)
Definition mark_success {D : Type} (duration : D) : M state unit :=
  notify EventType.SUCCESS ;;;
  counter_increment RollingNumberEvent.SUCCESS.

Definition mark_failure {D : Type} (duration : D) : M state unit :=
  notify EventType.FAILURE ;;;
  counter_increment RollingNumberEvent.FAILURE.

Definition mark_timeout {D : Type} (duration : D) : M state unit :=
  notify EventType.TIMEOUT ;;;
  counter_increment RollingNumberEvent.TIMEOUT.

Definition mark_bad_request {D : Type} (duration : D) : M state unit :=
  notify EventType.BAD_REQUEST ;;;
  counter_increment RollingNumberEvent.BAD_REQUEST.

(** [self.properties.metrics_health_snapshot_interval_in_milliseconds()],
    as the integer the comparison of line 146 takes it for. *)
Definition snapshot_interval (s : state) : Z :=
  as_int (metrics_health_snapshot_interval_in_milliseconds (properties s)).

(** The test of line 146. *)
Definition refresh_due (last_time current_time : Z) (s : state) : bool :=
  (snapshot_interval s <=? current_time - last_time)
  || match health_counts_snapshot s with
     | None => true
     | Some _ => false
     end.

(** [self.last_health_counts_snapshot.compare_and_set(expect, update)]
    on the [AtomicLong], one atomic step. *)
Definition compare_and_set (expect update : Z) : M state bool :=
  fun s =>
    if last_health_counts_snapshot s =? expect
    then Returned true (set_last_health_counts_snapshot update s)
    else Returned false s.

Definition raise {A : Type} (e : PyExn) : M state A :=
  fun s => Raised e s.

Definition lift {A : Type} (r : PyExn + A) : M state A :=
  match r with
  | inl e => raise e
  | inr a => ret a
  end.

(** The recomputation, lines 151-164. *)
Definition recompute (py : PyVersion) : M state unit :=
  success <- counter_rolling_sum RollingNumberEvent.SUCCESS ;;
  failure <- counter_rolling_sum RollingNumberEvent.FAILURE ;;
  timeout <- counter_rolling_sum RollingNumberEvent.TIMEOUT ;;
  thread_pool_rejected <-
    counter_rolling_sum RollingNumberEvent.THREAD_POOL_REJECTED ;;
  semaphore_rejected <-
    counter_rolling_sum RollingNumberEvent.SEMAPHORE_REJECTED ;;
  short_circuited <-
    counter_rolling_sum RollingNumberEvent.SHORT_CIRCUITED ;;
  let total_count :=
    failure + success + timeout + thread_pool_rejected
    + short_circuited + semaphore_rejected in
  let error_count :=
    failure + timeout + thread_pool_rejected + short_circuited
    + semaphore_rejected in
  error_percentage <-
    (if 0 <? total_count
     then lift (percentage py error_count total_count)
     else ret 0) ;;
  fun s =>
    Returned tt
      (publish
         (HealthCounts.__init__ total_count error_count error_percentage)
         s).

(** [health_counts], lines 134-166; [now] is what
    [ActualTime().current_time_in_millis()] returns.  The result is
    the reference held by [self.health_counts_snapshot] ([None] when
    there is none). *)
Definition health_counts (py : PyVersion) (now : Z)
  : M state (option ref) :=
  fun s =>
    let last_time := last_health_counts_snapshot s in
    let current_time := now in
    ((if refresh_due last_time current_time s
      then
        won <- compare_and_set last_time current_time ;;
        if won : bool then recompute py else ret tt
      else ret tt) ;;;
     fun s' => Returned (health_counts_snapshot s') s') s.

(** The HealthCounts a call returns, by value. *)
Definition health_counts_value (py : PyVersion) (now : Z) (s : state)
  : option HealthCounts.t :=
  match health_counts py now s with
  | Returned (Some r) s' => deref s' r
  | _ => None
  end.

(** *** The public operations, for statements about all of them *)
Inductive marker := Success | Failure | Timeout | BadRequest.

Definition mark (k : marker) {D : Type} (duration : D) : M state unit :=
  match k with
  | Success => mark_success duration
  | Failure => mark_failure duration
  | Timeout => mark_timeout duration
  | BadRequest => mark_bad_request duration
  end.

Definition event_type (k : marker) : EventType.t :=
  match k with
  | Success => EventType.SUCCESS
  | Failure => EventType.FAILURE
  | Timeout => EventType.TIMEOUT
  | BadRequest => EventType.BAD_REQUEST
  end.

Definition rolling_number_event (k : marker) : RollingNumberEvent.t :=
  match k with
  | Success => RollingNumberEvent.SUCCESS
  | Failure => RollingNumberEvent.FAILURE
  | Timeout => RollingNumberEvent.TIMEOUT
  | BadRequest => RollingNumberEvent.BAD_REQUEST
  end.

(** What the hook answers to the next call of [mark_event] for
    [event]. *)
Definition hook_answer (event : EventType.t) (s : state) : option Z :=
  mark_event (event_notifier s) (notified s) event
    (command_metrics_key s).

Inductive operation :=
| Mark (k : marker) (duration : Z)
| HealthCountsCall (now : Z).

Definition invoke (py : PyVersion) (op : operation)
  : M state (option ref) :=
  match op with
  | Mark k duration => mark k duration ;;; ret None
  | HealthCountsCall now => health_counts py now
  end.

Definition perform (py : PyVersion) (op : operation) (s : state)
  : state :=
  final (invoke py op s).

Definition is_marker (op : operation) : bool :=
  match op with
  | Mark _ _ => true
  | HealthCountsCall _ => false
  end.

Definition perform_all (py : PyVersion) (ops : list operation)
    (s : state) : state :=
  fold_left (fun s op => perform py op s) ops s.

(** *** Concurrent callers of [health_counts]

    A caller runs [health_counts] one atomic action at a time: the
    read of the [AtomicLong], the clock, the test of line 146, the
    compare-and-set, the recomputation, the read of
    [self.health_counts_snapshot] for the result.  The recomputation is
    taken as one action: the callers of [health_counts] read only the
    [AtomicLong] and [self.health_counts_snapshot], which it writes in
    one store at its end.  [th_won] records that the caller's
    compare-and-set succeeded. *)
Inductive position :=
| AtGet
| AtClock (last_time : Z)
| AtTest (last_time current_time : Z)
| AtCompareAndSet (last_time current_time : Z)
| AtRecompute
| AtReturn
| Done (result : option ref)
| Failed (e : PyExn).

Record caller := {
  th_now : Z;
  th_at : position;
  th_won : bool
}.

Definition at_position (p : position) (c : caller) : caller :=
  {| th_now := th_now c; th_at := p; th_won := th_won c |}.

Definition step (py : PyVersion) (c : caller) (s : state)
  : caller * state :=
  match th_at c with
  | AtGet => (at_position (AtClock (last_health_counts_snapshot s)) c, s)
  | AtClock last_time => (at_position (AtTest last_time (th_now c)) c, s)
  | AtTest last_time current_time =>
      if refresh_due last_time current_time s
      then (at_position (AtCompareAndSet last_time current_time) c, s)
      else (at_position AtReturn c, s)
  | AtCompareAndSet last_time current_time =>
      match compare_and_set last_time current_time s with
      | Returned true s' =>
          ({| th_now := th_now c; th_at := AtRecompute;
              th_won := true |}, s')
      | Returned false s' => (at_position AtReturn c, s')
      | Raised e s' => (at_position (Failed e) c, s')
      end
  | AtRecompute =>
      match recompute py s with
      | Returned _ s' => (at_position AtReturn c, s')
      | Raised e s' => (at_position (Failed e) c, s')
      end
  | AtReturn => (at_position (Done (health_counts_snapshot s)) c, s)
  | Done _ | Failed _ => (c, s)
  end.


Definition enter (now : Z) : caller :=
  {| th_now := now; th_at := AtGet; th_won := false |}.

Fixpoint replace_nth {A} (i : nat) (x : A) (l : list A) : list A :=
  match l, i with
  | [], _ => []
  | _ :: l', O => x :: l'
  | y :: l', S i' => y :: replace_nth i' x l'
  end.

(** One scheduling decision: caller [i] takes its next action. *)
Definition schedule1 (py : PyVersion) (i : nat)
    (cfg : list caller * state) : list caller * state :=
  let (callers, s) := cfg in
  match nth_error callers i with
  | None => cfg
  | Some c =>
      let (c', s') := step py c s in (replace_nth i c' callers, s')
  end.

Definition run (py : PyVersion) (schedule : list nat)
    (cfg : list caller * state) : list caller * state :=
  fold_left (fun cfg i => schedule1 py i cfg) schedule cfg.

Definition winners (callers : list caller) : nat :=
  List.length (filter th_won callers).

(** The actions a caller has left, at most. *)
Definition remaining (c : caller) : nat :=
  match th_at c with
  | AtGet => 6
  | AtClock _ => 5
  | AtTest _ _ => 4
  | AtCompareAndSet _ _ => 3
  | AtRecompute => 2
  | AtReturn => 1
  | Done _ | Failed _ => 0
  end.

(** The six rolling sums in the order lines 151-156 read them, and
    the counter the reads leave. *)
Definition read_sums (c : Counter) : Z * Z * Z * Z * Z * Z * Counter :=
  let (success, c1) := rolling_sum RollingNumberEvent.SUCCESS c in
  let (failure, c2) := rolling_sum RollingNumberEvent.FAILURE c1 in
  let (timeout, c3) := rolling_sum RollingNumberEvent.TIMEOUT c2 in
  let (thread_pool_rejected, c4) :=
    rolling_sum RollingNumberEvent.THREAD_POOL_REJECTED c3 in
  let (semaphore_rejected, c5) :=
    rolling_sum RollingNumberEvent.SEMAPHORE_REJECTED c4 in
  let (short_circuited, c6) :=
    rolling_sum RollingNumberEvent.SHORT_CIRCUITED c5 in
  (success, failure, timeout, thread_pool_rejected, semaphore_rejected,
   short_circuited, c6).

(** Rolling sums count events: they are never negative. *)
Definition sums_nonneg : Prop :=
  forall event c, 0 <= fst (rolling_sum event c).

(** *** The invariant of a concurrent run

    [s0] is the state the callers find, with the snapshot [a0] and the
    time [L] of the last refresh; [w] is the clock reading of the caller
    whose compare-and-set succeeded, [n0] the reference its snapshot
    gets. *)






End Methods.

(** Modelled from the spec: a [RollingNumber] whose window never rolls.
    [hystrix/rolling_number.py] is not among the sources; this counter
    keeps the events incremented and a rolling sum counts them. *)
Definition Tally : Type := list RollingNumberEvent.t.

Definition tally_sum (event : RollingNumberEvent.t) (c : Tally) : Z :=
  Z.of_nat (List.length (filter (RollingNumberEvent.eqb event) c)).

#[export] Instance Tally_RollingNumber : RollingNumber Tally := {
  create _ _ := [];
  increment event c := event :: c;
  rolling_sum event c := (tally_sum event c, c)
}.

(** A listener that returns on every call, and one that raises on
    every call. *)
Definition quiet_notifier : EventNotifier :=
  {| mark_event _ _ _ := None |}.

Definition broken_notifier : EventNotifier :=
  {| mark_event _ _ _ := Some 1 |}.

End CommandMetrics.

(** ** Concrete instances used by the examples below *)
Module Examples.

Import CommandProperties CommandMetrics.

(** Properties built from a fresh setter. *)
Definition default_properties : CommandProperties.t :=
  CommandProperties.__init__ (Some "cmd"%string) Setter.__init__ None.

(** A setter with an error threshold of 150 percent, a window of 0 ms
    and -1 buckets. *)
Definition odd_setter : Setter.t :=
  Setter.with_metrics_rolling_statistical_window_buckets
    (Setter.with_metrics_rolling_statistical_window_in_milliseconds
       (Setter.with_circuit_breaker_error_threshold_percentage
          Setter.__init__ (Some (PyInt 150)))
       (Some (PyInt 0)))
    (Some (PyInt (-1))).

(** A metrics instance created at time 0 on the tallying counter, with
    a listener that returns, and one with a listener that raises. *)
Definition fresh : CommandMetrics.t Tally :=
  CommandMetrics.__init__ (Some "CmdCommandMetrics"%string) None None None
    default_properties quiet_notifier 0.

Definition fresh_broken : CommandMetrics.t Tally :=
  CommandMetrics.__init__ (Some "CmdCommandMetrics"%string) None None None
    default_properties broken_notifier 0.

(** 71 successes and 29 failures reported to [fresh]. *)
Definition busy : CommandMetrics.t Tally :=
  perform_all Py3
    (repeat (Mark Success 12) 71 ++ repeat (Mark Failure 12) 29) fresh.

(** [fresh] after a first [health_counts] at time 0 and one failure. *)
Definition warm : CommandMetrics.t Tally :=
  perform_all Py3 [HealthCountsCall 0; Mark Failure 7] fresh.



(** [warm] after a [health_counts] at time 400 and one more failure. *)
Definition warmer : CommandMetrics.t Tally :=
  perform_all Py3 [HealthCountsCall 400; Mark Failure 7] warm.



End Examples.

(** ** Fluent chains of [Setter.with_...] calls *)
Module Fluent.

Import CommandProperties.

Definition Property_eq_dec (p q : Property) : {p = q} + {p <> q}.
Proof. decide equality. Defined.

(** [setter.with_p1(v1).with_p2(v2)...]: each call stores its argument
    and returns the setter, on which the next call is made. *)
Definition chain (calls : list (Property * option PyValue))
    (setter : Setter.t) : Setter.t :=
  fold_left (fun s call => with_override (fst call) s (snd call)) calls
    setter.

(** The argument of the last call of the chain made for [p], if there is
    one. *)
Definition last_call (p : Property)
    (calls : list (Property * option PyValue))
  : option (option PyValue) :=
  fold_left
    (fun found call =>
       if Property_eq_dec (fst call) p then Some (snd call) else found)
    calls None.

End Fluent.

(** ** The metaclass of [CommandMetrics] (lines 16-49) *)
Module CommandMetricsMetaclass.

Import CommandProperties CommandMetrics.

(** A Python dict with string keys, as the metaclass uses it: [get],
    [in] and item assignment. *)
Definition dict (V : Type) : Type := list (string * V).

Definition dict_get {V : Type} (k : string) (d : dict V) : option V :=
  match find (fun kv => String.eqb k (fst kv)) d with
  | Some kv => Some (snd kv)
  | None => None
  end.

Definition dict_set {V : Type} (k : string) (v : V) (d : dict V) : dict V :=
  (k, v) :: filter (fun kv => negb (String.eqb k (fst kv))) d.

(** A class object: its identity, its [__name__], its bases and its
    attributes.  The value of an attribute is a string or [None]. *)
Record PyClass := {
  cls_id : nat;
  cls_name : string;
  cls_bases : list nat;
  cls_attrs : dict Key
}.

(** [setattr(new_class, name, value)] *)
Definition setattr (c : PyClass) (name : string) (value : Key) : PyClass :=
  {| cls_id := cls_id c;
     cls_name := cls_name c;
     cls_bases := cls_bases c;
     cls_attrs := dict_set name value (cls_attrs c) |}.

(** The state of the metaclass: the class-level dict [__instances__] and
    the identity the next class object gets. *)
Record t := {
  __instances__ : dict PyClass;
  next_id : nat
}.

Definition empty : t := {| __instances__ := []; next_id := 0 |}.

Definition __blacklist__ : list string :=
  ["CommandMetrics"%string; "CommandMetricsMetaclass"%string].

Definition blacklisted (name : string) : bool :=
  existsb (String.eqb name) __blacklist__.

(** [super(CommandMetricsMetaclass, cls).__new__(cls, name, bases, attrs)]:
    [type] makes a new class object.  This is the call when [type]
    accepts it: the name is a string and the bases are classes it can
    derive from; otherwise it raises [TypeError], the class statement
    fails and the registry is as it was.  The statements below are about
    class statements that [type] accepts. *)
Definition type_new (name : string) (bases : list nat) (attrs : dict Key)
    (m : t) : PyClass * t :=
  ({| cls_id := next_id m;
      cls_name := name;
      cls_bases := bases;
      cls_attrs := attrs |},
   {| __instances__ := __instances__ m; next_id := S (next_id m) |}).

(** [attrs.get('command_metrics_key') or '{}CommandMetrics'.format(name)],
    lines 37-38: a missing attribute, [None] and the empty string are
    false. *)
Definition command_metrics_key_for (name : string) (attrs : dict Key)
  : string :=
  match dict_get "command_metrics_key" attrs with
  | Some (Some k) => if String.eqb k "" then name ++ "CommandMetrics" else k
  | _ => name ++ "CommandMetrics"
  end.

(** [__new__], lines 29-49.  The result is [None] if the lookup of line
    49 finds no class. *)
Definition __new__ (name : string) (bases : list nat) (attrs : dict Key)
    (m : t) : option PyClass * t :=
  if blacklisted name
  then let (c, m') := type_new name bases attrs m in (Some c, m')
  else
    let command_metrics_key := command_metrics_key_for name attrs in
    let m' :=
      match dict_get command_metrics_key (__instances__ m) with
      | None =>
          let (new_class, m1) := type_new command_metrics_key bases attrs m in
          let new_class :=
            setattr new_class "command_metrics_key"
              (Some command_metrics_key) in
          {| __instances__ :=
               dict_set command_metrics_key new_class (__instances__ m1);
             next_id := next_id m1 |}
      | Some _ => m
      end in
    (dict_get command_metrics_key (__instances__ m'), m').

(** A class statement, and a run of them. *)
Record class_statement := {
  stmt_name : string;
  stmt_bases : list nat;
  stmt_attrs : dict Key
}.

Definition define (m : t) (d : class_statement) : t :=
  snd (__new__ (stmt_name d) (stmt_bases d) (stmt_attrs d) m).

Definition define_all (ds : list class_statement) (m : t) : t :=
  fold_left define ds m.

(** [self.command_metrics_key] of an instance of [c]: the attribute of
    its class.  A class the metaclass registered has it set (line 46); a
    class that has none inherits [None] from [CommandMetrics] (line 55). *)
Definition class_command_metrics_key (c : PyClass) : Key :=
  match dict_get "command_metrics_key" (cls_attrs c) with
  | Some k => k
  | None => None
  end.

(** Calling the class: [c(command_metrics_key, group_key, pool_key,
    properties, event_notifier)] at time [now]. *)
Definition instantiate {Counter : Type} `{RollingNumber Counter}
    (c : PyClass) (command_metrics_key group_key pool_key : Key)
    (properties : CommandProperties.t) (event_notifier : EventNotifier)
    (now : Z) : CommandMetrics.t Counter :=
  CommandMetrics.__init__ (class_command_metrics_key c) command_metrics_key
    group_key pool_key properties event_notifier now.

(** What holds of the classes of the registry: each is named after its
    key, has its key as attribute, a key that is not empty, and an
    identity of its own. *)
Definition registered_ok (m : t) : Prop :=
  (forall k c,
     dict_get k (__instances__ m) = Some c ->
     cls_name c = k
     /\ class_command_metrics_key c = Some k
     /\ k <> ""%string
     /\ (cls_id c < next_id m)%nat)
  /\ forall k k' c c',
       dict_get k (__instances__ m) = Some c ->
       dict_get k' (__instances__ m) = Some c' ->
       cls_id c = cls_id c' -> k = k'.

End CommandMetricsMetaclass.

(** ** Runs of operations: what is observed of them *)
Module History.

Import CommandProperties CommandMetrics.

(** A snapshot within its bounds. *)
Definition within_bounds (h : HealthCounts.t) : Prop :=
  0 <= HealthCounts.error_count h <= HealthCounts.total_requests h
  /\ 0 <= HealthCounts.error_percentage h <= 100.

(** The calls of the hook a run of operations makes: one for each
    marker, in order. *)
Definition notifications_of (key : Key) (ops : list operation)
  : list Notification :=
  flat_map
    (fun op =>
       match op with
       | Mark k _ => [(event_type k, key)]
       | HealthCountsCall _ => []
       end)
    ops.

(** Every [health_counts] of the run reads a clock that is not past
    [B]. *)
Definition calls_until (B : Z) (ops : list operation) : bool :=
  forallb
    (fun op =>
       match op with
       | Mark _ _ => true
       | HealthCountsCall now => now <=? B
       end)
    ops.

Section State.

Context {Counter : Type} `{RollingNumber Counter}.

(** [self.health_counts_snapshot] is [None] while the store is empty, and
    the newest object of the store after that. *)
Definition snapshot_is_newest (s : CommandMetrics.t Counter) : Prop :=
  health_counts_snapshot s
  = match heap s with
    | [] => None
    | _ :: _ => Some (Nat.pred (List.length (heap s)))
    end.

End State.

End History.

(** ** Classes and runs the properties are instantiated on *)
Module Scenarios.

Import CommandProperties CommandMetrics Examples CommandMetricsMetaclass.

(** [class Payment(CommandMetrics): pass], and a class that names its
    key; [0] stands for the class [CommandMetrics]. *)
Definition payment : class_statement :=
  {| stmt_name := "Payment"; stmt_bases := [0%nat]; stmt_attrs := [] |}.

Definition refund : class_statement :=
  {| stmt_name := "Refund";
     stmt_bases := [0%nat];
     stmt_attrs := [("command_metrics_key"%string, Some "refunds"%string)] |}.

(** The class object the metaclass makes for [payment] in a registry
    that holds [refund]. *)
Definition payment_class : PyClass :=
  {| cls_id := 1;
     cls_name := "PaymentCommandMetrics";
     cls_bases := [0%nat];
     cls_attrs :=
       [("command_metrics_key"%string,
         Some "PaymentCommandMetrics"%string)] |}.

(** An instance of it, constructed with another key. *)
Definition payment_metrics : CommandMetrics.t Tally :=
  instantiate payment_class (Some "ignored"%string) None None
    default_properties quiet_notifier 0.

(** One failure, then calls of [health_counts] at 400, 600 and 900 ms. *)
Definition polling : list operation :=
  [Mark Failure 7; HealthCountsCall 400; HealthCountsCall 600;
   HealthCountsCall 900].

End Scenarios.

Import CommandProperties CommandMetrics Examples.

(** * Properties *)

(** ** binary64 rounding never passes a representable bound

    The facts on [SpecFloat] that bound [int(error / total * 100)]. *)
Section Binary64.

Lemma iter_pos_nat {A} (f : A -> A) (p : positive) (x : A) :
  iter_pos f p x = Nat.iter (Pos.to_nat p) f x.
Proof.
  revert x; induction p as [p IH | p IH | ]; intro x; cbn [iter_pos].
  - rewrite Pos2Nat.inj_xI, !IH.
    replace (S (2 * Pos.to_nat p)) with (Pos.to_nat p + S (Pos.to_nat p))%nat by lia.
    rewrite Nat.iter_add, Nat.iter_succ_r. reflexivity.
  - rewrite Pos2Nat.inj_xO, !IH.
    replace (2 * Pos.to_nat p)%nat with (Pos.to_nat p + Pos.to_nat p)%nat by lia.
    rewrite Nat.iter_add. reflexivity.
  - reflexivity.
Qed.

Lemma shr_1_m mrs : 0 <= shr_m mrs -> shr_m (shr_1 mrs) = shr_m mrs / 2.
Proof.
  destruct mrs as [m r s]; cbn [shr_m]; intro Hm.
  destruct m as [ | [p | p | ] | p ]; cbn [shr_1 shr_m]; try lia;
    try reflexivity.
  - apply Z.div_unique with 1; lia.
  - apply Z.div_unique with 0; lia.
Qed.

Lemma shr_1_exact mrs :
  0 <= shr_m mrs -> shr_r mrs = false -> shr_s mrs = false ->
  shr_m mrs mod 2 = 0 ->
  shr_r (shr_1 mrs) = false /\ shr_s (shr_1 mrs) = false.
Proof.
  destruct mrs as [m r s]; cbn [shr_m shr_r shr_s]; intros Hm -> -> Hmod.
  destruct m as [ | [p | p | ] | p ]; cbn [shr_1 shr_r shr_s orb];
    try (split; reflexivity); try lia.
  - exfalso. rewrite Pos2Z.inj_xI in Hmod.
    rewrite Z.add_comm, Z.mul_comm, Z.mod_add in Hmod by lia. discriminate.
  - discriminate.
Qed.

Lemma iter_shr_1_m (n : nat) mrs :
  0 <= shr_m mrs ->
  shr_m (Nat.iter n shr_1 mrs) = shr_m mrs / 2 ^ Z.of_nat n.
Proof.
  revert mrs; induction n as [ | n IH]; intros mrs Hm.
  - simpl. now rewrite Z.div_1_r.
  - rewrite Nat.iter_succ_r, IH.
    + rewrite shr_1_m by assumption.
      rewrite Nat2Z.inj_succ, Z.pow_succ_r by lia.
      rewrite Z.div_div by lia. reflexivity.
    + rewrite shr_1_m by assumption. apply Z.div_pos; lia.
Qed.

Lemma iter_shr_1_exact (n : nat) mrs :
  0 <= shr_m mrs -> shr_r mrs = false -> shr_s mrs = false ->
  shr_m mrs mod 2 ^ Z.of_nat n = 0 ->
  loc_of_shr_record (Nat.iter n shr_1 mrs) = loc_Exact.
Proof.
  revert mrs; induction n as [ | n IH]; intros mrs Hm Hr Hs Hmod.
  - simpl. destruct mrs as [m r s]; simpl in *; subst; reflexivity.
  - rewrite Nat.iter_succ_r.
    rewrite Nat2Z.inj_succ, Z.pow_succ_r in Hmod by lia.
    assert (H2 : shr_m mrs mod 2 = 0).
    { apply Z.mod_divide in Hmod; [ | lia ]. apply Z.mod_divide; [ lia | ].
      destruct Hmod as [c Hc]. exists (c * 2 ^ Z.of_nat n). lia. }
    destruct (shr_1_exact mrs Hm Hr Hs H2) as [Hr' Hs'].
    apply IH; try assumption.
    + rewrite shr_1_m by assumption. apply Z.div_pos; lia.
    + rewrite shr_1_m by assumption.
      apply Z.mod_divide in Hmod; [ | lia ]. destruct Hmod as [c Hc].
      rewrite Hc. replace (c * (2 * 2 ^ Z.of_nat n)) with (c * 2 ^ Z.of_nat n * 2) by lia.
      rewrite Z.div_mul by lia. apply Z.mod_mul. lia.
Qed.

Lemma shr_spec m l e n :
  0 <= m ->
  exists mrs,
    shr (shr_record_of_loc m l) e n = (mrs, e + Z.max 0 n)
    /\ shr_m mrs = m / 2 ^ Z.max 0 n
    /\ (l = loc_Exact -> m mod 2 ^ Z.max 0 n = 0 ->
        loc_of_shr_record mrs = loc_Exact).
Proof.
  intro Hm.
  assert (Hrec : shr_m (shr_record_of_loc m l) = m).
  { destruct l as [ | [ | | ]]; reflexivity. }
  destruct n as [ | p | p ]; simpl shr.
  - exists (shr_record_of_loc m l). rewrite Z.add_0_r. simpl.
    rewrite Z.div_1_r. repeat split; auto.
    intros -> _. reflexivity.
  - exists (iter_pos shr_1 p (shr_record_of_loc m l)).
    rewrite Z.max_r by lia. split; [ reflexivity | ].
    rewrite iter_pos_nat. split.
    + rewrite iter_shr_1_m by lia. rewrite Hrec, positive_nat_Z. reflexivity.
    + intros -> Hmod. apply iter_shr_1_exact; simpl; auto.
      rewrite positive_nat_Z. assumption.
  - exists (shr_record_of_loc m l). rewrite Z.max_l by lia.
    rewrite Z.add_0_r. simpl. rewrite Z.div_1_r. repeat split; auto.
    intros -> _. reflexivity.
Qed.

Lemma round_nearest_even_bounds m l :
  m <= round_nearest_even m l <= m + 1.
Proof.
  destruct l as [ | [ | | ]]; simpl; try lia.
  destruct (Z.even m); lia.
Qed.

Lemma Zdigits2_log2 m : 0 < m -> Zdigits2 m = Z.log2 m + 1.
Proof.
  destruct m as [ | p | p ]; try lia. intros _. simpl.
  induction p as [p IH | p IH | ]; simpl; try reflexivity.
  - rewrite Pos2Z.inj_succ, IH. destruct p; simpl; lia.
  - rewrite Pos2Z.inj_succ, IH. destruct p; simpl; lia.
Qed.

Lemma Zdigits2_le m k : 0 <= m -> 0 <= k -> m < 2 ^ k -> Zdigits2 m <= k.
Proof.
  intros Hm Hk Hlt.
  destruct (Z.eq_dec m 0) as [-> | Hne]; [ simpl; lia | ].
  rewrite Zdigits2_log2 by lia.
  assert (Z.log2 m < k) by (apply Z.log2_lt_pow2; lia). lia.
Qed.

Lemma fexp_le m e B E :
  0 <= m -> 0 < B < 2 ^ 53 -> -1074 <= E -> e <= E ->
  m <= B * 2 ^ (E - e) ->
  fexp prec emax (Zdigits2 m + e) <= E.
Proof.
  intros Hm HB HE He Hle.
  assert (Hpow : 0 < 2 ^ (E - e)) by (apply Z.pow_pos_nonneg; lia).
  assert (Hd : Zdigits2 m <= 53 + (E - e)).
  { apply Zdigits2_le; try lia.
    rewrite Z.pow_add_r by lia. nia. }
  unfold fexp, emin, prec, emax. lia.
Qed.

Lemma binary_round_aux_le sx m e l B E :
  0 <= m -> 0 < B < 2 ^ 53 -> -1074 <= E <= 971 -> e <= E ->
  (l = loc_Exact /\ m <= B * 2 ^ (E - e)) \/ m + 1 <= B * 2 ^ (E - e) ->
  binary_round_aux prec emax sx m e l = S754_zero sx
  \/ exists m' e',
       binary_round_aux prec emax sx m e l = S754_finite sx m' e'
       /\ e' <= E /\ Z.pos m' <= B * 2 ^ (E - e').
Proof.
  intros Hm HB HE He Hbound.
  assert (Hle : m <= B * 2 ^ (E - e)) by (destruct Hbound; lia).
  unfold binary_round_aux, shr_fexp.
  set (k1 := fexp prec emax (Zdigits2 m + e) - e).
  destruct (shr_spec m l e k1 Hm) as (mrs1 & -> & Hm1 & Hex1).
  set (e1 := e + Z.max 0 k1).
  assert (He1 : e <= e1 <= E).
  { pose proof (fexp_le m e B E Hm HB (proj1 HE) He Hle). unfold e1, k1. lia. }
  assert (Hj1 : Z.max 0 k1 = e1 - e) by (unfold e1; lia).
  rewrite Hj1 in Hm1, Hex1.
  set (K := B * 2 ^ (E - e1)).
  assert (HK : B * 2 ^ (E - e) = K * 2 ^ (e1 - e)).
  { unfold K. rewrite <- Z.mul_assoc, <- Z.pow_add_r by lia.
    f_equal. f_equal. lia. }
  assert (Hp1 : 0 < 2 ^ (e1 - e)) by (apply Z.pow_pos_nonneg; lia).
  assert (Hm1pos : 0 <= shr_m mrs1).
  { rewrite Hm1. apply Z.div_pos; lia. }
  set (m2 := round_nearest_even (shr_m mrs1) (loc_of_shr_record mrs1)).
  assert (Hm2 : 0 <= m2 <= K).
  { pose proof (round_nearest_even_bounds (shr_m mrs1) (loc_of_shr_record mrs1)) as Hr.
    fold m2 in Hr. split; [ lia | ].
    rewrite HK in Hbound.
    destruct Hbound as [[-> Hb] | Hb].
    - assert (Hdiv : shr_m mrs1 <= K).
      { rewrite Hm1. apply Z.div_le_upper_bound; lia. }
      destruct (Z.eq_dec (shr_m mrs1) K) as [Heq | Hne]; [ | lia ].
      assert (Hmul : 2 ^ (e1 - e) * (m / 2 ^ (e1 - e)) <= m)
        by (apply Z.mul_div_le; lia).
      rewrite <- Hm1, Heq in Hmul.
      assert (Hmeq : m = K * 2 ^ (e1 - e)) by lia.
      unfold m2. rewrite Hex1; [ simpl; lia | reflexivity | ].
      rewrite Hmeq. apply Z.mod_mul. lia.
    - assert (Hdiv : shr_m mrs1 < K).
      { rewrite Hm1. apply Z.div_lt_upper_bound; lia. }
      lia. }
  set (k2 := fexp prec emax (Zdigits2 m2 + e1) - e1).
  destruct (shr_spec m2 loc_Exact e1 k2 (proj1 Hm2)) as (mrs2 & -> & Hm3 & _).
  set (e3 := e1 + Z.max 0 k2).
  assert (He3 : e1 <= e3 <= E).
  { pose proof (fexp_le m2 e1 B E (proj1 Hm2) HB (proj1 HE) (proj2 He1) (proj2 Hm2)).
    unfold e3, k2. lia. }
  assert (Hj2 : Z.max 0 k2 = e3 - e1) by (unfold e3; lia).
  rewrite Hj2 in Hm3.
  assert (Hp2 : 0 < 2 ^ (e3 - e1)) by (apply Z.pow_pos_nonneg; lia).
  assert (HK2 : K = B * 2 ^ (E - e3) * 2 ^ (e3 - e1)).
  { unfold K. rewrite <- Z.mul_assoc, <- Z.pow_add_r by lia.
    f_equal. f_equal. lia. }
  assert (Hm3b : 0 <= shr_m mrs2 <= B * 2 ^ (E - e3)).
  { rewrite Hm3. split; [ apply Z.div_pos; lia | ].
    apply Z.div_le_upper_bound; lia. }
  destruct (shr_m mrs2) as [ | p | p ].
  - left. reflexivity.
  - right. exists p, e3.
    replace (e3 <=? emax - prec) with true
      by (symmetry; apply Z.leb_le; unfold emax, prec; lia).
    repeat split; lia.
  - lia.
Qed.

Lemma SFdiv_core_binary_le_one a b :
  0 < a <= b ->
  exists q e l,
    SFdiv_core_binary prec emax a 0 b 0 = (q, e, l)
    /\ 0 <= q /\ e <= 0
    /\ ((l = loc_Exact /\ q <= 1 * 2 ^ (0 - e)) \/ q + 1 <= 1 * 2 ^ (0 - e)).
Proof.
  intros Hab. unfold SFdiv_core_binary.
  set (e' := Z.min (fexp prec emax (Zdigits2 a + 0 - (Zdigits2 b + 0))) (0 - 0)).
  assert (He' : e' <= 0) by (unfold e'; lia).
  set (m' := match 0 - 0 - e' with
             | Z.pos _ => Z.shiftl a (0 - 0 - e')
             | 0 => a
             | Z.neg _ => 0
             end).
  assert (Hm' : m' = a * 2 ^ (0 - e')).
  { unfold m'. replace (0 - 0 - e') with (0 - e') by lia.
    destruct (0 - e') as [ | p | p ] eqn:Hs; try lia.
    apply Z.shiftl_mul_pow2. lia. }
  assert (Hpow : 0 < 2 ^ (0 - e')) by (apply Z.pow_pos_nonneg; lia).
  pose proof (Z.div_eucl_eq m' b ltac:(lia)) as Heucl.
  pose proof (Z.mod_pos_bound m' b ltac:(lia)) as Hmod.
  unfold Z.modulo in Hmod.
  destruct (Z.div_eucl m' b) as [q r].
  exists q, e', (new_location b r).
  split; [ reflexivity | ].
  clearbody m' e'. subst m'.
  generalize dependent (2 ^ (0 - e')). intros P HP Heucl.
  assert (Hq0 : 0 <= q) by nia.
  split; [ assumption | ]. split; [ assumption | ].
  destruct (Z.eq_dec a b) as [Heq | Hne].
  - left. subst a.
    assert (Hq : q = P) by nia.
    assert (Hr : r = 0) by nia.
    split; [ | lia ]. subst r.
    unfold new_location, new_location_even, new_location_odd.
    destruct (Z.even b); reflexivity.
  - right. nia.
Qed.

Lemma int_truediv_le_one a b :
  0 < a <= b ->
  int_truediv a b = inr (S754_zero false)
  \/ exists m e,
       int_truediv a b = inr (S754_finite false m e)
       /\ e <= 0 /\ Z.pos m <= 2 ^ (0 - e).
Proof.
  intros Hab.
  destruct a as [ | pa | pa ]; try lia. destruct b as [ | pb | pb ]; try lia.
  unfold int_truediv.
  change (Z.pos pa <? 0) with false. change (Z.pos pb <? 0) with false.
  change (Z.to_pos (Z.abs (Z.pos pa))) with pa.
  change (Z.to_pos (Z.abs (Z.pos pb))) with pb.
  cbn [SFdiv].
  destruct (SFdiv_core_binary_le_one (Z.pos pa) (Z.pos pb) Hab)
    as (q & e & l & -> & Hq & He & Hb).
  destruct (binary_round_aux_le (xorb false false) q e l 1 0 Hq
              ltac:(lia) ltac:(lia) He Hb)
    as [-> | (m' & e' & -> & He' & Hm')].
  - left. reflexivity.
  - right. exists m', e'. repeat split; try assumption. lia.
Qed.

Lemma float_of_int_100 :
  float_of_int 100 = S754_finite false 7036874417766400 (-46).
Proof. reflexivity. Qed.

Lemma int_of_float_le s m e B :
  e <= 0 -> Z.pos m <= B * 2 ^ (0 - e) ->
  exists p, int_of_float (S754_finite s m e) = inr (if s then - p else p)
            /\ 0 <= p <= B.
Proof.
  intros He Hm. unfold int_of_float.
  destruct e as [ | k | k ]; try lia.
  - exists (Z.pos m). rewrite Z.shiftl_0_r. split; [ reflexivity | ]. simpl in Hm. lia.
  - exists (Z.shiftr (Z.pos m) (Z.pos k)). split; [ reflexivity | ].
    rewrite Z.shiftr_div_pow2 by lia.
    assert (0 < 2 ^ Z.pos k) by (apply Z.pow_pos_nonneg; lia).
    change (0 - Z.neg k) with (Z.pos k) in Hm.
    split; [ apply Z.div_pos; lia | apply Z.div_le_upper_bound; lia ].
Qed.

Lemma percentage_bounds py error_count total_count :
  0 <= error_count <= total_count -> 0 < total_count ->
  exists p, percentage py error_count total_count = inr p /\ 0 <= p <= 100.
Proof.
  intros He Ht. destruct py; unfold percentage.
  - replace (total_count =? 0) with false by (symmetry; apply Z.eqb_neq; lia).
    exists (error_count / total_count * 100). split; [ reflexivity | ].
    assert (0 <= error_count / total_count) by (apply Z.div_pos; lia).
    assert (error_count / total_count <= 1)
      by (apply Z.div_le_upper_bound; lia).
    lia.
  - destruct (Z.eq_dec error_count 0) as [-> | Hne].
    + destruct total_count; try lia. exists 0. split; [ reflexivity | lia ].
    + destruct (int_truediv_le_one error_count total_count ltac:(lia))
        as [-> | (m & e & -> & Hle & Hm)].
      * exists 0. split; [ reflexivity | lia ].
      * unfold float_mul_int. rewrite float_of_int_100. cbn [SFmul].
        destruct (binary_round_aux_le (xorb false false)
                    (Z.pos (m * 7036874417766400)) (e + -46) loc_Exact 100 0
                    ltac:(lia) ltac:(lia) ltac:(lia) ltac:(lia))
          as [-> | (m' & e' & -> & He' & Hm')].
        { left. split; [ reflexivity | ].
          replace (0 - (e + -46)) with (46 + (0 - e)) by lia.
          rewrite Z.pow_add_r by lia.
          change (2 ^ 46) with 70368744177664.
          rewrite Pos2Z.inj_mul.
          assert (0 < 2 ^ (0 - e)) by (apply Z.pow_pos_nonneg; lia). nia. }
        { exists 0. split; [ reflexivity | lia ]. }
        { destruct (int_of_float_le (xorb false false) m' e' 100 He' Hm')
            as (p & Hp & Hb).
          exists p. split; assumption. }
Qed.

End Binary64.

(** ** Command properties *)

Lemma with_override_sets (p : Property) (setter : Setter.t)
    (v : option PyValue) :
  setter_override_value p (with_override p setter v) = v.
Proof. destruct setter, p; reflexivity. Qed.

Lemma property_resolved (p : Property) (command_key : Key)
    (setter : Setter.t) (property_prefix : Key) :
  resolved p (CommandProperties.__init__ command_key setter property_prefix)
  = _property property_prefix command_key (instance_property p)
      (default_value p) (setter_override_value p setter).
Proof. destruct p; reflexivity. Qed.

(** C6: for every property and every setter, the value resolved at
    construction is the setter's override when there is one and the
    default otherwise; from a fresh setter every property resolves to its
    default, and an override set with the property's [with_...] method is
    the value resolved. *)
Theorem property_override_else_default (p : Property) (command_key : Key)
    (setter : Setter.t) (property_prefix : Key) :
  resolved p (CommandProperties.__init__ command_key setter property_prefix)
  = match setter_override_value p setter with
    | Some v => v
    | None => default_value p
    end
  /\ resolved p
       (CommandProperties.__init__ command_key Setter.__init__
          property_prefix)
     = default_value p
  /\ forall v,
       resolved p
         (CommandProperties.__init__ command_key
            (with_override p setter (Some v)) property_prefix)
       = v.
Proof.
  split; [ | split ].
  - rewrite property_resolved. reflexivity.
  - rewrite property_resolved. destruct p; reflexivity.
  - intro v. rewrite property_resolved, with_override_sets. reflexivity.
Qed.

(** C5, as the spec has it, fails: a setter with an error threshold of
    150 percent, a window of 0 ms and -1 buckets is out of range, and
    construction returns the properties, with these values, instead of
    raising [ConfigError]. *)
Lemma construct_out_of_range_returns :
  out_of_range odd_setter = true
  /\ construct None odd_setter None <> inl ConfigError
  /\ exists self,
       construct None odd_setter None = inr self
       /\ circuit_breaker_error_threshold_percentage self = PyInt 150
       /\ metrics_rolling_statistical_window_in_milliseconds self = PyInt 0
       /\ metrics_rolling_statistical_window_buckets self = PyInt (-1).
Proof.
  split; [ reflexivity | ]. split; [ discriminate | ].
  eexists. split; [ reflexivity | ]. repeat split.
Qed.

(** ** Command metrics: the markers *)
Section Markers.

Context {Counter : Type} `{RollingNumber Counter}.

Implicit Types (s : CommandMetrics.t Counter) (k : marker).

Lemma mark_unfold k {D : Type} (d : D) s :
  mark k d s
  = (notify (event_type k) ;;; counter_increment (rolling_number_event k)) s.
Proof. destruct k; reflexivity. Qed.

Lemma mark_when_hook_returns k {D : Type} (d : D) s :
  hook_answer (event_type k) s = None ->
  mark k d s
  = Returned tt
      (set_counter (increment (rolling_number_event k) (counter s))
         (set_notified
            (notified s ++ [(event_type k, command_metrics_key s)]) s)).
Proof.
  intro Hhook. rewrite mark_unfold. unfold bind, notify.
  unfold hook_answer in Hhook. rewrite Hhook. reflexivity.
Qed.

Lemma mark_when_hook_raises k {D : Type} (d : D) s tag :
  hook_answer (event_type k) s = Some tag ->
  mark k d s
  = Raised (HookError tag)
      (set_notified
         (notified s ++ [(event_type k, command_metrics_key s)]) s).
Proof.
  intro Hhook. rewrite mark_unfold. unfold bind, notify.
  unfold hook_answer in Hhook. rewrite Hhook. reflexivity.
Qed.


(** C3, as amended: an exception raised by the notification hook reaches
    the caller of the marker, and the increment, which comes after the
    call of the hook, is not applied; the counter and the rest of the
    metrics state are as before the call. *)
Theorem mark_hook_failure_propagates k (duration : Z) s tag :
  hook_answer (event_type k) s = Some tag ->
  exists s',
    mark k duration s = Raised (HookError tag) s'
    /\ counter s' = counter s
    /\ notified s'
       = notified s ++ [(event_type k, command_metrics_key s)]
    /\ health_counts_snapshot s' = health_counts_snapshot s
    /\ last_health_counts_snapshot s' = last_health_counts_snapshot s
    /\ heap s' = heap s.
Proof.
  intro Hhook. eexists. split.
  - apply mark_when_hook_raises. assumption.
  - repeat split.
Qed.

(** C8: the duration has no influence: a marker called with one duration
    and with another, of whatever types, gives the same outcome, be it a
    return or an exception, the same metrics state and the same calls
    of the hook. *)
Theorem mark_ignores_duration k {D1 D2 : Type} (d1 : D1) (d2 : D2) s :
  mark k d1 s = mark k d2 s
  /\ notified (final (mark k d1 s)) = notified (final (mark k d2 s))
  /\ counter (final (mark k d1 s)) = counter (final (mark k d2 s)).
Proof. rewrite !mark_unfold. repeat split. Qed.

End Markers.

(** On the tallying counter a marker adds one to the rolling sum of its
    own event and leaves the other sums alone. *)
Lemma mark_tally k (duration : Z) (s : CommandMetrics.t Tally) event :
  hook_answer (event_type k) s = None ->
  tally_sum event (counter (final (mark k duration s)))
  = tally_sum event (counter s)
    + (if RollingNumberEvent.eqb event (rolling_number_event k)
       then 1 else 0).
Proof.
  intro Hhook. rewrite (mark_when_hook_returns k duration s Hhook).
  cbn [final counter set_counter increment Tally_RollingNumber].
  unfold tally_sum. cbn [filter].
  destruct (RollingNumberEvent.eqb event (rolling_number_event k));
    cbn [List.length]; lia.
Qed.



(** C3, as the spec has it, fails: the listener of [fresh_broken] raises,
    [mark_success] raises in turn, and the success is not counted. *)
Lemma mark_success_broken_hook :
  exists s',
    mark_success 12 fresh_broken = Raised (HookError 1) s'
    /\ tally_sum RollingNumberEvent.SUCCESS (counter s') = 0
    /\ forall s'', mark_success 12 fresh_broken <> Returned tt s''.
Proof.
  eexists. split; [ reflexivity | ]. split; [ reflexivity | ].
  intros s'' Heq. discriminate Heq.
Qed.

(** C3 as amended, at [fresh_broken]. *)
Lemma mark_hook_failure_propagates_witness :
  exists s',
    mark Success 12 fresh_broken = Raised (HookError 1) s'
    /\ counter s' = [].
Proof.
  destruct (mark_hook_failure_propagates Success 12 fresh_broken 1 eq_refl)
    as (s' & Hm & Hc & _).
  exists s'. split; assumption.
Defined.

(** ** Command metrics: the health snapshot *)
Section HealthSnapshot.

Context {Counter : Type} `{RollingNumber Counter}.

Implicit Types (s : CommandMetrics.t Counter) (py : PyVersion).

Lemma recompute_unfold py s :
  recompute py s
  = let '(success, failure, timeout, thread_pool_rejected,
          semaphore_rejected, short_circuited, c') :=
      read_sums (counter s) in
    let total_count :=
      failure + success + timeout + thread_pool_rejected
      + short_circuited + semaphore_rejected in
    let error_count :=
      failure + timeout + thread_pool_rejected + short_circuited
      + semaphore_rejected in
    match (if 0 <? total_count
           then percentage py error_count total_count
           else inr 0) with
    | inr error_percentage =>
        Returned tt
          (publish
             (HealthCounts.__init__ total_count error_count error_percentage)
             (set_counter c' s))
    | inl e => Raised e (set_counter c' s)
    end.
Proof.
  unfold recompute, read_sums, bind, counter_rolling_sum.
  destruct (rolling_sum RollingNumberEvent.SUCCESS (counter s))
    as [success c1]; cbn [counter set_counter].
  destruct (rolling_sum RollingNumberEvent.FAILURE c1)
    as [failure c2]; cbn [counter set_counter].
  destruct (rolling_sum RollingNumberEvent.TIMEOUT c2)
    as [timeout c3]; cbn [counter set_counter].
  destruct (rolling_sum RollingNumberEvent.THREAD_POOL_REJECTED c3)
    as [thread_pool_rejected c4]; cbn [counter set_counter].
  destruct (rolling_sum RollingNumberEvent.SEMAPHORE_REJECTED c4)
    as [semaphore_rejected c5]; cbn [counter set_counter].
  destruct (rolling_sum RollingNumberEvent.SHORT_CIRCUITED c5)
    as [short_circuited c6]; cbn [counter set_counter].
  cbv zeta.
  destruct (0 <? failure + success + timeout + thread_pool_rejected
                 + short_circuited + semaphore_rejected).
  - destruct (percentage py _ _) as [e | p]; reflexivity.
  - reflexivity.
Qed.

Lemma read_sums_nonneg (c : Counter) :
  sums_nonneg ->
  let '(success, failure, timeout, thread_pool_rejected,
        semaphore_rejected, short_circuited, _) := read_sums c in
  0 <= success /\ 0 <= failure /\ 0 <= timeout
  /\ 0 <= thread_pool_rejected /\ 0 <= semaphore_rejected
  /\ 0 <= short_circuited.
Proof.
  intro Hnn. unfold read_sums.
  pose proof (Hnn RollingNumberEvent.SUCCESS c) as H1.
  destruct (rolling_sum RollingNumberEvent.SUCCESS c) as [success c1].
  pose proof (Hnn RollingNumberEvent.FAILURE c1) as H2.
  destruct (rolling_sum RollingNumberEvent.FAILURE c1) as [failure c2].
  pose proof (Hnn RollingNumberEvent.TIMEOUT c2) as H3.
  destruct (rolling_sum RollingNumberEvent.TIMEOUT c2) as [timeout c3].
  pose proof (Hnn RollingNumberEvent.THREAD_POOL_REJECTED c3) as H4.
  destruct (rolling_sum RollingNumberEvent.THREAD_POOL_REJECTED c3)
    as [thread_pool_rejected c4].
  pose proof (Hnn RollingNumberEvent.SEMAPHORE_REJECTED c4) as H5.
  destruct (rolling_sum RollingNumberEvent.SEMAPHORE_REJECTED c4)
    as [semaphore_rejected c5].
  pose proof (Hnn RollingNumberEvent.SHORT_CIRCUITED c5) as H6.
  destruct (rolling_sum RollingNumberEvent.SHORT_CIRCUITED c5)
    as [short_circuited c6].
  cbn [fst] in *. repeat split; assumption.
Qed.

(** With rolling sums that are not negative the recomputation returns:
    it publishes a snapshot of the six sums it read. *)
Lemma recompute_returns py s :
  sums_nonneg ->
  exists success failure timeout thread_pool_rejected semaphore_rejected
         short_circuited c' p,
    read_sums (counter s)
    = (success, failure, timeout, thread_pool_rejected, semaphore_rejected,
       short_circuited, c')
    /\ recompute py s
       = Returned tt
           (publish
              (HealthCounts.__init__
                 (failure + success + timeout + thread_pool_rejected
                  + short_circuited + semaphore_rejected)
                 (failure + timeout + thread_pool_rejected + short_circuited
                  + semaphore_rejected)
                 p)
              (set_counter c' s))
    /\ 0 <= success
    /\ 0 <= failure + timeout + thread_pool_rejected + short_circuited
            + semaphore_rejected
    /\ 0 <= p <= 100.
Proof.
  intro Hnn. rewrite recompute_unfold.
  pose proof (read_sums_nonneg (counter s) Hnn) as Hsums.
  destruct (read_sums (counter s))
    as [[[[[[success failure] timeout] thread_pool_rejected]
           semaphore_rejected] short_circuited] c'].
  destruct Hsums as (H1 & H2 & H3 & H4 & H5 & H6).
  exists success, failure, timeout, thread_pool_rejected,
    semaphore_rejected, short_circuited, c'.
  cbv zeta.
  destruct (0 <? failure + success + timeout + thread_pool_rejected
                 + short_circuited + semaphore_rejected) eqn:Hpos.
  - apply Z.ltb_lt in Hpos.
    destruct (percentage_bounds py
                (failure + timeout + thread_pool_rejected + short_circuited
                 + semaphore_rejected)
                (failure + success + timeout + thread_pool_rejected
                 + short_circuited + semaphore_rejected)
                ltac:(lia) Hpos) as (p & -> & Hp).
    exists p. repeat split; try reflexivity; lia.
  - exists 0. repeat split; try reflexivity; lia.
Qed.

Lemma health_counts_cached py now s r :
  health_counts_snapshot s = Some r ->
  now - last_health_counts_snapshot s < snapshot_interval s ->
  health_counts py now s = Returned (Some r) s.
Proof.
  intros Hsnap Hlt. unfold health_counts, refresh_due, bind, ret.
  rewrite Hsnap.
  replace (snapshot_interval s <=? now - last_health_counts_snapshot s) with false
    by (symmetry; apply Z.leb_gt; assumption).
  cbn [orb]. rewrite Hsnap. reflexivity.
Qed.

Lemma health_counts_due py now s :
  refresh_due (last_health_counts_snapshot s) now s = true ->
  health_counts py now s
  = match recompute py (set_last_health_counts_snapshot now s) with
    | Returned _ s' => Returned (health_counts_snapshot s') s'
    | Raised e s' => Raised e s'
    end.
Proof.
  intro Hdue. unfold health_counts, bind, compare_and_set.
  rewrite Hdue, Z.eqb_refl. reflexivity.
Qed.

(** A refresh returns the reference of the object it has just allocated
    and leaves the store one object longer. *)
Lemma health_counts_refreshes py now s :
  sums_nonneg ->
  refresh_due (last_health_counts_snapshot s) now s = true ->
  exists success failure timeout thread_pool_rejected semaphore_rejected
         short_circuited c' p,
    read_sums (counter s)
    = (success, failure, timeout, thread_pool_rejected, semaphore_rejected,
       short_circuited, c')
    /\ health_counts py now s
       = Returned (Some (List.length (heap s)))
           (publish
              (HealthCounts.__init__
                 (failure + success + timeout + thread_pool_rejected
                  + short_circuited + semaphore_rejected)
                 (failure + timeout + thread_pool_rejected + short_circuited
                  + semaphore_rejected)
                 p)
              (set_counter c' (set_last_health_counts_snapshot now s)))
    /\ 0 <= success
    /\ 0 <= failure + timeout + thread_pool_rejected + short_circuited
            + semaphore_rejected
    /\ 0 <= p <= 100.
Proof.
  intros Hnn Hdue.
  destruct (recompute_returns py (set_last_health_counts_snapshot now s) Hnn)
    as (a & b & c & d & e & f & c' & p & Hread & Hrec & Hb).
  exists a, b, c, d, e, f, c', p.
  split; [ exact Hread | ]. split; [ | exact Hb ].
  rewrite (health_counts_due py now s Hdue), Hrec. reflexivity.
Qed.

Lemma deref_publish s h :
  deref (publish h s) (List.length (heap s)) = Some h.
Proof.
  unfold deref, publish. cbn [heap].
  rewrite nth_error_app2 by lia. rewrite Nat.sub_diag. reflexivity.
Qed.

(** C10: with rolling sums that are not negative, a call of
    [health_counts] that refreshes returns, and the snapshot it publishes
    has [0 <= error_count <= total_requests] and
    [0 <= error_percentage <= 100], on Python 2 and on Python 3. *)
Theorem published_health_counts_bounds py now s :
  sums_nonneg ->
  refresh_due (last_health_counts_snapshot s) now s = true ->
  exists r h s',
    health_counts py now s = Returned (Some r) s'
    /\ heap s' = heap s ++ [h]
    /\ deref s' r = Some h
    /\ 0 <= HealthCounts.error_count h <= HealthCounts.total_requests h
    /\ 0 <= HealthCounts.error_percentage h <= 100.
Proof.
  intros Hnn Hdue.
  destruct (health_counts_refreshes py now s Hnn Hdue)
    as (a & b & c & d & e & f & c' & p & _ & Hhc & Ha & Herr & Hp).
  eexists _, _, _. split; [ exact Hhc | ].
  split; [ reflexivity | ].
  split; [ exact (deref_publish
                     (set_counter c' (set_last_health_counts_snapshot now s))
                     _) | ].
  cbn [HealthCounts.error_count HealthCounts.total_requests
       HealthCounts.error_percentage HealthCounts.__init__
       HealthCounts._error_count HealthCounts._total_count
       HealthCounts._error_percentage].
  lia.
Qed.

(** The published counts are sums of the six rolling sums: the total is
    the sum of all six and the errors are the total less the successes. *)
Lemma published_health_counts_totals py now s :
  sums_nonneg ->
  refresh_due (last_health_counts_snapshot s) now s = true ->
  exists success failure timeout thread_pool_rejected semaphore_rejected
         short_circuited c' h,
    read_sums (counter s)
    = (success, failure, timeout, thread_pool_rejected, semaphore_rejected,
       short_circuited, c')
    /\ health_counts_value py now s = Some h
    /\ HealthCounts.total_requests h
       = success + failure + timeout + thread_pool_rejected
         + semaphore_rejected + short_circuited
    /\ HealthCounts.error_count h = HealthCounts.total_requests h - success.
Proof.
  intros Hnn Hdue.
  destruct (health_counts_refreshes py now s Hnn Hdue)
    as (a & b & c & d & e & f & c' & p & Hread & Hhc & _).
  exists a, b, c, d, e, f, c'. eexists.
  split; [ exact Hread | ].
  unfold health_counts_value. rewrite Hhc.
  split; [ exact (deref_publish
                     (set_counter c' (set_last_health_counts_snapshot now s))
                     _) | ].
  cbn [HealthCounts.error_count HealthCounts.total_requests
       HealthCounts.__init__ HealthCounts._error_count
       HealthCounts._total_count].
  lia.
Qed.

End HealthSnapshot.

(** The tallying counter has sums that are not negative. *)
Lemma Tally_sums_nonneg : @sums_nonneg Tally _.
Proof. intros event c. cbn. unfold tally_sum. lia. Qed.

(** C10 at [busy]: 71 successes and 29 failures. *)
Lemma published_health_counts_bounds_witness :
  exists r h s',
    health_counts Py3 1000 busy = Returned (Some r) s'
    /\ deref s' r = Some h
    /\ 0 <= HealthCounts.error_count h <= HealthCounts.total_requests h
    /\ 0 <= HealthCounts.error_percentage h <= 100.
Proof.
  destruct (published_health_counts_bounds Py3 1000 busy Tally_sums_nonneg
              eq_refl) as (r & h & s' & Hhc & _ & Hd & Hb).
  exists r, h, s'. repeat split; try assumption; apply Hb.
Defined.

(** C1 fails on the code at 29 errors in 100 requests: the total is 100
    and the errors are 29, as the claim says, but the percentage is 28 on
    Python 3 (29/100 is the float 0.28999..., times 100 it is
    28.999999999999996, and [int] truncates) and 0 on Python 2 (29/100 is
    an integer division), where the claim has floor(29/100*100) = 29. *)
Theorem health_counts_29_of_100 :
  tally_sum RollingNumberEvent.SUCCESS (counter busy) = 71
  /\ tally_sum RollingNumberEvent.FAILURE (counter busy) = 29
  /\ health_counts_value Py3 1000 busy
     = Some (HealthCounts.__init__ 100 29 28)
  /\ health_counts_value Py2 1000 busy
     = Some (HealthCounts.__init__ 100 29 0)
  /\ exact_percentage 29 100 = 29.
Proof. repeat split; vm_compute; reflexivity. Qed.

(** ** Command metrics: throttling and the store *)
Section Throttle.

Context {Counter : Type} `{RollingNumber Counter}.

Implicit Types (s : CommandMetrics.t Counter) (py : PyVersion).

(** What a marker leaves alone, whether the hook returns or raises. *)
Lemma perform_mark_frame py k d s :
  health_counts_snapshot (perform py (Mark k d) s) = health_counts_snapshot s
  /\ last_health_counts_snapshot (perform py (Mark k d) s)
     = last_health_counts_snapshot s
  /\ properties (perform py (Mark k d) s) = properties s
  /\ heap (perform py (Mark k d) s) = heap s.
Proof.
  unfold perform, invoke, bind. rewrite mark_unfold.
  unfold bind, notify, counter_increment, ret.
  destruct (mark_event _ _ _ _); repeat split.
Qed.

Lemma perform_all_cons py op ops s :
  perform_all py (op :: ops) s = perform_all py ops (perform py op s).
Proof. reflexivity. Qed.

Lemma perform_all_markers_frame py ops s :
  forallb is_marker ops = true ->
  health_counts_snapshot (perform_all py ops s) = health_counts_snapshot s
  /\ last_health_counts_snapshot (perform_all py ops s)
     = last_health_counts_snapshot s
  /\ properties (perform_all py ops s) = properties s
  /\ heap (perform_all py ops s) = heap s.
Proof.
  revert s; induction ops as [ | op ops IH]; intros s Hall.
  - repeat split.
  - cbn [forallb] in Hall. apply andb_prop in Hall as [Hop Hops].
    destruct op as [k d | now]; [ | discriminate ].
    rewrite perform_all_cons.
    destruct (IH (perform py (Mark k d) s) Hops) as (-> & -> & -> & ->).
    apply perform_mark_frame.
Qed.



(** The test of line 146, in the arithmetic it stands for. *)
Lemma refresh_due_elapsed s now :
  snapshot_interval s <= now - last_health_counts_snapshot s
  \/ health_counts_snapshot s = None ->
  refresh_due (last_health_counts_snapshot s) now s = true.
Proof.
  intros [Helapsed | Hnone]; unfold refresh_due.
  - replace (snapshot_interval s <=? now - last_health_counts_snapshot s)
      with true by (symmetry; apply Z.leb_le; exact Helapsed).
    reflexivity.
  - rewrite Hnone. apply orb_true_r.
Qed.

(** C2, as amended: a call made less than the interval after the time
    of the last refresh (or of construction), when a snapshot exists,
    returns the cached snapshot and changes nothing, whatever the
    counters hold; a call made when the interval has elapsed since that
    time ([interval <= now - last]), or when no snapshot exists,
    recomputes: it publishes a new snapshot, computed from the rolling
    sums it reads, and moves the time of the last refresh to now; and
    every call made less than the interval after such a refresh,
    whatever markers came in between, returns that same snapshot. *)
Theorem health_counts_throttle py now s :
  (forall r,
     health_counts_snapshot s = Some r ->
     now - last_health_counts_snapshot s < snapshot_interval s ->
     health_counts py now s = Returned (Some r) s)
  /\ (sums_nonneg ->
      snapshot_interval s <= now - last_health_counts_snapshot s
      \/ health_counts_snapshot s = None ->
      exists h s',
        recompute py (set_last_health_counts_snapshot now s)
        = Returned tt s'
        /\ health_counts py now s
           = Returned (Some (List.length (heap s))) s'
        /\ heap s' = heap s ++ [h]
        /\ deref s (List.length (heap s)) = None
        /\ last_health_counts_snapshot s' = now
        /\ (let '(success, failure, timeout, thread_pool_rejected,
                  semaphore_rejected, short_circuited, _) :=
               read_sums (counter s) in
            HealthCounts.total_requests h
            = failure + success + timeout + thread_pool_rejected
              + short_circuited + semaphore_rejected
            /\ HealthCounts.error_count h
               = failure + timeout + thread_pool_rejected + short_circuited
                 + semaphore_rejected)
        /\ forall ops later,
             forallb is_marker ops = true ->
             later - now < snapshot_interval s ->
             health_counts py later (perform_all py ops s')
             = Returned (Some (List.length (heap s))) (perform_all py ops s')
             /\ deref (perform_all py ops s') (List.length (heap s))
                = Some h).
Proof.
  split.
  - intros r. apply health_counts_cached.
  - intros Hnn Helapsed.
    pose proof (refresh_due_elapsed s now Helapsed) as Hdue.
    destruct (recompute_returns py (set_last_health_counts_snapshot now s)
                Hnn)
      as (a & b & c & d & e & f & c' & p & Hread & Hrec & _).
    eexists _, _. split; [ exact Hrec | ].
    split; [ rewrite (health_counts_due py now s Hdue), Hrec; reflexivity | ].
    split; [ reflexivity | ].
    split; [ apply nth_error_None; apply Nat.le_refl | ].
    split; [ reflexivity | ].
    split.
    { cbn [counter set_last_health_counts_snapshot] in Hread.
      rewrite Hread. split; reflexivity. }
    intros ops later Hops Hlater.
    match goal with
    | |- context [perform_all py ops ?st] =>
        destruct (perform_all_markers_frame py ops st Hops)
          as (Hsnap & Hlast & Hprops & Hheap)
    end.
    split.
    + apply health_counts_cached.
      * rewrite Hsnap. reflexivity.
      * unfold snapshot_interval. rewrite Hlast, Hprops. exact Hlater.
    + unfold deref. rewrite Hheap. cbn [heap publish set_counter].
      rewrite nth_error_app2 by apply Nat.le_refl.
      rewrite Nat.sub_diag. reflexivity.
Qed.


End Throttle.

(** C2, as the spec has it, fails: the calls at 400 ms and at 600 ms are
    200 ms apart, less than the interval of 500 ms, and a snapshot exists
    before both; the call at 400 returns the snapshot taken at 0, and the
    call at 600, the interval having elapsed since 0, returns a new one
    with other counts. *)
Lemma health_counts_400_then_600 :
  snapshot_interval warm = 500
  /\ health_counts_snapshot warm = Some 0%nat
  /\ health_counts_value Py3 400 warm = Some (HealthCounts.__init__ 0 0 0)
  /\ fst (match health_counts Py3 600 warmer with
          | Returned r s' => (r, s')
          | Raised _ s' => (None, s')
          end) = Some 1%nat
  /\ health_counts_value Py3 600 warmer
     = Some (HealthCounts.__init__ 2 2 100)
  /\ health_counts_value Py3 600 warmer <> health_counts_value Py3 400 warm.
Proof. repeat split; vm_compute; try reflexivity. discriminate. Qed.

(** C2 as amended, at [warm] and at [fresh]: a call of [warm] at
    400 ms, less than the 500 ms of the interval after the refresh at 0,
    returns the snapshot taken at 0; a call of [warm] at 600 ms, the
    interval having elapsed, recomputes and publishes the one failure;
    and the first call of [fresh], where no snapshot exists,
    recomputes. *)
Lemma health_counts_throttle_witness :
  health_counts Py3 400 warm = Returned (Some 0%nat) warm
  /\ (exists s',
        health_counts Py3 600 warm = Returned (Some 1%nat) s'
        /\ heap s'
           = [HealthCounts.__init__ 0 0 0; HealthCounts.__init__ 1 1 100]
        /\ last_health_counts_snapshot s' = 600)
  /\ exists s',
       health_counts Py3 0 fresh = Returned (Some 0%nat) s'
       /\ heap s' = [HealthCounts.__init__ 0 0 0].
Proof.
  split; [ | split ].
  - apply (proj1 (health_counts_throttle Py3 400 warm) 0%nat);
      [ reflexivity | vm_compute; reflexivity ].
  - assert (Helapsed :
              snapshot_interval warm
              <= 600 - last_health_counts_snapshot warm
              \/ health_counts_snapshot warm = None)
      by (left; vm_compute; discriminate).
    destruct (proj2 (health_counts_throttle Py3 600 warm) Tally_sums_nonneg
                Helapsed)
      as (h & s' & Hrec & Hhc & Hheap & _ & Hlast & _).
    exists s'. split; [ exact Hhc | ]. split; [ | exact Hlast ].
    vm_compute in Hrec. injection Hrec as <-. reflexivity.
  - assert (Hnone :
              snapshot_interval fresh
              <= 0 - last_health_counts_snapshot fresh
              \/ health_counts_snapshot fresh = None)
      by (right; reflexivity).
    destruct (proj2 (health_counts_throttle Py3 0 fresh) Tally_sums_nonneg
                Hnone)
      as (h & s' & Hrec & Hhc & Hheap & _).
    exists s'. split; [ exact Hhc | ].
    vm_compute in Hrec. injection Hrec as <-. reflexivity.
Defined.


(** ** Concurrent callers of [health_counts] *)

Lemma replace_nth_length {A} (i : nat) (x : A) (l : list A) :
  List.length (replace_nth i x l) = List.length l.
Proof.
  revert i; induction l as [ | y l IH]; intros [ | i]; cbn; auto.
Qed.

Lemma nth_error_replace_nth_same {A} (i : nat) (x y : A) (l : list A) :
  nth_error l i = Some y -> nth_error (replace_nth i x l) i = Some x.
Proof.
  revert i; induction l as [ | z l IH]; intros [ | i]; cbn;
    try discriminate; auto.
Qed.

Lemma nth_error_replace_nth_other {A} (i j : nat) (x : A) (l : list A) :
  i <> j -> nth_error (replace_nth i x l) j = nth_error l j.
Proof.
  revert i j; induction l as [ | z l IH]; intros [ | i] [ | j] Hne; cbn;
    try reflexivity; try contradiction.
  apply IH. congruence.
Qed.


Section Callers.

Context {Counter : Type} `{RollingNumber Counter}.

Implicit Types (s : CommandMetrics.t Counter) (c : caller).

Lemma step_now py c s : th_now (fst (step py c s)) = th_now c.
Proof.
  unfold step.
  destruct (th_at c); cbn; try reflexivity.
  - destruct (refresh_due _ _ _); reflexivity.
  - unfold compare_and_set. destruct (_ =? _); reflexivity.
  - destruct (recompute py s); reflexivity.
Qed.




Lemma schedule1_same py i callers s c :
  nth_error callers i = Some c ->
  schedule1 py i (callers, s)
  = (replace_nth i (fst (step py c s)) callers, snd (step py c s)).
Proof.
  intro Hi. unfold schedule1. rewrite Hi.
  destruct (step py c s); reflexivity.
Qed.

Lemma run_cons py i schedule cfg :
  run py (i :: schedule) cfg = run py schedule (schedule1 py i cfg).
Proof. reflexivity. Qed.



Section Claim.

Variables (py : PyVersion) (s0 : CommandMetrics.t Counter) (a0 : ref)
  (nows : list Z).

Hypothesis Hsnapshot : health_counts_snapshot s0 = Some a0.
Hypothesis Hinterval : 0 < snapshot_interval s0.
Hypothesis Hdue :
  forall n, In n nows ->
            snapshot_interval s0 <= n - last_health_counts_snapshot s0.
Hypothesis Hclose :
  forall n n', In n nows -> In n' nows -> n - n' < snapshot_interval s0.














End Claim.


End Callers.



(** ** No configuration error *)

Lemma percentage_no_config_error py error_count total_count :
  percentage py error_count total_count <> inl ConfigError.
Proof.
  destruct py; unfold percentage.
  - destruct (total_count =? 0); discriminate.
  - destruct (int_truediv error_count total_count) as [e | q] eqn:Hdiv.
    + intro Heq. injection Heq as ->. unfold int_truediv in Hdiv.
      destruct error_count, total_count; try discriminate Hdiv;
        match type of Hdiv with
        | context [SFdiv ?p ?m ?x ?y] => destruct (SFdiv p m x y)
        end; discriminate Hdiv.
    + unfold int_of_float. destruct (float_mul_int q 100); discriminate.
Qed.

Lemma invoke_no_config_error {Counter : Type} `{RollingNumber Counter}
    py op (s s' : CommandMetrics.t Counter) :
  invoke py op s <> Raised ConfigError s'.
Proof.
  destruct op as [k d | now]; unfold invoke.
  - unfold bind. rewrite mark_unfold.
    unfold bind, notify, counter_increment, ret.
    destruct (mark_event _ _ _ _); discriminate.
  - destruct (refresh_due (last_health_counts_snapshot s) now s) eqn:Hdue.
    + rewrite (health_counts_due py now s Hdue), recompute_unfold.
      destruct (read_sums _) as [[[[[[a b] c] d] e] f] c']. cbv zeta.
      destruct (0 <? _).
      * pose proof (percentage_no_config_error py (b + c + d + f + e)
                      (b + a + c + d + f + e)) as Hp.
        destruct (percentage py _ _) as [ex | p]; [ | discriminate ].
        intro Heq. injection Heq as -> _. apply Hp. reflexivity.
      * discriminate.
    + unfold health_counts, bind, ret. rewrite Hdue. discriminate.
Qed.

(** C5, as amended: constructing command properties never raises; every
    override, an out-of-range error-threshold percentage or a
    non-positive window duration or bucket count included, is accepted
    and is the value the property resolves to; and no operation of the
    metrics raises a configuration error at call time. *)
Theorem no_configuration_error (command_key : Key) (setter : Setter.t)
    (property_prefix : Key) :
  (exists self,
     construct command_key setter property_prefix = inr self
     /\ forall p v,
          setter_override_value p setter = Some v -> resolved p self = v)
  /\ forall (Counter : Type) (R : RollingNumber Counter) py op
            (s s' : CommandMetrics.t Counter),
       invoke py op s <> Raised ConfigError s'.
Proof.
  split.
  - eexists. split; [ reflexivity | ].
    intros p v Hv. rewrite property_resolved, Hv. reflexivity.
  - intros Counter R py op s s'. apply invoke_no_config_error.
Qed.

(** C5 as amended, at the setter with a threshold of 150 percent. *)
Lemma no_configuration_error_witness :
  exists self,
    construct None odd_setter None = inr self
    /\ circuit_breaker_error_threshold_percentage self = PyInt 150.
Proof.
  destruct (proj1 (no_configuration_error None odd_setter None))
    as (self & Hself & Hres).
  exists self. split; [ exact Hself | ].
  apply (Hres P_circuit_breaker_error_threshold_percentage). reflexivity.
Defined.

(** The totals at [busy]: 100 requests, 29 errors. *)
Lemma published_health_counts_totals_witness :
  exists h,
    health_counts_value Py3 1000 busy = Some h
    /\ HealthCounts.total_requests h = 100
    /\ HealthCounts.error_count h = 29.
Proof.
  destruct (published_health_counts_totals Py3 1000 busy Tally_sums_nonneg
              eq_refl)
    as (a & b & c & d & e & f & c' & h & Hread & Hv & Ht & He).
  exists h. split; [ exact Hv | ].
  vm_compute in Hread. injection Hread as <- <- <- <- <- <- _.
  rewrite He, Ht. split; reflexivity.
Defined.

(** * Further properties of the code *)

Import Fluent CommandMetricsMetaclass History Scenarios.

(** ** Fluent chains *)

Lemma with_override_other (p q : Property) (setter : Setter.t)
    (v : option PyValue) :
  p <> q ->
  setter_override_value q (with_override p setter v)
  = setter_override_value q setter.
Proof.
  intro Hne.
  destruct setter, p, q;
    first [ reflexivity | exfalso; apply Hne; reflexivity ].
Qed.

Lemma chain_override (q : Property)
    (calls : list (Property * option PyValue)) (setter : Setter.t) :
  setter_override_value q (chain calls setter)
  = match last_call q calls with
    | Some v => v
    | None => setter_override_value q setter
    end.
Proof.
  unfold chain, last_call.
  induction calls as [ | [p v] calls IH] using rev_ind.
  - reflexivity.
  - rewrite !fold_left_app. cbn [fold_left fst snd].
    destruct (Property_eq_dec p q) as [-> | Hne].
    + apply with_override_sets.
    + rewrite with_override_other by assumption. exact IH.
Qed.

(** In a fluent chain of [with_...] calls the last call made for a
    property decides: the property resolves to its argument, or to the
    default if that argument is [None]; a property the chain has no call
    for resolves as it does from the setter the chain started on.  The
    command key and the prefix play no part. *)
Theorem fluent_chain_last_call_wins (q : Property)
    (calls : list (Property * option PyValue)) (setter : Setter.t)
    (command_key property_prefix : Key) :
  resolved q
    (CommandProperties.__init__ command_key (chain calls setter)
       property_prefix)
  = match last_call q calls with
    | Some (Some v) => v
    | Some None => default_value q
    | None =>
        resolved q (CommandProperties.__init__ None setter None)
    end.
Proof.
  rewrite !property_resolved, chain_override. unfold _property.
  destruct (last_call q calls) as [[v | ] | ]; reflexivity.
Qed.

(** ** The metaclass *)

Lemma dict_get_set_same {V : Type} (k : string) (v : V) (d : dict V) :
  dict_get k (dict_set k v d) = Some v.
Proof.
  unfold dict_get, dict_set. cbn [find fst]. now rewrite String.eqb_refl.
Qed.

Lemma dict_get_set_other {V : Type} (k k' : string) (v : V) (d : dict V) :
  k <> k' -> dict_get k' (dict_set k v d) = dict_get k' d.
Proof.
  intro Hne. unfold dict_get, dict_set. cbn [find fst].
  replace (String.eqb k' k) with false
    by (symmetry; apply String.eqb_neq; congruence).
  induction d as [ | [k0 v0] d IH]; [ reflexivity | ].
  cbn [filter find fst].
  destruct (String.eqb k k0) eqn:Hk0; cbn [negb find fst].
  - apply String.eqb_eq in Hk0. subst k0.
    replace (String.eqb k' k) with false
      by (symmetry; apply String.eqb_neq; congruence).
    exact IH.
  - destruct (String.eqb k' k0); [ reflexivity | exact IH ].
Qed.

Lemma command_metrics_key_for_nonempty name attrs :
  command_metrics_key_for name attrs <> ""%string.
Proof.
  assert (Hdefault : (name ++ "CommandMetrics")%string <> ""%string)
    by (destruct name; discriminate).
  unfold command_metrics_key_for.
  destruct (dict_get "command_metrics_key" attrs) as [[k | ] | ];
    try exact Hdefault.
  destruct (String.eqb k "") eqn:Hk; [ exact Hdefault | ].
  apply String.eqb_neq. exact Hk.
Qed.

(** What [__new__] does for a name that is not blacklisted. *)
Lemma new_registered name bases attrs m :
  blacklisted name = false ->
  match dict_get (command_metrics_key_for name attrs) (__instances__ m) with
  | Some c => __new__ name bases attrs m = (Some c, m)
  | None =>
      __new__ name bases attrs m
      = (Some (setattr
                 {| cls_id := next_id m;
                    cls_name := command_metrics_key_for name attrs;
                    cls_bases := bases;
                    cls_attrs := attrs |}
                 "command_metrics_key"
                 (Some (command_metrics_key_for name attrs))),
         {| __instances__ :=
              dict_set (command_metrics_key_for name attrs)
                (setattr
                   {| cls_id := next_id m;
                      cls_name := command_metrics_key_for name attrs;
                      cls_bases := bases;
                      cls_attrs := attrs |}
                   "command_metrics_key"
                   (Some (command_metrics_key_for name attrs)))
                (__instances__ m);
            next_id := S (next_id m) |})
  end.
Proof.
  intro Hb. unfold __new__. rewrite Hb.
  destruct (dict_get (command_metrics_key_for name attrs) (__instances__ m))
    as [c | ] eqn:Hget.
  - rewrite Hget. reflexivity.
  - cbn [type_new __instances__ next_id].
    rewrite dict_get_set_same. reflexivity.
Qed.




Lemma registered_ok_define m d : registered_ok m -> registered_ok (define m d).
Proof.
  intros [Hok Hids]. unfold define.
  destruct (blacklisted (stmt_name d)) eqn:Hb.
  - unfold __new__. rewrite Hb. cbn [type_new snd].
    split; [ | exact Hids ].
    intros k c Hk. cbn [__instances__ next_id] in *.
    destruct (Hok k c Hk) as (H1 & H2 & H3 & H4).
    repeat split; try assumption. lia.
  - pose proof (new_registered (stmt_name d) (stmt_bases d) (stmt_attrs d)
                  m Hb) as Hnew.
    destruct (dict_get (command_metrics_key_for (stmt_name d) (stmt_attrs d))
                (__instances__ m)) as [c' | ] eqn:Hget;
      rewrite Hnew; cbn [snd]; [ split; assumption | ].
    set (key := command_metrics_key_for (stmt_name d) (stmt_attrs d)) in *.
    split.
    + intros k c. cbn [__instances__ next_id].
      destruct (String.eqb_spec key k) as [Heq | Hne].
      * subst k. rewrite dict_get_set_same. intro Hc. injection Hc as <-.
        split; [ reflexivity | ]. split.
        { unfold class_command_metrics_key, setattr. cbn [cls_attrs].
          now rewrite dict_get_set_same. }
        split; [ apply command_metrics_key_for_nonempty | cbn; lia ].
      * rewrite dict_get_set_other by assumption. intro Hk.
        destruct (Hok k c Hk) as (H1 & H2 & H3 & H4).
        repeat split; try assumption. lia.
    + intros k k' c c'. cbn [__instances__].
      destruct (String.eqb_spec key k) as [Heq | Hne];
        destruct (String.eqb_spec key k') as [Heq' | Hne'];
        try congruence.
      * subst k. rewrite dict_get_set_same.
        rewrite dict_get_set_other by assumption.
        intros Hc Hc' Hid. injection Hc as <-. cbn in Hid.
        destruct (Hok k' c' Hc') as (_ & _ & _ & Hlt). lia.
      * subst k'. rewrite dict_get_set_same.
        rewrite dict_get_set_other by assumption.
        intros Hc Hc' Hid. injection Hc' as <-. cbn in Hid.
        destruct (Hok k c Hc) as (_ & _ & _ & Hlt). lia.
      * rewrite !dict_get_set_other by assumption. apply Hids.
Qed.

Lemma registered_ok_define_all ds m :
  registered_ok m -> registered_ok (define_all ds m).
Proof.
  revert m; induction ds as [ | d ds IH]; intros m Hok; [ exact Hok | ].
  apply (IH (define m d)). apply registered_ok_define. exact Hok.
Qed.

Lemma registered_ok_empty : registered_ok empty.
Proof. split; [ intros k c Hk | intros k k' c c' Hk ]; discriminate Hk. Qed.

(** Every class the registry holds, from the empty registry on and after
    any run of class statements, is named after its key and has its key
    as its [command_metrics_key] attribute; the key is not empty; and two
    keys never share a class object. *)
Theorem metaclass_registry_entries ds k c :
  dict_get k (__instances__ (define_all ds empty)) = Some c ->
  cls_name c = k
  /\ class_command_metrics_key c = Some k
  /\ k <> ""%string
  /\ forall k' c',
       dict_get k' (__instances__ (define_all ds empty)) = Some c' ->
       cls_id c' = cls_id c -> k' = k.
Proof.
  intro Hk.
  destruct (registered_ok_define_all ds empty registered_ok_empty)
    as [Hok Hids].
  destruct (Hok k c Hk) as (Hname & Hattr & Hne & _).
  split; [ exact Hname | ]. split; [ exact Hattr | ].
  split; [ exact Hne | ].
  intros k' c' Hk' Hid. apply (Hids k' k c' c Hk' Hk Hid).
Qed.

Section Instances.

Context {Counter : Type} `{RollingNumber Counter}.

(** The key the hook is told: an instance of a class that the metaclass
    made for a name that is not blacklisted reports every marker under
    the key of its class, whatever [command_metrics_key] its constructor
    was given. *)
Theorem instance_notifies_class_key ds name bases attrs c
    (command_metrics_key group_key pool_key : Key)
    (properties : CommandProperties.t) (event_notifier : EventNotifier)
    (now : Z) k (duration : Z) :
  blacklisted name = false ->
  fst (__new__ name bases attrs (define_all ds empty)) = Some c ->
  notified
    (final
       (mark k duration
          (instantiate (Counter := Counter) c command_metrics_key group_key
             pool_key properties event_notifier now)))
  = [(event_type k, Some (command_metrics_key_for name attrs))].
Proof.
  intros Hb Hc.
  assert (Hattr : class_command_metrics_key c
                  = Some (command_metrics_key_for name attrs)).
  { pose proof (registered_ok_define_all ds empty registered_ok_empty)
      as [Hok _].
    pose proof (new_registered name bases attrs (define_all ds empty) Hb)
      as Hnew.
    destruct (dict_get (command_metrics_key_for name attrs)
                (__instances__ (define_all ds empty))) as [c0 | ] eqn:Hget;
      rewrite Hnew in Hc; cbn [fst] in Hc; injection Hc as <-.
    - apply (Hok _ _ Hget).
    - unfold class_command_metrics_key, setattr. cbn [cls_attrs].
      now rewrite dict_get_set_same. }
  rewrite mark_unfold. unfold bind, notify, instantiate.
  cbn [CommandMetrics.__init__ CommandMetrics.event_notifier
       CommandMetrics.notified CommandMetrics.command_metrics_key].
  rewrite Hattr.
  destruct (mark_event _ _ _ _); reflexivity.
Qed.

End Instances.

(** ** Runs of operations *)
Section Runs.

Context {Counter : Type} `{RollingNumber Counter}.

Implicit Types (s : CommandMetrics.t Counter) (py : PyVersion).

(** What a call of [health_counts] does to the state, whether it returns
    or raises. *)
Lemma health_counts_effect py now s :
  properties (final (health_counts py now s)) = properties s
  /\ notified (final (health_counts py now s)) = notified s
  /\ command_metrics_key (final (health_counts py now s))
     = command_metrics_key s
  /\ if refresh_due (last_health_counts_snapshot s) now s
     then
       last_health_counts_snapshot (final (health_counts py now s)) = now
       /\ ((heap (final (health_counts py now s)) = heap s
            /\ health_counts_snapshot (final (health_counts py now s))
               = health_counts_snapshot s)
           \/ exists h,
                heap (final (health_counts py now s)) = heap s ++ [h]
                /\ health_counts_snapshot (final (health_counts py now s))
                   = Some (List.length (heap s)))
     else final (health_counts py now s) = s.
Proof.
  destruct (refresh_due (last_health_counts_snapshot s) now s) eqn:Hdue.
  - rewrite (health_counts_due py now s Hdue), recompute_unfold.
    destruct (read_sums _) as [[[[[[a b] c] d] e] f] c']. cbv zeta.
    destruct (if 0 <? _ then _ else _) as [ex | p]; cbn [final].
    + repeat split. left. split; reflexivity.
    + repeat split. right. eexists. split; reflexivity.
  - unfold health_counts, bind, ret. rewrite Hdue. cbn [final].
    repeat split.
Qed.

Lemma mark_effect py k d s :
  properties (perform py (Mark k d) s) = properties s
  /\ notified (perform py (Mark k d) s)
     = notified s ++ [(event_type k, command_metrics_key s)]
  /\ command_metrics_key (perform py (Mark k d) s) = command_metrics_key s
  /\ health_counts_snapshot (perform py (Mark k d) s)
     = health_counts_snapshot s
  /\ last_health_counts_snapshot (perform py (Mark k d) s)
     = last_health_counts_snapshot s
  /\ heap (perform py (Mark k d) s) = heap s.
Proof.
  unfold perform, invoke, bind. rewrite mark_unfold.
  unfold bind, notify, counter_increment, ret.
  destruct (mark_event _ _ _ _); repeat split.
Qed.

Lemma published_health_counts_bounds_all py now s :
  sums_nonneg ->
  refresh_due (last_health_counts_snapshot s) now s = true ->
  exists h,
    heap (final (health_counts py now s)) = heap s ++ [h]
    /\ within_bounds h.
Proof.
  intros Hnn Hdue.
  destruct (health_counts_refreshes py now s Hnn Hdue)
    as (a & b & c & d & e & f & c' & p & _ & -> & Ha & Herr & Hp).
  eexists. split; [ reflexivity | ].
  unfold within_bounds.
  cbn [HealthCounts.error_count HealthCounts.total_requests
       HealthCounts.error_percentage HealthCounts.__init__
       HealthCounts._error_count HealthCounts._total_count
       HealthCounts._error_percentage].
  lia.
Qed.

(** The hook is called once for each marker, in the order of the calls,
    with the marker's event kind and the key of the instance, whether the
    call returns or raises; [health_counts] never calls it. *)
Theorem hook_called_once_per_marker py ops s :
  notified (perform_all py ops s)
  = notified s ++ notifications_of (command_metrics_key s) ops.
Proof.
  revert s; induction ops as [ | op ops IH]; intro s.
  - cbn. now rewrite app_nil_r.
  - rewrite perform_all_cons, IH.
    destruct op as [k d | now].
    + destruct (mark_effect py k d s) as (_ & -> & -> & _).
      cbn [notifications_of flat_map]. now rewrite <- app_assoc.
    + unfold perform, invoke.
      destruct (health_counts_effect py now s) as (_ & -> & -> & _).
      reflexivity.
Qed.

Lemma perform_all_newest py ops s :
  snapshot_is_newest s -> snapshot_is_newest (perform_all py ops s).
Proof.
  revert s; induction ops as [ | op ops IH]; intros s Hs; [ exact Hs | ].
  rewrite perform_all_cons. apply IH. unfold snapshot_is_newest in *.
  destruct op as [k d | now].
  - destruct (mark_effect py k d s) as (_ & _ & _ & -> & _ & ->).
    exact Hs.
  - unfold perform, invoke.
    destruct (health_counts_effect py now s) as (_ & _ & _ & Heff).
    destruct (refresh_due _ _ _).
    + destruct Heff as [_ [[-> ->] | (h & -> & ->)]]; [ exact Hs | ].
      rewrite length_app, Nat.add_comm. cbn [List.length Nat.add Nat.pred].
      destruct (heap s); reflexivity.
    + rewrite Heff. exact Hs.
Qed.

Lemma perform_all_within_bounds py ops s :
  sums_nonneg ->
  Forall within_bounds (heap s) ->
  Forall within_bounds (heap (perform_all py ops s)).
Proof.
  intro Hnn. revert s; induction ops as [ | op ops IH]; intros s Hs;
    [ exact Hs | ].
  rewrite perform_all_cons. apply IH.
  destruct op as [k d | now].
  - destruct (mark_effect py k d s) as (_ & _ & _ & _ & _ & ->).
    exact Hs.
  - unfold perform, invoke.
    destruct (refresh_due (last_health_counts_snapshot s) now s) eqn:Hdue.
    + destruct (published_health_counts_bounds_all py now s Hnn Hdue)
        as (h & -> & Hh).
      apply Forall_app. split; [ exact Hs | ].
      constructor; [ exact Hh | constructor ].
    + pose proof (health_counts_effect py now s) as (_ & _ & _ & Heff).
      rewrite Hdue in Heff. rewrite Heff. exact Hs.
Qed.

(** From construction on, whatever operations run: the snapshot is
    [None] while nothing has been published and the newest object of the
    store after that; and, rolling sums being non-negative, every
    snapshot ever published is within its bounds. *)
Theorem reachable_snapshots py ops
    (class_key command_metrics_key group_key pool_key : Key)
    (properties : CommandProperties.t) (event_notifier : EventNotifier)
    (now : Z) :
  snapshot_is_newest
    (perform_all py ops
       (CommandMetrics.__init__ (Counter := Counter) class_key
          command_metrics_key group_key pool_key properties event_notifier
          now))
  /\ (sums_nonneg ->
      Forall within_bounds
        (heap
           (perform_all py ops
              (CommandMetrics.__init__ (Counter := Counter) class_key
                 command_metrics_key group_key pool_key properties
                 event_notifier now)))).
Proof.
  split.
  - apply perform_all_newest. reflexivity.
  - intro Hnn. apply perform_all_within_bounds; [ exact Hnn | constructor ].
Qed.

(** Called in sequence, [health_counts] never returns [None] and never
    a stale reference: from construction on, after whatever operations,
    and at whatever time, the call returns the newest object of the
    store, within its bounds (rolling sums being non-negative). *)
Theorem health_counts_returns_newest py ops
    (class_key command_metrics_key group_key pool_key : Key)
    (properties : CommandProperties.t) (event_notifier : EventNotifier)
    (now later : Z) :
  sums_nonneg ->
  exists r h s',
    health_counts py later
      (perform_all py ops
         (CommandMetrics.__init__ (Counter := Counter) class_key
            command_metrics_key group_key pool_key properties event_notifier
            now))
    = Returned (Some r) s'
    /\ deref s' r = Some h
    /\ S r = List.length (heap s')
    /\ within_bounds h.
Proof.
  intro Hnn.
  set (s := perform_all py ops _).
  assert (Hnewest : snapshot_is_newest s)
    by (apply perform_all_newest; reflexivity).
  assert (Hbounds : Forall within_bounds (heap s))
    by (apply perform_all_within_bounds; [ exact Hnn | constructor ]).
  clearbody s.
  destruct (refresh_due (last_health_counts_snapshot s) later s) eqn:Hdue.
  - destruct (health_counts_refreshes py later s Hnn Hdue)
      as (a & b & c & d & e & f & c' & p & _ & Hhc & Ha & Herr & Hp).
    eexists _, _, _. split; [ exact Hhc | ].
    split; [ exact (deref_publish
                      (set_counter c'
                         (set_last_health_counts_snapshot later s)) _) | ].
    split.
    + cbn [heap publish set_counter set_last_health_counts_snapshot].
      rewrite length_app, Nat.add_comm. reflexivity.
    + unfold within_bounds.
      cbn [HealthCounts.error_count HealthCounts.total_requests
           HealthCounts.error_percentage HealthCounts.__init__
           HealthCounts._error_count HealthCounts._total_count
           HealthCounts._error_percentage].
      lia.
  - assert (Hhc : health_counts py later s
                  = Returned (health_counts_snapshot s) s).
    { unfold health_counts, bind, ret. rewrite Hdue. reflexivity. }
    unfold refresh_due in Hdue. apply orb_false_iff in Hdue as [_ Hsome].
    unfold snapshot_is_newest in Hnewest.
    destruct (heap s) as [ | h0 l] eqn:Hheap;
      rewrite Hnewest in Hsome; [ discriminate | ].
    destruct (nth_error (heap s) (Nat.pred (List.length (heap s))))
      as [h | ] eqn:Hnth.
    + exists (Nat.pred (List.length (heap s))), h, s.
      rewrite Hhc, Hnewest, Hheap. split; [ reflexivity | ].
      split; [ unfold deref; rewrite <- Hheap; exact Hnth | ].
      split; [ reflexivity | ].
      rewrite Forall_forall in Hbounds. apply Hbounds.
      rewrite <- Hheap. apply (nth_error_In _ _ Hnth).
    + apply nth_error_None in Hnth. rewrite Hheap in Hnth. cbn in Hnth. lia.
Qed.

(** Throttling bounds the work: once a snapshot exists and the interval
    is positive, whatever operations run, if no [health_counts] among
    them reads a clock past [B], then the snapshots published, times the
    interval, fit in the time from the last refresh to [B]. *)
Theorem recomputations_bounded py ops s a B :
  health_counts_snapshot s = Some a ->
  0 < snapshot_interval s ->
  calls_until B ops = true ->
  Z.of_nat (List.length (heap (perform_all py ops s))
            - List.length (heap s))
  * snapshot_interval s
  <= Z.max 0 (B - last_health_counts_snapshot s).
Proof.
  intros Hsnap Hint Hcalls.
  assert (Hinv : forall ops s',
    calls_until B ops = true ->
    (exists a', health_counts_snapshot s' = Some a') ->
    properties s' = properties s ->
    (List.length (heap s) <= List.length (heap s'))%nat ->
    Z.of_nat (List.length (heap s') - List.length (heap s))
    * snapshot_interval s
    <= last_health_counts_snapshot s' - last_health_counts_snapshot s ->
    last_health_counts_snapshot s'
    <= Z.max (last_health_counts_snapshot s) B ->
    Z.of_nat (List.length (heap (perform_all py ops s'))
              - List.length (heap s))
    * snapshot_interval s
    <= Z.max 0 (B - last_health_counts_snapshot s)).
  { clear Hcalls ops. intros ops; induction ops as [ | op ops IH];
      intros s' Hcalls Hsome Hprops Hlen Hcount Hlast.
    - cbn. lia.
    - rewrite perform_all_cons. cbn [calls_until forallb] in Hcalls.
      apply andb_prop in Hcalls as [Hop Hcalls].
      destruct op as [k d | now].
      + destruct (mark_effect py k d s') as (Hp & _ & _ & Hs & Hl & Hh).
        apply IH; try assumption; rewrite ?Hs, ?Hp, ?Hl, ?Hh; assumption.
      + apply Z.leb_le in Hop. unfold perform, invoke.
        destruct (health_counts_effect py now s') as (Hp & _ & _ & Heff).
        destruct (refresh_due (last_health_counts_snapshot s') now s')
          eqn:Hdue.
        * destruct Hsome as [a' Ha'].
          unfold refresh_due, snapshot_interval in Hdue.
          rewrite Ha', Hprops, orb_false_r in Hdue. apply Z.leb_le in Hdue.
          fold (snapshot_interval s) in Hdue.
          destruct Heff as [Hl [[Hh Hs] | (h & Hh & Hs)]].
          -- apply IH; try assumption.
             ++ exists a'. congruence.
             ++ congruence.
             ++ rewrite Hh. assumption.
             ++ rewrite Hh, Hl. lia.
             ++ rewrite Hl. lia.
          -- apply IH; try assumption.
             ++ eexists. exact Hs.
             ++ congruence.
             ++ rewrite Hh, length_app. lia.
             ++ rewrite Hh, Hl, length_app. cbn [List.length].
                replace (List.length (heap s') + 1 - List.length (heap s))%nat
                  with (S (List.length (heap s') - List.length (heap s)))
                  by lia.
                rewrite Nat2Z.inj_succ. lia.
             ++ rewrite Hl. lia.
        * rewrite Heff. apply IH; assumption. }
  apply Hinv; try assumption.
  - exists a. exact Hsnap.
  - reflexivity.
  - apply Nat.le_refl.
  - rewrite Nat.sub_diag. cbn. lia.
  - lia.
Qed.

End Runs.

(** ** The percentage at its ends, and the exceptions *)

Lemma binary_round_aux_not_nan sx m e l :
  0 <= m -> binary_round_aux prec emax sx m e l <> S754_nan.
Proof.
  intro Hm. unfold binary_round_aux, shr_fexp.
  destruct (shr_spec m l e (fexp prec emax (Zdigits2 m + e) - e) Hm)
    as (mrs1 & -> & Hm1 & _).
  assert (Hm1pos : 0 <= shr_m mrs1).
  { rewrite Hm1. apply Z.div_pos; [ lia | ].
    apply Z.pow_pos_nonneg; lia. }
  pose proof (round_nearest_even_bounds (shr_m mrs1)
                (loc_of_shr_record mrs1)) as Hr.
  set (m2 := round_nearest_even (shr_m mrs1) (loc_of_shr_record mrs1)) in *.
  assert (Hm2 : 0 <= m2) by lia.
  match goal with
  | |- context [shr (shr_record_of_loc m2 loc_Exact) ?e1 ?k] =>
      destruct (shr_spec m2 loc_Exact e1 k Hm2) as (mrs2 & -> & Hm3 & _)
  end.
  assert (Hm3pos : 0 <= shr_m mrs2).
  { rewrite Hm3. apply Z.div_pos; [ lia | ].
    apply Z.pow_pos_nonneg; lia. }
  destruct (shr_m mrs2) as [ | p | p ]; try discriminate; [ | lia ].
  destruct (_ <=? _); discriminate.
Qed.

Lemma SFdiv_core_binary_nonneg a b e1 e2 :
  0 < a -> 0 < b ->
  0 <= fst (fst (SFdiv_core_binary prec emax a e1 b e2)).
Proof.
  intros Ha Hb. unfold SFdiv_core_binary.
  set (e' := Z.min _ _). set (s := e1 - e2 - e').
  set (m' := match s with
             | Z.pos _ => Z.shiftl a s
             | 0 => a
             | Z.neg _ => 0
             end).
  assert (Hm' : 0 <= m').
  { unfold m'. destruct s; try lia. apply Z.shiftl_nonneg. lia. }
  pose proof (Z.div_eucl_eq m' b ltac:(lia)) as Heucl.
  pose proof (Z.mod_pos_bound m' b ltac:(lia)) as Hmod.
  unfold Z.modulo in Hmod.
  destruct (Z.div_eucl m' b) as [q r]. cbn [fst]. clearbody m'. nia.
Qed.

Lemma SFdiv_finite_not_nan sx mx ex sy my ey :
  SFdiv prec emax (S754_finite sx mx ex) (S754_finite sy my ey) <> S754_nan.
Proof.
  cbn [SFdiv].
  pose proof (SFdiv_core_binary_nonneg (Z.pos mx) (Z.pos my) ex ey
                ltac:(lia) ltac:(lia)) as Hq.
  destruct (SFdiv_core_binary prec emax (Z.pos mx) ex (Z.pos my) ey)
    as [[q e] l].
  apply binary_round_aux_not_nan. exact Hq.
Qed.

(** A quotient of two integers is a zero or a finite float. *)
Lemma int_truediv_finite a b q :
  int_truediv a b = inr q ->
  (exists s, q = S754_zero s) \/ exists s m e, q = S754_finite s m e.
Proof.
  unfold int_truediv.
  destruct a as [ | pa | pa ], b as [ | pb | pb ]; try discriminate;
    try (intro Hq; injection Hq as <-; left; eexists; reflexivity);
    match goal with
    | |- context [SFdiv ?p ?m (S754_finite ?sx ?mx ?ex)
                    (S754_finite ?sy ?my ?ey)] =>
        pose proof (SFdiv_finite_not_nan sx mx ex sy my ey) as Hnan;
        destruct (SFdiv p m (S754_finite sx mx ex) (S754_finite sy my ey))
          as [s | s | | s m' e']
    end;
    intro Hq; try discriminate Hq; try contradiction;
    injection Hq as <-;
    solve [ left; exists s; reflexivity
          | right; exists s, m', e'; reflexivity ].
Qed.

(** With a divisor that is not zero the percentage raises nothing but
    [OverflowError], and that on Python 3 alone. *)
Lemma percentage_raises py error_count total_count ex :
  total_count <> 0 ->
  percentage py error_count total_count = inl ex ->
  py = Py3 /\ ex = OverflowError.
Proof.
  intros Ht. destruct py; unfold percentage.
  - replace (total_count =? 0) with false
      by (symmetry; apply Z.eqb_neq; exact Ht).
    discriminate.
  - destruct (int_truediv error_count total_count) as [e | q] eqn:Hdiv.
    + intro Hex. injection Hex as ->. split; [ reflexivity | ].
      unfold int_truediv in Hdiv.
      destruct error_count, total_count; try contradiction;
        try discriminate Hdiv;
        match type of Hdiv with
        | context [SFdiv ?p ?m ?x ?y] => destruct (SFdiv p m x y)
        end; congruence.
    + unfold float_mul_int. rewrite float_of_int_100.
      destruct (int_truediv_finite _ _ _ Hdiv)
        as [[s ->] | (s & m & e & ->)].
      * discriminate.
      * cbn [SFmul].
        pose proof (binary_round_aux_not_nan (xorb s false)
                      (Z.pos (m * 7036874417766400)) (e + -46) loc_Exact
                      ltac:(lia)) as Hnan.
        destruct (binary_round_aux _ _ _ _ _ _) as [s' | s' | | s' m' e'];
          cbn [int_of_float]; try discriminate; try contradiction.
        intro Hex. injection Hex as <-. split; reflexivity.
Qed.

(** A quotient of an integer by itself is 1.0. *)
Lemma int_truediv_same a :
  0 < a -> int_truediv a a = inr (S754_finite false 4503599627370496 (-52)).
Proof.
  intro Ha. destruct a as [ | p | p ]; try lia.
  unfold int_truediv.
  change (Z.pos p <? 0) with false.
  change (Z.to_pos (Z.abs (Z.pos p))) with p.
  cbn [SFdiv]. unfold SFdiv_core_binary.
  replace (Zdigits2 (Z.pos p) + 0 - (Zdigits2 (Z.pos p) + 0)) with 0 by lia.
  change (Z.min (fexp prec emax 0) (0 - 0)) with (-53).
  change (0 - 0 - -53) with 53.
  cbv iota.
  replace (Z.div_eucl (Z.shiftl (Z.pos p) 53) (Z.pos p))
    with (Z.shiftl (Z.pos p) 53 / Z.pos p, Z.shiftl (Z.pos p) 53 mod Z.pos p)
    by (unfold Z.div, Z.modulo;
        destruct (Z.div_eucl (Z.shiftl (Z.pos p) 53) (Z.pos p));
        reflexivity).
  rewrite Z.shiftl_mul_pow2 by lia.
  rewrite (Z.mul_comm (Z.pos p)), Z.div_mul, Z.mod_mul by lia.
  change (2 ^ 53) with 9007199254740992.
  replace (new_location (Z.pos p) 0) with loc_Exact.
  - reflexivity.
  - unfold new_location, new_location_even, new_location_odd.
    destruct (Z.even (Z.pos p)); reflexivity.
Qed.

(** The ends of the scale: no error gives 0 and nothing but errors gives
    100, on Python 2 and on Python 3. *)
Lemma percentage_ends py total_count :
  0 < total_count ->
  percentage py 0 total_count = inr 0
  /\ percentage py total_count total_count = inr 100.
Proof.
  intro Ht. destruct py; unfold percentage.
  - replace (total_count =? 0) with false
      by (symmetry; apply Z.eqb_neq; lia).
    rewrite Z.div_0_l, Z.div_same by lia. split; reflexivity.
  - rewrite (int_truediv_same total_count Ht).
    split; [ | reflexivity ].
    destruct total_count; try lia. reflexivity.
Qed.

(** On Python 2 anything less than all is nothing. *)
Lemma percentage_py2_below error_count total_count :
  0 <= error_count < total_count ->
  percentage Py2 error_count total_count = inr 0.
Proof.
  intro He. unfold percentage.
  replace (total_count =? 0) with false
    by (symmetry; apply Z.eqb_neq; lia).
  rewrite Z.div_small by exact He. reflexivity.
Qed.

Section Extremes.

Context {Counter : Type} `{RollingNumber Counter}.

Implicit Types (s : CommandMetrics.t Counter) (py : PyVersion).

(** The division is guarded: whatever the rolling sums are, negative
    ones included, [health_counts] never raises [ZeroDivisionError] or
    [ValueError]; on Python 2 it never raises at all, and on Python 3
    the one exception it can raise is the [OverflowError] of a quotient
    too large for a float. *)
Theorem health_counts_raises_only_overflow py now s :
  match health_counts py now s with
  | Returned _ _ => True
  | Raised e _ => py = Py3 /\ e = OverflowError
  end.
Proof.
  destruct (refresh_due (last_health_counts_snapshot s) now s) eqn:Hdue.
  - rewrite (health_counts_due py now s Hdue), recompute_unfold.
    destruct (read_sums _) as [[[[[[a b] c] d] e] f] c']. cbv zeta.
    destruct (0 <? b + a + c + d + f + e) eqn:Hpos; [ | exact I ].
    apply Z.ltb_lt in Hpos.
    destruct (percentage py (b + c + d + f + e) (b + a + c + d + f + e))
      as [ex | p] eqn:Hp; [ | exact I ].
    apply (percentage_raises py (b + c + d + f + e)
             (b + a + c + d + f + e) ex); [ lia | exact Hp ].
  - unfold health_counts, bind, ret. rewrite Hdue. exact I.
Qed.

(** What a refreshing call publishes, in terms of [percentage]. *)
Lemma health_counts_value_due py now s :
  refresh_due (last_health_counts_snapshot s) now s = true ->
  let '(success, failure, timeout, thread_pool_rejected,
        semaphore_rejected, short_circuited, _) := read_sums (counter s) in
  let total_count :=
    failure + success + timeout + thread_pool_rejected
    + short_circuited + semaphore_rejected in
  let error_count :=
    failure + timeout + thread_pool_rejected + short_circuited
    + semaphore_rejected in
  forall p,
    (if 0 <? total_count
     then percentage py error_count total_count
     else inr 0) = inr p ->
    health_counts_value py now s
    = Some (HealthCounts.__init__ total_count error_count p).
Proof.
  intro Hdue. unfold health_counts_value.
  rewrite (health_counts_due py now s Hdue), recompute_unfold.
  destruct (read_sums _) as [[[[[[a b] c] d] e] f] c']. cbv zeta.
  intros p ->.
  exact (deref_publish
           (set_counter c' (set_last_health_counts_snapshot now s)) _).
Qed.

(** The ends of the scale, as published: a refreshing call over an empty
    window publishes (0, 0, 0) and divides nothing; with requests and no
    error it publishes 0 percent, and with nothing but errors exactly 100
    percent, on Python 2 and on Python 3. *)
Theorem health_counts_ends py now s :
  sums_nonneg ->
  refresh_due (last_health_counts_snapshot s) now s = true ->
  exists h,
    health_counts_value py now s = Some h
    /\ (HealthCounts.total_requests h = 0 ->
        h = HealthCounts.__init__ 0 0 0)
    /\ (HealthCounts.error_count h = 0 ->
        HealthCounts.error_percentage h = 0)
    /\ (0 < HealthCounts.total_requests h ->
        HealthCounts.error_count h = HealthCounts.total_requests h ->
        HealthCounts.error_percentage h = 100).
Proof.
  intros Hnn Hdue.
  pose proof (health_counts_value_due py now s Hdue) as Hvalue.
  pose proof (read_sums_nonneg (counter s) Hnn) as Hsums.
  destruct (read_sums (counter s)) as [[[[[[a b] c] d] e] f] c'].
  cbv zeta in Hvalue. destruct Hsums as (Ha & Hb & Hc & Hd & He & Hf).
  destruct (0 <? b + a + c + d + f + e) eqn:Hpos.
  - apply Z.ltb_lt in Hpos.
    destruct (percentage_bounds py (b + c + d + f + e)
                (b + a + c + d + f + e) ltac:(lia) Hpos) as (p & Hp & _).
    exists (HealthCounts.__init__ (b + a + c + d + f + e)
              (b + c + d + f + e) p).
    split; [ apply Hvalue; exact Hp | ].
    cbn [HealthCounts.error_count HealthCounts.total_requests
         HealthCounts.error_percentage HealthCounts.__init__
         HealthCounts._error_count HealthCounts._total_count
         HealthCounts._error_percentage].
    destruct (percentage_ends py (b + a + c + d + f + e) Hpos)
      as [Hzero Hall].
    split; [ lia | ]. split.
    + intro Herr. rewrite Herr, Hzero in Hp. congruence.
    + intros _ Herr. rewrite Herr, Hall in Hp. congruence.
  - apply Z.ltb_ge in Hpos.
    exists (HealthCounts.__init__ (b + a + c + d + f + e)
              (b + c + d + f + e) 0).
    split; [ apply Hvalue; reflexivity | ].
    cbn [HealthCounts.error_count HealthCounts.total_requests
         HealthCounts.error_percentage HealthCounts.__init__
         HealthCounts._error_count HealthCounts._total_count
         HealthCounts._error_percentage].
    split; [ | split; [ reflexivity | lia ] ].
    intros _. f_equal; lia.
Qed.

(** On Python 2 the published percentage is all or nothing: as soon as
    one request of the window has succeeded it is 0, however many have
    failed. *)
Theorem health_counts_py2_all_or_nothing now s :
  sums_nonneg ->
  refresh_due (last_health_counts_snapshot s) now s = true ->
  exists h,
    health_counts_value Py2 now s = Some h
    /\ (HealthCounts.error_count h < HealthCounts.total_requests h ->
        HealthCounts.error_percentage h = 0)
    /\ (HealthCounts.error_percentage h = 0
        \/ HealthCounts.error_percentage h = 100).
Proof.
  intros Hnn Hdue.
  pose proof (health_counts_value_due Py2 now s Hdue) as Hvalue.
  pose proof (read_sums_nonneg (counter s) Hnn) as Hsums.
  destruct (read_sums (counter s)) as [[[[[[a b] c] d] e] f] c'].
  cbv zeta in Hvalue. destruct Hsums as (Ha & Hb & Hc & Hd & He & Hf).
  destruct (0 <? b + a + c + d + f + e) eqn:Hpos.
  - apply Z.ltb_lt in Hpos.
    destruct (Z.eq_dec a 0) as [-> | Hne].
    + eexists. split.
      { apply Hvalue.
        replace (b + c + d + f + e) with (b + 0 + c + d + f + e) by lia.
        apply (percentage_ends Py2 _ Hpos). }
      cbn [HealthCounts.error_count HealthCounts.total_requests
           HealthCounts.error_percentage HealthCounts.__init__
           HealthCounts._error_count HealthCounts._total_count
           HealthCounts._error_percentage].
      split; [ lia | right; reflexivity ].
    + eexists. split.
      { apply Hvalue. apply percentage_py2_below. lia. }
      cbn [HealthCounts.error_percentage HealthCounts.__init__
           HealthCounts._error_percentage].
      split; [ reflexivity | left; reflexivity ].
  - eexists. split; [ apply Hvalue; reflexivity | ].
    cbn [HealthCounts.error_percentage HealthCounts.__init__
         HealthCounts._error_percentage].
    split; [ reflexivity | left; reflexivity ].
Qed.

End Extremes.

(** ** More on concurrent callers *)
Section FirstRefresh.

Context {Counter : Type} `{RollingNumber Counter}.

Implicit Types (s : CommandMetrics.t Counter) (py : PyVersion).

(** During the first refresh a concurrent caller can be handed [None]:
    while no snapshot exists, two callers pass the test of line 146;
    one wins the compare-and-set and moves the time of the last refresh,
    the other loses it and returns [self.health_counts_snapshot] before
    the winner has published anything. *)
Theorem first_refresh_loser_returns_none py s (n0 n1 : Z) :
  health_counts_snapshot s = None ->
  n0 <> last_health_counts_snapshot s ->
  nth_error
    (fst (run py [0; 1; 0; 1; 0; 1; 0; 1; 1]%nat ([enter n0; enter n1], s)))
    1
  = Some {| th_now := n1; th_at := Done None; th_won := false |}.
Proof.
  intros Hsnap Hne.
  assert (Hdue : forall l n s',
            health_counts_snapshot s' = None -> refresh_due l n s' = true).
  { intros l n s' Hs. unfold refresh_due. rewrite Hs. apply orb_true_r. }
  unfold run, enter. cbn [fold_left].
  unfold schedule1 at 9. cbn [nth_error step th_at at_position th_now
                              th_won replace_nth].
  unfold schedule1 at 8. cbn [nth_error step th_at at_position th_now
                              th_won replace_nth].
  unfold schedule1 at 7. cbn [nth_error step th_at at_position th_now
                              th_won replace_nth].
  unfold schedule1 at 6. cbn [nth_error step th_at at_position th_now
                              th_won replace_nth].
  unfold schedule1 at 5. cbn [nth_error step th_at at_position th_now
                              th_won replace_nth].
  rewrite (Hdue _ _ s Hsnap). cbn [at_position th_now th_won replace_nth].
  unfold schedule1 at 4. cbn [nth_error step th_at at_position th_now
                              th_won replace_nth].
  rewrite (Hdue _ _ s Hsnap). cbn [at_position th_now th_won replace_nth].
  unfold schedule1 at 3. cbn [nth_error step th_at at_position th_now
                              th_won replace_nth].
  unfold compare_and_set at 1. rewrite Z.eqb_refl.
  cbn [replace_nth].
  unfold at_position. cbn [th_now th_won th_at].
  unfold schedule1 at 2. cbn [nth_error step th_at th_now th_won replace_nth].
  unfold compare_and_set.
  cbn [last_health_counts_snapshot set_last_health_counts_snapshot].
  replace (n0 =? last_health_counts_snapshot s) with false
    by (symmetry; apply Z.eqb_neq; exact Hne).
  unfold at_position. cbn [th_now th_won th_at replace_nth].
  unfold schedule1. cbn [nth_error step th_at th_now th_won replace_nth fst].
  unfold at_position. cbn [th_now th_won th_at replace_nth fst nth_error].
  cbn [health_counts_snapshot set_last_health_counts_snapshot].
  rewrite Hsnap. reflexivity.
Qed.

End FirstRefresh.

Lemma filter_length_replace_nth {A} (f : A -> bool) (i : nat) (x y : A)
    (l : list A) :
  nth_error l i = Some y ->
  (List.length (filter f (replace_nth i x l)) + (if f y then 1 else 0)
   = List.length (filter f l) + (if f x then 1 else 0))%nat.
Proof.
  revert i; induction l as [ | z l IH]; intros [ | i] Hi;
    try discriminate.
  - cbn in Hi. injection Hi as ->. cbn.
    destruct (f x), (f y); cbn; lia.
  - cbn in Hi. specialize (IH i Hi). cbn.
    destruct (f z); cbn; lia.
Qed.

Section Publishers.

Context {Counter : Type} `{RollingNumber Counter}.

Implicit Types (s : CommandMetrics.t Counter) (c : caller).

(** A caller that has won is at the recomputation or past it. *)
Local Abbreviation claimed :=
  (fun c : caller => th_won c = true -> (remaining c <= 2)%nat).

Local Abbreviation recomputing :=
  (fun c : caller => Nat.eqb (remaining c) 2).

Lemma recompute_heap_length py s :
  (List.length (heap (final (recompute py s))) <= S (List.length (heap s)))%nat.
Proof.
  rewrite recompute_unfold.
  destruct (read_sums _) as [[[[[[a b] c0] d] e] f] c']. cbv zeta.
  destruct (if 0 <? _ then _ else _) as [ex | p];
    cbn [final heap publish set_counter].
  - lia.
  - rewrite length_app. cbn. lia.
Qed.

Lemma step_publishes py c s :
  claimed c ->
  claimed (fst (step py c s))
  /\ (List.length (heap (snd (step py c s)))
      + (if recomputing (fst (step py c s)) then 1 else 0)
      + (if th_won c then 1 else 0)
      <= List.length (heap s)
         + (if recomputing c then 1 else 0)
         + (if th_won (fst (step py c s)) then 1 else 0))%nat.
Proof.
  intro Hc. unfold step, remaining in *.
  destruct (th_at c) eqn:Hat; cbn [fst snd at_position th_at th_won].
  - split; [ intro Hw; specialize (Hc Hw); lia | ].
    cbn. destruct (th_won c); lia.
  - split; [ intro Hw; specialize (Hc Hw); lia | ].
    cbn. destruct (th_won c); lia.
  - destruct (refresh_due _ _ _); cbn [fst snd at_position th_at th_won].
    + split; [ intro Hw; specialize (Hc Hw); lia | ].
      cbn. destruct (th_won c); lia.
    + split; [ intro Hw; lia | ].
      cbn. destruct (th_won c); lia.
  - unfold compare_and_set.
    destruct (_ =? _); cbn [fst snd at_position th_at th_won].
    + split; [ intro Hw; lia | ].
      cbn [heap set_last_health_counts_snapshot Nat.eqb].
      destruct (th_won c) eqn:Hw; [ specialize (Hc eq_refl); lia | lia ].
    + split; [ intro Hw; lia | ].
      cbn. destruct (th_won c); lia.
  - pose proof (recompute_heap_length py s) as Hlen.
    destruct (recompute py s) as [u s' | e s'];
      cbn [final] in Hlen; cbn [fst snd at_position th_at th_won].
    + split; [ intro Hw; lia | ].
      cbn [Nat.eqb]. destruct (th_won c); lia.
    + split; [ intro Hw; lia | ].
      cbn [Nat.eqb]. destruct (th_won c); lia.
  - split; [ intro Hw; lia | ].
    cbn. destruct (th_won c); lia.
  - rewrite Hat. split; [ intro Hw; lia | ].
    cbn. destruct (th_won c); lia.
  - rewrite Hat. split; [ intro Hw; lia | ].
    cbn. destruct (th_won c); lia.
Qed.

Lemma schedule1_publishes py i callers s (base : nat) :
  (forall j c, nth_error callers j = Some c -> claimed c) ->
  (List.length (heap s) + List.length (filter recomputing callers)
   <= base + winners callers)%nat ->
  (forall j c,
     nth_error (fst (schedule1 py i (callers, s))) j = Some c -> claimed c)
  /\ (List.length (heap (snd (schedule1 py i (callers, s))))
      + List.length (filter recomputing (fst (schedule1 py i (callers, s))))
      <= base + winners (fst (schedule1 py i (callers, s))))%nat.
Proof.
  intros Hall Hle.
  destruct (nth_error callers i) as [c | ] eqn:Hi.
  - rewrite (schedule1_same py i callers s c Hi). cbn [fst snd].
    destruct (step_publishes py c s (Hall i c Hi)) as [Hc' Hstep].
    split.
    + intros j cj Hj.
      destruct (Nat.eq_dec i j) as [<- | Hne].
      * rewrite (nth_error_replace_nth_same i _ c callers Hi) in Hj.
        injection Hj as <-. exact Hc'.
      * rewrite nth_error_replace_nth_other in Hj by assumption.
        exact (Hall j cj Hj).
    + pose proof (filter_length_replace_nth recomputing i
                    (fst (step py c s)) c callers Hi) as Hrec.
      pose proof (filter_length_replace_nth th_won i
                    (fst (step py c s)) c callers Hi) as Hwon.
      unfold winners in *. cbv beta in Hrec, Hstep, Hle |- *.
      destruct (Nat.eqb (remaining (fst (step py c s))) 2),
               (Nat.eqb (remaining c) 2),
               (th_won (fst (step py c s))), (th_won c);
        cbv iota in Hrec, Hwon, Hstep; lia.
  - unfold schedule1. rewrite Hi. cbn [fst snd]. split; assumption.
Qed.

Lemma run_publishes py schedule callers s (base : nat) :
  (forall j c, nth_error callers j = Some c -> claimed c) ->
  (List.length (heap s) + List.length (filter recomputing callers)
   <= base + winners callers)%nat ->
  (List.length (heap (snd (run py schedule (callers, s))))
   <= base + winners (fst (run py schedule (callers, s))))%nat.
Proof.
  revert callers s; induction schedule as [ | i schedule IH];
    intros callers s Hall Hle.
  - unfold run. cbn [fold_left fst snd]. lia.
  - rewrite run_cons.
    destruct (schedule1_publishes py i callers s base Hall Hle)
      as [Hall' Hle'].
    destruct (schedule1 py i (callers, s)) as [callers' s'].
    cbn [fst snd] in Hall', Hle'.
    apply IH; assumption.
Qed.

(** Only the callers whose compare-and-set succeeded publish: whatever
    the state, the clocks and the schedule, the HealthCounts objects a
    concurrent run of [health_counts] adds to the store are at most as
    many as the callers that won the compare-and-set of line 147. *)
Theorem only_winners_publish py (schedule : list nat) (nows : list Z) s :
  (List.length (heap (snd (run py schedule (map enter nows, s))))
   <= List.length (heap s)
      + winners (fst (run py schedule (map enter nows, s))))%nat.
Proof.
  apply run_publishes.
  - intros j c Hj.
    apply nth_error_In, in_map_iff in Hj. destruct Hj as (n & <- & _).
    cbn. discriminate.
  - assert (Hnone : forall l : list Z,
              filter recomputing (map enter l) = []
              /\ winners (map enter l) = 0%nat).
    { induction l as [ | n l [IH1 IH2]]; [ split; reflexivity | ].
      unfold winners in *. cbn. rewrite IH1. split; [ reflexivity | ].
      exact IH2. }
    destruct (Hnone nows) as [-> ->]. cbn. lia.
Qed.

End Publishers.

(** ** How far the Python 3 percentage is from the exact one

    binary64 rounding never falls below a representable bound either;
    with the bound from above this places [int(error / total * 100)]
    between the exact percentage and one less. *)

Lemma Zdigits2_mono a b : 0 < a <= b -> Zdigits2 a <= Zdigits2 b.
Proof.
  intro Hab. rewrite !Zdigits2_log2 by lia.
  pose proof (Z.log2_le_mono a b ltac:(lia)). lia.
Qed.

Lemma Zdigits2_lower m : 0 < m -> 2 ^ (Zdigits2 m - 1) <= m.
Proof.
  intro Hm. rewrite Zdigits2_log2 by lia.
  replace (Z.log2 m + 1 - 1) with (Z.log2 m) by lia.
  apply Z.log2_spec. exact Hm.
Qed.

(** The truncation [shr_fexp] makes keeps the mantissa above a
    representable bound [B * 2 ^ E]; [N] is an exponent below all the
    others, at which the two sides are compared. *)
Lemma shr_fexp_ge m e B E N :
  0 < B < 2 ^ 53 -> -1074 <= E -> N <= E -> N <= e ->
  B * 2 ^ (E - N) <= m * 2 ^ (e - N) ->
  B * 2 ^ (E - N)
  <= m / 2 ^ Z.max 0 (fexp prec emax (Zdigits2 m + e) - e)
     * 2 ^ (e + Z.max 0 (fexp prec emax (Zdigits2 m + e) - e) - N).
Proof.
  intros HB HE HNE HNe Hle.
  assert (HP : 0 < 2 ^ (e - N)) by (apply Z.pow_pos_nonneg; lia).
  assert (HR : 0 < 2 ^ (E - N)) by (apply Z.pow_pos_nonneg; lia).
  assert (Hm : 0 < m) by nia.
  set (k := Z.max 0 (fexp prec emax (Zdigits2 m + e) - e)).
  assert (Hk : 0 <= k) by (unfold k; lia).
  destruct (Z.eq_dec k 0) as [Hk0 | Hk0].
  - rewrite Hk0. change (2 ^ 0) with 1. rewrite Z.div_1_r, Z.add_0_r.
    exact Hle.
  - assert (Hfexp : e + k = fexp prec emax (Zdigits2 m + e))
      by (unfold k in *; lia).
    assert (HQ : 0 < 2 ^ k) by (apply Z.pow_pos_nonneg; lia).
    replace (e + k - N) with (k + (e - N)) by lia.
    rewrite (Z.pow_add_r 2 k (e - N)) by lia.
    destruct (Z_le_gt_dec (e + k) E) as [Hle1 | Hgt1].
    + assert (HS : 0 < 2 ^ (E - (e + k))) by (apply Z.pow_pos_nonneg; lia).
      assert (Hsplit : 2 ^ (E - N)
                       = 2 ^ (E - (e + k)) * (2 ^ k * 2 ^ (e - N))).
      { rewrite <- !Z.pow_add_r by lia. f_equal. lia. }
      rewrite Hsplit in Hle |- *.
      remember (2 ^ (E - (e + k))) as S' eqn:HeqS.
      remember (2 ^ (e - N)) as P eqn:HeqP.
      remember (2 ^ k) as Q eqn:HeqQ.
      clear HeqS HeqP HeqQ Hsplit.
      assert (Hdiv : B * S' <= m / Q).
      { apply Z.div_le_lower_bound; [ lia | ]. nia. }
      nia.
    + unfold fexp, emin, prec, emax in Hfexp.
      assert (Hkd : k = Zdigits2 m - 53) by lia.
      pose proof (Zdigits2_lower m Hm) as Hlow.
      replace (Zdigits2 m - 1) with (52 + k) in Hlow by lia.
      rewrite Z.pow_add_r in Hlow by lia.
      assert (Hdiv : 2 ^ 52 <= m / 2 ^ k).
      { apply Z.div_le_lower_bound; [ lia | ]. lia. }
      assert (HT : 2 <= 2 ^ (e + k - E)).
      { change 2 with (2 ^ 1) at 1. apply Z.pow_le_mono_r; lia. }
      assert (Hsplit : 2 ^ k * 2 ^ (e - N)
                       = 2 ^ (e + k - E) * 2 ^ (E - N)).
      { rewrite <- !Z.pow_add_r by lia. f_equal. lia. }
      rewrite Hsplit.
      change (2 ^ 53) with 9007199254740992 in HB.
      change (2 ^ 52) with 4503599627370496 in Hdiv.
      remember (2 ^ (e + k - E)) as T eqn:HeqT.
      remember (2 ^ (E - N)) as R eqn:HeqR.
      remember (m / 2 ^ k) as m1 eqn:Heqm1.
      clear HeqT HeqR Heqm1 Hsplit Hlow.
      assert (Hprod : 9007199254740992 <= m1 * T) by nia.
      nia.
Qed.

Lemma binary_round_aux_ge sx m e l B E N :
  0 <= m -> 0 < B < 2 ^ 53 -> -1074 <= E -> N <= E -> N <= e ->
  B * 2 ^ (E - N) <= m * 2 ^ (e - N) ->
  binary_round_aux prec emax sx m e l = S754_infinity sx
  \/ exists m' e',
       binary_round_aux prec emax sx m e l = S754_finite sx m' e'
       /\ e <= e' /\ B * 2 ^ (E - N) <= Z.pos m' * 2 ^ (e' - N).
Proof.
  intros Hm HB HE HNE HNe Hle.
  pose proof (shr_fexp_ge m e B E N HB HE HNE HNe Hle) as H1.
  unfold binary_round_aux, shr_fexp.
  set (k1 := fexp prec emax (Zdigits2 m + e) - e) in *.
  destruct (shr_spec m l e k1 Hm) as (mrs1 & -> & Hm1 & _).
  rewrite <- Hm1 in H1.
  set (e1 := e + Z.max 0 k1) in *.
  assert (He1 : e <= e1) by (unfold e1; lia).
  set (m2 := round_nearest_even (shr_m mrs1) (loc_of_shr_record mrs1)).
  assert (Hm1pos : 0 <= shr_m mrs1).
  { rewrite Hm1. apply Z.div_pos; [ lia | ]. apply Z.pow_pos_nonneg; lia. }
  assert (Hm2 : shr_m mrs1 <= m2)
    by apply (round_nearest_even_bounds (shr_m mrs1) (loc_of_shr_record mrs1)).
  assert (H2 : B * 2 ^ (E - N) <= m2 * 2 ^ (e1 - N)).
  { assert (0 < 2 ^ (e1 - N)) by (apply Z.pow_pos_nonneg; lia). nia. }
  pose proof (shr_fexp_ge m2 e1 B E N HB HE HNE ltac:(lia) H2) as H3.
  set (k2 := fexp prec emax (Zdigits2 m2 + e1) - e1) in *.
  destruct (shr_spec m2 loc_Exact e1 k2 ltac:(lia)) as (mrs2 & -> & Hm3 & _).
  rewrite <- Hm3 in H3.
  set (e3 := e1 + Z.max 0 k2) in *.
  assert (He3 : e1 <= e3) by (unfold e3; lia).
  assert (HR : 0 < B * 2 ^ (E - N)).
  { apply Z.mul_pos_pos; [ lia | apply Z.pow_pos_nonneg; lia ]. }
  assert (HP3 : 0 < 2 ^ (e3 - N)) by (apply Z.pow_pos_nonneg; lia).
  destruct (shr_m mrs2) as [ | p | p ].
  - lia.
  - destruct (e3 <=? emax - prec).
    + right. exists p, e3. split; [ reflexivity | ]. split; [ lia | exact H3 ].
    + left. reflexivity.
  - pose proof (Pos2Z.neg_is_neg p). nia.
Qed.

Lemma new_location_exact b : new_location b 0 = loc_Exact.
Proof.
  unfold new_location, new_location_even, new_location_odd.
  destruct (Z.even b); reflexivity.
Qed.

(** The division core on two integers [0 < a <= b]: the quotient of
    [a * 2 ^ (- e)] by [b], for an [e] of at most -53. *)
Lemma SFdiv_core_binary_spec a b :
  0 < a <= b ->
  exists e,
    e <= -53
    /\ SFdiv_core_binary prec emax a 0 b 0
       = (a * 2 ^ (- e) / b, e, new_location b ((a * 2 ^ (- e)) mod b)).
Proof.
  intro Hab. unfold SFdiv_core_binary.
  set (e' := Z.min (fexp prec emax (Zdigits2 a + 0 - (Zdigits2 b + 0)))
               (0 - 0)).
  assert (He' : e' <= -53).
  { pose proof (Zdigits2_mono a b Hab).
    unfold e', fexp, emin, prec, emax. lia. }
  exists e'. split; [ exact He' | ].
  replace (0 - 0 - e') with (- e') by lia.
  replace (match - e' with
           | Z.pos _ => Z.shiftl a (- e')
           | 0 => a
           | Z.neg _ => 0
           end) with (a * 2 ^ (- e')).
  - unfold Z.div, Z.modulo.
    destruct (Z.div_eucl (a * 2 ^ (- e')) b) as [q r]. reflexivity.
  - destruct (- e') as [ | p | p ] eqn:Hs; try lia.
    symmetry. apply Z.shiftl_mul_pow2. lia.
Qed.

Lemma int_of_float_pos m e :
  int_of_float (S754_finite false m e)
  = inr (if e <? 0 then Z.pos m / 2 ^ (- e) else Z.pos m * 2 ^ e).
Proof.
  unfold int_of_float. destruct e as [ | k | k ]; cbn [Z.ltb Z.compare].
  - rewrite Z.shiftl_0_r. change (2 ^ 0) with 1. now rewrite Z.mul_1_r.
  - rewrite Z.shiftl_mul_pow2 by lia. reflexivity.
  - rewrite Z.shiftr_div_pow2 by lia. reflexivity.
Qed.

(** The quotient is not above a bound [hi * 2 ^ (-53)] that the exact
    quotient is not above. *)
Lemma int_truediv_le a b hi :
  0 < a <= b -> 0 < hi < 2 ^ 53 -> a * 2 ^ 53 <= hi * b ->
  int_truediv a b = inr (S754_zero false)
  \/ exists m e,
       int_truediv a b = inr (S754_finite false m e)
       /\ e <= -53 /\ Z.pos m <= hi * 2 ^ (-53 - e).
Proof.
  intros Hab Hhi Hle.
  destruct a as [ | pa | pa ]; try lia. destruct b as [ | pb | pb ]; try lia.
  unfold int_truediv.
  change (Z.pos pa <? 0) with false. change (Z.pos pb <? 0) with false.
  change (Z.to_pos (Z.abs (Z.pos pa))) with pa.
  change (Z.to_pos (Z.abs (Z.pos pb))) with pb.
  cbn [SFdiv].
  destruct (SFdiv_core_binary_spec (Z.pos pa) (Z.pos pb) Hab)
    as (e & He & ->).
  assert (HP : 0 < 2 ^ (-53 - e)) by (apply Z.pow_pos_nonneg; lia).
  assert (Hpow : 2 ^ (- e) = 2 ^ 53 * 2 ^ (-53 - e)).
  { rewrite <- Z.pow_add_r by lia. f_equal. lia. }
  set (q := Z.pos pa * 2 ^ (- e) / Z.pos pb).
  set (r := (Z.pos pa * 2 ^ (- e)) mod Z.pos pb).
  assert (Heucl : Z.pos pa * 2 ^ (- e) = Z.pos pb * q + r)
    by (apply Z.div_mod; lia).
  assert (Hr : 0 <= r < Z.pos pb) by (apply Z.mod_pos_bound; lia).
  assert (Hq : 0 <= q) by (apply Z.div_pos; nia).
  assert (Hbound :
            (new_location (Z.pos pb) r = loc_Exact
             /\ q <= hi * 2 ^ (-53 - e - 0) * 2 ^ 0)
            \/ q + 1 <= hi * 2 ^ (-53 - e - 0) * 2 ^ 0).
  { rewrite Z.sub_0_r. change (2 ^ 0) with 1. rewrite Z.mul_1_r.
    rewrite Hpow in Heucl.
    clearbody q r. generalize dependent (2 ^ (-53 - e)). intros P HP _ Heucl.
    destruct (Z.eq_dec q (hi * P)) as [Heq | Hne].
    - left. assert (r = 0) by nia. subst r.
      split; [ apply new_location_exact | lia ].
    - right. nia. }
  destruct (binary_round_aux_le (xorb false false) q e
              (new_location (Z.pos pb) r) hi (-53) Hq Hhi ltac:(lia) He)
    as [-> | (m' & e' & -> & He' & Hm')].
  - rewrite Z.sub_0_r in Hbound. change (2 ^ 0) with 1 in Hbound.
    rewrite Z.mul_1_r in Hbound. exact Hbound.
  - left. reflexivity.
  - right. exists m', e'. split; [ reflexivity | ]. split; assumption.
Qed.

(** [int(error / total * 100)] on Python 3 is not above the exact
    percentage, for a total of at most [2 ^ 45]. *)
Lemma percentage_py3_le error_count total_count p :
  0 < error_count < total_count -> total_count <= 2 ^ 45 ->
  percentage Py3 error_count total_count = inr p ->
  p <= error_count * 100 / total_count.
Proof.
  intros He Ht.
  set (k := error_count * 100 / total_count).
  assert (Hk : k * total_count <= error_count * 100
               /\ error_count * 100 + 1 <= (k + 1) * total_count).
  { pose proof (Z.div_mod (error_count * 100) total_count ltac:(lia)) as Hdm.
    pose proof (Z.mod_pos_bound (error_count * 100) total_count ltac:(lia)).
    fold k in Hdm. nia. }
  assert (Hk0 : 0 <= k) by (apply Z.div_pos; lia).
  assert (Hk99 : k <= 99).
  { assert (k < 100); [ | lia ].
    apply Z.div_lt_upper_bound; lia. }
  set (hi := ((k + 1) * 2 ^ 53 - 128) / 100).
  assert (Hhi : 100 * hi <= (k + 1) * 2 ^ 53 - 128
                /\ (k + 1) * 2 ^ 53 - 128 - 99 <= 100 * hi).
  { pose proof (Z.div_mod ((k + 1) * 2 ^ 53 - 128) 100 ltac:(lia)) as Hdm.
    pose proof (Z.mod_pos_bound ((k + 1) * 2 ^ 53 - 128) 100 ltac:(lia)).
    fold hi in Hdm. lia. }
  change (2 ^ 45) with 35184372088832 in Ht.
  change (2 ^ 53) with 9007199254740992 in Hhi.
  unfold percentage.
  destruct (int_truediv_le error_count total_count hi ltac:(lia))
    as [-> | (m & e & -> & Hle & Hm)].
  - change (2 ^ 53) with 9007199254740992. lia.
  - change (2 ^ 53) with 9007199254740992. nia.
  - cbn. intro Hp. injection Hp as <-. exact Hk0.
  - unfold float_mul_int. rewrite float_of_int_100. cbn [SFmul].
    assert (HP : 0 < 2 ^ (-53 - e)) by (apply Z.pow_pos_nonneg; lia).
    destruct (binary_round_aux_le (xorb false false)
                (Z.pos (m * 7036874417766400)) (e + -46) loc_Exact
                ((k + 1) * 2 ^ 46 - 1) (-46)
                ltac:(lia)) as [-> | (m' & e' & -> & He' & Hm')].
    + change (2 ^ 46) with 70368744177664.
      change (2 ^ 53) with 9007199254740992. lia.
    + lia.
    + lia.
    + left. split; [ reflexivity | ].
      replace (-46 - (e + -46)) with (53 + (-53 - e)) by lia.
      rewrite Z.pow_add_r by lia.
      change (2 ^ 46) with 70368744177664.
      change (2 ^ 53) with 9007199254740992.
      rewrite Pos2Z.inj_mul.
      generalize dependent (2 ^ (-53 - e)). intros. nia.
    + cbn. intro Hp. injection Hp as <-. exact Hk0.
    + unfold int_of_float, xorb.
      destruct e' as [ | pe | pe ]; try lia.
      intro Hp. injection Hp as <-.
      rewrite Z.shiftr_div_pow2 by lia.
      assert (HQ : 0 < 2 ^ Z.pos pe) by (apply Z.pow_pos_nonneg; lia).
      assert (Hlt : Z.pos m' / 2 ^ Z.pos pe < k + 1); [ | lia ].
      apply Z.div_lt_upper_bound; [ lia | ].
      replace (Z.pos pe) with (46 + (-46 - Z.neg pe)) at 1 by lia.
      rewrite Z.pow_add_r by lia.
      change (2 ^ 46) with 70368744177664 in *.
      generalize dependent (2 ^ (-46 - Z.neg pe)). intros.
      assert (0 < z) by nia. nia.
Qed.

(** It is at least any whole number the exact quotient is above. *)
Lemma percentage_py3_ge error_count total_count K p :
  0 < error_count <= total_count -> total_count <= 2 ^ 45 ->
  1 <= K -> K * total_count + 1 <= error_count * 100 ->
  percentage Py3 error_count total_count = inr p ->
  K <= p.
Proof.
  intros He Ht HK1 HK.
  assert (HK99 : K <= 99) by nia.
  set (lo := (K * 2 ^ 53 + 99) / 100).
  assert (Hlo : K * 2 ^ 53 <= 100 * lo /\ 100 * lo <= K * 2 ^ 53 + 99).
  { pose proof (Z.div_mod (K * 2 ^ 53 + 99) 100 ltac:(lia)) as Hdm.
    pose proof (Z.mod_pos_bound (K * 2 ^ 53 + 99) 100 ltac:(lia)).
    fold lo in Hdm. lia. }
  change (2 ^ 45) with 35184372088832 in Ht.
  change (2 ^ 53) with 9007199254740992 in Hlo.
  assert (Hlob : lo * total_count <= error_count * 9007199254740992) by nia.
  unfold percentage.
  destruct error_count as [ | pa | pa ]; try lia.
  destruct total_count as [ | pb | pb ]; try lia.
  unfold int_truediv.
  change (Z.pos pa <? 0) with false. change (Z.pos pb <? 0) with false.
  change (Z.to_pos (Z.abs (Z.pos pa))) with pa.
  change (Z.to_pos (Z.abs (Z.pos pb))) with pb.
  cbn [SFdiv].
  destruct (SFdiv_core_binary_spec (Z.pos pa) (Z.pos pb) He)
    as (e & Hle & ->).
  assert (HP : 0 < 2 ^ (-53 - e)) by (apply Z.pow_pos_nonneg; lia).
  assert (Hpow : 2 ^ (- e) = 9007199254740992 * 2 ^ (-53 - e)).
  { change 9007199254740992 with (2 ^ 53).
    rewrite <- Z.pow_add_r by lia. f_equal. lia. }
  set (q := Z.pos pa * 2 ^ (- e) / Z.pos pb).
  assert (Hq : lo * 2 ^ (-53 - e) <= q).
  { apply Z.div_le_lower_bound; [ lia | ]. rewrite Hpow.
    generalize dependent (2 ^ (-53 - e)). intros. nia. }
  assert (Hq0 : 0 <= q) by nia.
  destruct (binary_round_aux_ge (xorb false false) q e
              (new_location (Z.pos pb) ((Z.pos pa * 2 ^ (- e)) mod Z.pos pb))
              lo (-53) e Hq0)
    as [-> | (mx & ex & -> & Hex & Hmx)].
  - change (2 ^ 53) with 9007199254740992. lia.
  - lia.
  - lia.
  - lia.
  - rewrite Z.sub_diag. change (2 ^ 0) with 1. lia.
  - discriminate.
  - cbn [xorb]. cbv iota.
    unfold float_mul_int. rewrite float_of_int_100. cbn [SFmul xorb].
    destruct (binary_round_aux_ge false
                (Z.pos (mx * 7036874417766400)) (ex + -46) loc_Exact
                K 0 (e + -46) ltac:(lia))
      as [-> | (m' & e' & -> & He' & Hm')].
    + change (2 ^ 53) with 9007199254740992. lia.
    + lia.
    + lia.
    + lia.
    + replace (0 - (e + -46)) with (46 + (- e)) by lia.
      replace (ex + -46 - (e + -46)) with (ex - e) by lia.
      rewrite Z.pow_add_r, Hpow by lia.
      change (2 ^ 46) with 70368744177664.
      rewrite Pos2Z.inj_mul.
      assert (0 < 2 ^ (ex - e)) by (apply Z.pow_pos_nonneg; lia).
      generalize dependent (2 ^ (ex - e)).
      generalize dependent (2 ^ (-53 - e)). intros. nia.
    + discriminate.
    + rewrite int_of_float_pos.
      assert (HN : 0 < 2 ^ (0 - (e + -46)))
        by (apply Z.pow_pos_nonneg; lia).
      intro Hp. injection Hp as <-.
      destruct (Z.ltb_spec e' 0) as [Hneg | Hpos].
      * assert (HQ : 0 < 2 ^ (- e')) by (apply Z.pow_pos_nonneg; lia).
        apply Z.div_le_lower_bound; [ lia | ].
        replace (0 - (e + -46))
          with (- e' + (e' - (e + -46))) in Hm' by lia.
        rewrite Z.pow_add_r in Hm' by lia.
        assert (0 < 2 ^ (e' - (e + -46)))
          by (apply Z.pow_pos_nonneg; lia).
        remember (2 ^ (e' - (e + -46))) as T eqn:HeqT.
        remember (2 ^ (- e')) as Q eqn:HeqQ.
        clear HeqT HeqQ. nia.
      * replace (e' - (e + -46)) with (e' + (0 - (e + -46)))
          in Hm' by lia.
        rewrite Z.pow_add_r in Hm' by lia.
        assert (0 < 2 ^ e') by (apply Z.pow_pos_nonneg; lia).
        remember (2 ^ (0 - (e + -46))) as T eqn:HeqT.
        remember (2 ^ e') as Q eqn:HeqQ.
        clear HeqT HeqQ.
        apply <- (Z.mul_le_mono_pos_r K (Z.pos m' * Q) T HN). lia.
Qed.

(** For a total of at most [2 ^ 45], the Python 3 percentage is the
    exact one or one less, and the exact one whenever
    [100 * error / total] is not a whole number. *)
Lemma percentage_py3_accuracy error_count total_count :
  0 <= error_count <= total_count -> 0 < total_count <= 2 ^ 45 ->
  exists p,
    percentage Py3 error_count total_count = inr p
    /\ exact_percentage error_count total_count - 1 <= p
       <= exact_percentage error_count total_count
    /\ ((error_count * 100) mod total_count <> 0 ->
        p = exact_percentage error_count total_count).
Proof.
  intros He Ht.
  unfold exact_percentage.
  replace (total_count =? 0) with false by (symmetry; apply Z.eqb_neq; lia).
  destruct (Z.eq_dec error_count 0) as [-> | Hne0].
  - exists 0. split; [ apply (percentage_ends Py3 total_count); lia | ].
    change (0 * 100) with 0. rewrite Zdiv_0_l, Zmod_0_l.
    split; [ lia | congruence ].
  - destruct (Z.eq_dec error_count total_count) as [-> | Hnet].
    + exists 100. split; [ apply (percentage_ends Py3 total_count); lia | ].
      rewrite (Z.mul_comm total_count 100), Z.div_mul, Z.mod_mul by lia.
      split; [ lia | congruence ].
    + destruct (percentage_bounds Py3 error_count total_count He
                  ltac:(lia)) as (p & Hp & Hp0).
      exists p. split; [ exact Hp | ].
      pose proof (percentage_py3_le error_count total_count p ltac:(lia)
                    ltac:(lia) Hp) as Hup.
      set (k := error_count * 100 / total_count) in *.
      pose proof (Z.div_mod (error_count * 100) total_count ltac:(lia))
        as Hdm.
      pose proof (Z.mod_pos_bound (error_count * 100) total_count
                    ltac:(lia)) as Hmod.
      fold k in Hdm.
      split; [ split; [ | exact Hup ] | ].
      * destruct (Z_le_gt_dec k 1) as [Hk1 | Hk1]; [ lia | ].
        pose proof (percentage_py3_ge error_count total_count (k - 1) p
                      ltac:(lia) ltac:(lia) ltac:(lia) ltac:(nia) Hp).
        lia.
      * intro Hnz.
        destruct (Z_le_gt_dec k 0) as [Hk1 | Hk1]; [ lia | ].
        pose proof (percentage_py3_ge error_count total_count k p
                      ltac:(lia) ltac:(lia) ltac:(lia) ltac:(nia) Hp).
        lia.
Qed.

Section Accuracy.

Context {Counter : Type} `{RollingNumber Counter}.

Implicit Types (s : CommandMetrics.t Counter).

(** On Python 3, as long as the window holds at most [2 ^ 45] requests,
    the percentage a refreshing call publishes is the exact
    [floor(100 * errors / total)] or one less, and it is the exact one
    whenever [100 * errors / total] is not a whole number: the float
    arithmetic of line 162 can lose one percent and only on a whole
    percentage. *)
Theorem health_counts_py3_accuracy now s :
  sums_nonneg ->
  refresh_due (last_health_counts_snapshot s) now s = true ->
  exists h,
    health_counts_value Py3 now s = Some h
    /\ (HealthCounts.total_requests h <= 2 ^ 45 ->
        let exact :=
          exact_percentage (HealthCounts.error_count h)
            (HealthCounts.total_requests h) in
        exact - 1 <= HealthCounts.error_percentage h <= exact
        /\ ((HealthCounts.error_count h * 100)
              mod HealthCounts.total_requests h <> 0 ->
            HealthCounts.error_percentage h = exact)).
Proof.
  intros Hnn Hdue.
  pose proof (health_counts_value_due Py3 now s Hdue) as Hvalue.
  pose proof (read_sums_nonneg (counter s) Hnn) as Hsums.
  destruct (read_sums (counter s)) as [[[[[[a b] c] d] e] f] c'].
  cbv zeta in Hvalue. destruct Hsums as (Ha & Hb & Hc & Hd & He & Hf).
  destruct (0 <? b + a + c + d + f + e) eqn:Hpos.
  - apply Z.ltb_lt in Hpos.
    destruct (percentage_bounds Py3 (b + c + d + f + e)
                (b + a + c + d + f + e) ltac:(lia) Hpos) as (p & Hp & _).
    exists (HealthCounts.__init__ (b + a + c + d + f + e)
              (b + c + d + f + e) p).
    split; [ apply Hvalue; exact Hp | ].
    cbn [HealthCounts.error_count HealthCounts.total_requests
         HealthCounts.error_percentage HealthCounts.__init__
         HealthCounts._error_count HealthCounts._total_count
         HealthCounts._error_percentage].
    intro Hbig.
    destruct (percentage_py3_accuracy (b + c + d + f + e)
                (b + a + c + d + f + e) ltac:(lia) ltac:(lia))
      as (p' & Hp' & Hacc).
    rewrite Hp in Hp'. injection Hp' as <-. exact Hacc.
  - apply Z.ltb_ge in Hpos.
    exists (HealthCounts.__init__ (b + a + c + d + f + e)
              (b + c + d + f + e) 0).
    split; [ apply Hvalue; reflexivity | ].
    cbn [HealthCounts.error_count HealthCounts.total_requests
         HealthCounts.error_percentage HealthCounts.__init__
         HealthCounts._error_count HealthCounts._total_count
         HealthCounts._error_percentage].
    intros _.
    replace (b + a + c + d + f + e) with 0 by lia.
    replace (b + c + d + f + e) with 0 by lia.
    cbn. split; [ lia | congruence ].
Qed.

End Accuracy.

(** ** The properties above, at concrete classes and runs *)


(** The class registered under [refunds] after [payment] and [refund]. *)
Lemma metaclass_registry_entries_witness :
  exists c,
    dict_get "refunds" (__instances__ (define_all [payment; refund] empty))
    = Some c
    /\ cls_name c = "refunds"%string
    /\ class_command_metrics_key c = Some "refunds"%string.
Proof.
  destruct (dict_get "refunds"
              (__instances__ (define_all [payment; refund] empty)))
    as [c | ] eqn:Hget; [ | vm_compute in Hget; discriminate Hget ].
  exists c. split; [ reflexivity | ].
  destruct (metaclass_registry_entries [payment; refund] "refunds" c Hget)
    as (Hname & Hattr & _).
  split; assumption.
Defined.

(** An instance of the class made for [Payment], constructed with the
    key [ignored], reports a failure under [PaymentCommandMetrics]. *)
Lemma instance_notifies_class_key_witness :
  notified (final (mark Failure 7 payment_metrics))
  = [(EventType.FAILURE, Some "PaymentCommandMetrics"%string)].
Proof.
  apply (instance_notifies_class_key (Counter := Tally) [refund] "Payment"
           [0%nat] [] payment_class (Some "ignored"%string) None None
           default_properties quiet_notifier 0 Failure 7);
    reflexivity.
Defined.

(** At [busy], 1000 ms after construction. *)
Lemma health_counts_returns_newest_witness :
  exists r h s',
    health_counts Py3 1000 busy = Returned (Some r) s'
    /\ deref s' r = Some h
    /\ S r = List.length (heap s')
    /\ within_bounds h.
Proof.
  exact (health_counts_returns_newest (Counter := Tally) Py3
           (repeat (Mark Success 12) 71 ++ repeat (Mark Failure 12) 29)
           (Some "CmdCommandMetrics"%string) None None None
           default_properties quiet_notifier 0 1000 Tally_sums_nonneg).
Defined.

(** From [warm], refreshed at 0 with an interval of 500 ms, the calls of
    [polling] up to 900 ms publish at most one snapshot. *)
Lemma recomputations_bounded_witness :
  Z.of_nat (List.length (heap (perform_all Py3 polling warm))
            - List.length (heap warm))
  * snapshot_interval warm
  <= Z.max 0 (900 - last_health_counts_snapshot warm).
Proof.
  apply (recomputations_bounded Py3 polling warm 0%nat 900);
    reflexivity.
Defined.

(** At [warm], one failure and nothing else: 100 percent. *)
Lemma health_counts_ends_witness :
  exists h,
    health_counts_value Py3 600 warm = Some h
    /\ HealthCounts.error_percentage h = 100.
Proof.
  destruct (health_counts_ends Py3 600 warm Tally_sums_nonneg eq_refl)
    as (h & Hv & _ & _ & Hall).
  exists h. split; [ exact Hv | ].
  vm_compute in Hv. injection Hv as <-.
  apply Hall; reflexivity.
Defined.

(** At [busy], 29 failures in 100 requests: 0 percent on Python 2. *)
Lemma health_counts_py2_all_or_nothing_witness :
  exists h,
    health_counts_value Py2 1000 busy = Some h
    /\ HealthCounts.error_count h = 29
    /\ HealthCounts.error_percentage h = 0.
Proof.
  destruct (health_counts_py2_all_or_nothing 1000 busy Tally_sums_nonneg
              eq_refl)
    as (h & Hv & Hzero & _).
  exists h. split; [ exact Hv | ].
  vm_compute in Hv. injection Hv as <-.
  split; [ reflexivity | apply Hzero; reflexivity ].
Defined.

(** Two callers enter on [fresh] at 5 and 7 ms. *)
Lemma first_refresh_loser_returns_none_witness :
  nth_error
    (fst (run Py3 [0; 1; 0; 1; 0; 1; 0; 1; 1]%nat
            ([enter 5; enter 7], fresh)))
    1
  = Some {| th_now := 7; th_at := Done None; th_won := false |}.
Proof.
  apply (first_refresh_loser_returns_none Py3 fresh 5 7).
  - reflexivity.
  - vm_compute. discriminate.
Defined.

(** At [busy], 29 failures in 100 requests: 28 or 29 percent. *)
Lemma health_counts_py3_accuracy_witness :
  exists h,
    health_counts_value Py3 1000 busy = Some h
    /\ 28 <= HealthCounts.error_percentage h <= 29.
Proof.
  destruct (health_counts_py3_accuracy 1000 busy Tally_sums_nonneg eq_refl)
    as (h & Hv & Hacc).
  exists h. split; [ exact Hv | ].
  vm_compute in Hv. injection Hv as <-.
  destruct (Hacc ltac:(vm_compute; discriminate)) as [Hb _].
  exact Hb.
Defined.
